(** * Website down tracker: prober, anomaly detector and Slack notifier

    A shallow embedding of [src/lib/check-engine.ts],
    [src/lib/anomaly-detector.ts] and [src/lib/slack-notifier.ts].

    Numbers are JavaScript integers (status codes, millisecond
    timestamps, row ids) and are modelled as [Z]; nullable columns are
    [option]; the two module-level [Map]s of the notifier are [gmap]s.
    The only non-integer number of the code, the rolling average of the
    slow-response rule, is an exact rational: it is the quotient of an
    integer sum by a list length and is only compared with integers. *)

From Stdlib Require Import ZArith QArith Qround Lia Ascii String DecimalString.
From Stdlib Require DecimalZ DecimalPos.
From stdpp Require Import gmap strings list.
Close Scope Q_scope.
Local Open Scope Z_scope.

(** ** The JavaScript runtime, as far as the code uses it *)

Module Js.

(** Template-literal rendering [`${n}`] of an integer. *)
Definition numToString (n : Z) : string :=
  NilZero.string_of_int (Z.to_int n).

(** Truthiness of a [string | null] value: null and the empty string
    are falsy. *)
Definition truthyStr (s : option string) : bool :=
  match s with
  | Some EmptyString => false
  | Some _ => true
  | None => false
  end.

(** Truthiness of a [number | undefined] value: undefined and 0 are
    falsy (the code never produces NaN). *)
Definition truthyNum (n : option Z) : bool :=
  match n with
  | Some k => negb (k =? 0)
  | None => false
  end.

(** Truthiness of a [boolean | null] value. *)
Definition truthyBool (b : option bool) : bool :=
  match b with
  | Some true => true
  | _ => false
  end.

Definition startsWith (s p : string) : bool := String.prefix p s.

Definition lowerAscii (c : ascii) : ascii :=
  let n := nat_of_ascii c in
  if ((65 <=? n)%nat && (n <=? 90)%nat)%bool then ascii_of_nat (n + 32) else c.

(** [String.prototype.toLowerCase] on the ASCII range, which is the
    range of HTTP header names. *)
Fixpoint toLowerCase (s : string) : string :=
  match s with
  | EmptyString => EmptyString
  | String c r => String (lowerAscii c) (toLowerCase r)
  end.

(** The line feed a template literal writes as a backslash and an n. *)
Definition nl : string := String (ascii_of_nat 10) EmptyString.

(** [Array.prototype.join]. *)
Definition join (sep : string) (l : list string) : string :=
  String.concat sep l.

(** [s.includes(t)] as a proposition. *)
Definition includes (s t : string) : Prop :=
  exists pre post : string, s = pre +:+ t +:+ post.

(** Strict comparison of two rationals, [a > b]. *)
Definition Qgtb (a b : Q) : bool := negb (Qle_bool a b).

End Js.

(** ** Rows of the store ([src/db/schema.ts]) *)

Module Schema.

Inductive AnomalyType :=
| downtime | slow_response | status_code
| content_change | ssl_issue | header_anomaly.

Inductive Severity := low | medium | high | critical.

#[global] Instance AnomalyType_eq_dec : EqDecision AnomalyType.
Proof. solve_decision. Defined.

#[global] Instance Severity_eq_dec : EqDecision Severity.
Proof. solve_decision. Defined.

Record Site := {
  site_id : Z;
  site_url : string;
  site_name : string;
  site_isActive : bool;
}.

(** One hop of a redirect chain. *)
Record RedirectHop := {
  hop_url : string;
  hop_statusCode : Z;
}.

(** A row of [checks]. Timestamps are milliseconds since the epoch
    (what [Date.prototype.getTime] returns). The [redirect_chain]
    column holds [JSON.stringify] of the list of hops; the model keeps
    the list itself. *)
Record Check := {
  id : Z;
  siteId : Z;
  statusCode : option Z;
  responseTimeMs : option Z;
  isUp : option bool;
  errorMessage : option string;
  errorCode : option string;
  headersSnapshot : option string;
  bodyHash : option string;
  sslValid : option bool;
  sslExpiry : option Z;
  sslCertificate : option string;
  redirectChain : option (list RedirectHop);
  checkedAt : Z;
}.

Record SiteSettingsRow := {
  ss_siteId : Z;
  responseTimeThreshold : option Z;
  sslExpiryWarningDays : option Z;
  checkInterval : option Z;
  notifyDowntime : option bool;
  notifySlowResponse : option bool;
  notifyStatusCode : option bool;
  notifyContentChange : option bool;
  notifySslIssue : option bool;
  notifyHeaderAnomaly : option bool;
  severityThreshold : option Severity;
}.

Record AnomalyRecord := {
  a_checkId : Z;
  a_siteId : Z;
  type : AnomalyType;
  description : string;
  severity : Severity;
}.

(** A row of [anomalies]: the inserted record and its [createdAt]. *)
Record AnomalyRow := {
  row_record : AnomalyRecord;
  row_createdAt : Z;
}.

(** The tables the core reads and writes. [settings] is the
    string-keyed table holding the webhook URL. *)
Record Db := {
  sites : list Site;
  checks : list Check;
  siteSettings : list SiteSettingsRow;
  anomalies : list AnomalyRow;
  settings : list (string * string);
}.

(** A [timestamp]-mode column keeps whole seconds: the driver stores
    [Math.floor(getTime() / 1000)] and reads back [new Date(v * 1000)]. *)
Definition storedTimestamp (ms : Z) : Z := ms / 1000 * 1000.

End Schema.

(** ** Effects: the clock, the network and the in-memory maps *)

Module Runtime.
Import Schema.

(** A header value as Node reports it: a string, or an array of
    strings for a header that occurs several times. *)
Inductive HeaderValue :=
| HStr (s : string)
| HArr (l : list string).

Definition Headers := list (string * HeaderValue).

(** The peer certificate as [getPeerCertificate()] returns it:
    [valid_to], the time [new Date(valid_to)] denotes, and the
    [JSON.stringify] of the fields the prober keeps. *)
Record Certificate := {
  valid_to : string;
  valid_to_time : Z;
  cert_json : string;
}.

Inductive PeerCertificate :=
| NoSuchMethod
| CertThrows
| CertNone
| Cert (c : Certificate).

Record Socket := {
  getPeerCertificate : PeerCertificate;
  authorized : option bool;
}.

(** What happens to one [transport.request]: the event that settles
    the promise of [singleRequest], or a synchronous throw of
    [transport.request] itself. *)
Inductive NetEvent :=
| ResponseEnd (status : option Z) (headers : Headers) (body : string)
    (socket : option Socket)
| ResponseError (status : option Z) (headers : Headers)
    (socket : option Socket) (message : string) (code : option string)
| RequestTimeout
| RequestError (message : string) (code : option string)
| RequestThrows (message : string).

(** The body of the webhook POST: the texts of its blocks. *)
Record Payload := {
  p_header : string;
  p_fields : list string;
  p_description : string;
  p_context : string;
}.

Inductive FetchOutcome :=
| Responded (ok : bool)
| FetchThrows (message : string).

(** The world outside the three modules. *)
Record Env := {
  (** successive readings of [Date.now()] / [new Date()] *)
  clock : nat -> Z;
  (** [new URL(url).protocol]; [None] when the constructor throws *)
  URL_protocol : string -> option string;
  (** [new URL(location, base).href]; [None] when it throws *)
  URL_resolve : string -> string -> option string;
  (** the outcome of a GET of a url with a timeout *)
  request : string -> Z -> NetEvent;
  sha256_hex : string -> string;
  JSON_stringify : Headers -> string;
  JSON_parse : string -> option Headers;
  toISOString : Z -> string;
  fetch : string -> Payload -> FetchOutcome;
}.

(** The mutable state: the store, the number of clock readings taken
    so far, the two module-level maps of the notifier and the webhook
    calls made. *)
Record World := {
  db : Db;
  ticks : nat;
  rateLimitMap : gmap string Z;
  downtimeStartMap : gmap Z Z;
  outbox : list (string * Payload);
}.

Definition setDb (d : Db) (w : World) : World :=
  {| db := d; ticks := ticks w; rateLimitMap := rateLimitMap w;
     downtimeStartMap := downtimeStartMap w; outbox := outbox w |}.

Definition setTicks (t : nat) (w : World) : World :=
  {| db := db w; ticks := t; rateLimitMap := rateLimitMap w;
     downtimeStartMap := downtimeStartMap w; outbox := outbox w |}.

Definition setRateLimitMap (m : gmap string Z) (w : World) : World :=
  {| db := db w; ticks := ticks w; rateLimitMap := m;
     downtimeStartMap := downtimeStartMap w; outbox := outbox w |}.

Definition setDowntimeStartMap (m : gmap Z Z) (w : World) : World :=
  {| db := db w; ticks := ticks w; rateLimitMap := rateLimitMap w;
     downtimeStartMap := m; outbox := outbox w |}.

Definition setOutbox (o : list (string * Payload)) (w : World) : World :=
  {| db := db w; ticks := ticks w; rateLimitMap := rateLimitMap w;
     downtimeStartMap := downtimeStartMap w; outbox := o |}.

(** A call either returns or throws (an async function: resolves or
    rejects); the effects made before a throw stay. *)
Inductive Result (A : Type) :=
| Ok (a : A)
| Throw (e : string).
Arguments Ok {A} a.
Arguments Throw {A} e.

Definition M (A : Type) : Type := World -> Result A * World.

#[global] Instance M_ret : MRet M := fun A a w => (Ok a, w).

#[global] Instance M_bind : MBind M := fun A B f m w =>
  match m w with
  | (Ok a, w') => f a w'
  | (Throw e, w') => (Throw e, w')
  end.

Definition throw {A : Type} (e : string) : M A := fun w => (Throw e, w).

(** [try { m } catch { h }] and [promise.catch(h)]. *)
Definition catch {A : Type} (m : M A) (h : string -> M A) : M A := fun w =>
  match m w with
  | (Ok a, w') => (Ok a, w')
  | (Throw e, w') => h e w'
  end.

Definition get : M World := fun w => (Ok w, w).

Definition modify (f : World -> World) : M unit := fun w => (Ok tt, f w).

(** [Date.now()]: the next reading of the clock. *)
Definition Date_now (env : Env) : M Z := fun w =>
  (Ok (clock env (ticks w)), setTicks (S (ticks w)) w).

End Runtime.

(** ** [src/lib/slack-notifier.ts] *)

Module SlackNotifier.
Import Schema Runtime.

Definition RATE_LIMIT_MS : Z := 5 * 60 * 1000.

Definition DEFAULT_ESCALATION_THRESHOLD_MINUTES : Z := 5.

Definition recordDowntimeStart (env : Env) (siteId : Z) : M unit :=
  w ← get;
  if decide (is_Some (downtimeStartMap w !! siteId)) then mret tt
  else
    now ← Date_now env;
    modify (fun w => setDowntimeStartMap (<[siteId := now]> (downtimeStartMap w)) w).

Definition clearDowntime (siteId : Z) : M unit :=
  modify (fun w => setDowntimeStartMap (delete siteId (downtimeStartMap w)) w).

Definition isEscalated (env : Env) (siteId : Z) (thresholdMinutes : option Z)
  : M bool :=
  w ← get;
  match downtimeStartMap w !! siteId with
  | None => mret false
  | Some start =>
    let threshold :=
      default DEFAULT_ESCALATION_THRESHOLD_MINUTES thresholdMinutes * 60 * 1000 in
    now ← Date_now env;
    mret (threshold <=? now - start)
  end.

Record AnomalyNotification := {
  siteName : string;
  siteUrl : string;
  anomalyType : string;
  description : string;
  severity : string;
  timestamp : Z;
  siteId : Z;
  escalated : option bool;
}.

Definition rateLimitKey (siteId : Z) (anomalyType : string) : string :=
  Js.numToString siteId +:+ ":" +:+ anomalyType.

(** [last && Date.now() - last < RATE_LIMIT_MS]: the clock is read only
    when [last] is truthy. *)
Definition isRateLimited (env : Env) (siteId : Z) (anomalyType : string)
  : M bool :=
  let key := rateLimitKey siteId anomalyType in
  w ← get;
  let last := rateLimitMap w !! key in
  limited ←
    (if Js.truthyNum last then
       now ← Date_now env;
       mret (now - default 0 last <? RATE_LIMIT_MS)
     else mret false);
  if limited : bool then mret true
  else
    now ← Date_now env;
    modify (fun w => setRateLimitMap (<[key := now]> (rateLimitMap w)) w);;
    mret false.

(** [select().from(settings).where(eq(settings.key, ...)).limit(1)],
    then [row?.value ?? null]. *)
Definition webhookUrlOf (d : Db) : option string :=
  snd <$> head (filter (fun row => fst row = "slack_webhook_url") (settings d)).

Definition getWebhookUrl : M (option string) :=
  w ← get;
  mret (webhookUrlOf (db w)).

Definition severityEmoji (severity : string) : string :=
  if decide (severity = "critical") then "🔴"
  else if decide (severity = "high") then "🟠"
  else if decide (severity = "medium") then "🟡"
  else "🔵".

Definition notifyAnomaly (env : Env) (notification : AnomalyNotification)
  : M unit :=
  webhookUrl ← getWebhookUrl;
  if negb (Js.truthyStr webhookUrl) then mret tt
  else
    limited ← isRateLimited env (siteId notification) (anomalyType notification);
    if limited : bool then mret tt
    else
      let emoji := severityEmoji (severity notification) in
      let esc := Js.truthyBool (escalated notification) in
      let prefix := if esc then "ESCALATED: " else "" in
      let channelMention := if esc then "<!channel> " else "" in
      let payload :=
        {| p_header := channelMention +:+ emoji +:+ " *" +:+ prefix
                       +:+ "Anomaly Detected: " +:+ anomalyType notification
                       +:+ "*";
           p_fields :=
             [ "*Site:*" +:+ Js.nl +:+ siteName notification;
               "*URL:*" +:+ Js.nl +:+ siteUrl notification;
               "*Type:*" +:+ Js.nl +:+ anomalyType notification;
               "*Severity:*" +:+ Js.nl +:+ severity notification ];
           p_description :=
             "*Description:*" +:+ Js.nl +:+ description notification;
           p_context :=
             "Detected at " +:+ toISOString env (timestamp notification) |} in
      let url := default "" webhookUrl in
      catch
        (modify (fun w => setOutbox (outbox w ++ [(url, payload)]) w);;
         match fetch env url payload with
         | Responded _ => mret tt
         | FetchThrows e => throw e
         end)
        (fun _ => mret tt).

End SlackNotifier.

(** ** [src/lib/anomaly-detector.ts] *)

Module AnomalyDetector.
Import Schema Runtime.

Definition typeName (t : AnomalyType) : string :=
  match t with
  | downtime => "downtime"
  | slow_response => "slow_response"
  | status_code => "status_code"
  | content_change => "content_change"
  | ssl_issue => "ssl_issue"
  | header_anomaly => "header_anomaly"
  end.

Definition severityName (s : Severity) : string :=
  match s with
  | low => "low"
  | medium => "medium"
  | high => "high"
  | critical => "critical"
  end.

Definition ROLLING_AVERAGE_WINDOW : nat := 10.
Definition DEFAULT_SLOW_RESPONSE_MULTIPLIER : Z := 2.
Definition DEFAULT_SSL_EXPIRY_WARNING_DAYS : Z := 7.

Definition SEVERITY_LEVELS (s : Severity) : Z :=
  match s with
  | low => 0
  | medium => 1
  | high => 2
  | critical => 3
  end.

(** [overrides[NOTIFY_TYPE_FIELDS[anomalyType]]]: the toggle column
    that belongs to an anomaly type. *)
Definition NOTIFY_TYPE_FIELDS (t : AnomalyType) (o : SiteSettingsRow)
  : option bool :=
  match t with
  | downtime => notifyDowntime o
  | slow_response => notifySlowResponse o
  | status_code => notifyStatusCode o
  | content_change => notifyContentChange o
  | ssl_issue => notifySslIssue o
  | header_anomaly => notifyHeaderAnomaly o
  end.

Definition shouldNotify (overrides : option SiteSettingsRow)
  (anomalyType : AnomalyType) (sev : Severity) : bool :=
  match overrides with
  | None => true
  | Some o =>
    match NOTIFY_TYPE_FIELDS anomalyType o with
    | Some false => false
    | _ =>
      let threshold := default low (severityThreshold o) in
      SEVERITY_LEVELS threshold <=? SEVERITY_LEVELS sev
    end
  end.

Definition SECURITY_HEADERS : list string :=
  [ "strict-transport-security";
    "content-security-policy";
    "x-content-type-options";
    "x-frame-options";
    "x-xss-protection";
    "referrer-policy";
    "permissions-policy" ].

Definition mkAnomaly (checkId siteId : Z) (t : AnomalyType)
  (d : string) (s : Severity) : AnomalyRecord :=
  {| a_checkId := checkId; a_siteId := siteId; type := t;
     description := d; severity := s |}.

Section Detect.

Variable env : Env.

(** [JSON_parse env] is [None] when [JSON.parse] throws or its value
    has no entries to iterate, otherwise the entries of the parsed
    object in [Object.entries] order. *)
Definition parseHeaders (snapshot : string) : gmap string string :=
  match JSON_parse env snapshot with
  | None => ∅
  | Some entries =>
    foldl (fun (flat : gmap string string) (kv : string * HeaderValue) =>
             <[ Js.toLowerCase (fst kv) :=
                  match snd kv with
                  | HArr l => Js.join ", " l
                  | HStr s => s
                  end ]> flat)
          ∅ entries
  end.

Variables (checkId siteId : Z).
Variable current : Check.
Variable history : list Check.
Variable site : Site.
Variable overrides : option SiteSettingsRow.
(** The reading of [Date.now()] in the ssl rule. *)
Variable now : Z.

Definition push (t : AnomalyType) (d : string) (s : Severity)
  : list AnomalyRecord :=
  [mkAnomaly checkId siteId t d s].

(** 1. downtime: site unreachable or 5xx *)
Definition detectDowntime : list AnomalyRecord :=
  if negb (Js.truthyBool (isUp current)) then
    match statusCode current with
    | Some code =>
      if 500 <=? code then
        push downtime ("server error: HTTP " +:+ Js.numToString code)
             critical
      else []
    | None =>
      push downtime
           (if Js.truthyStr (errorMessage current)
            then "site unreachable: " +:+ default "" (errorMessage current)
            else "site unreachable")
           critical
    end
  else [].

Definition historicalTimes : list Z :=
  omap responseTimeMs history.

(** [historicalTimes.reduce((sum, t) => sum + t, 0) /
    historicalTimes.length] *)
Definition average (times : list Z) : Q :=
  (inject_Z (foldl Z.add 0%Z times) / inject_Z (Z.of_nat (length times)))%Q.

(** [Math.round] of a rational: the nearest integer, halves up. *)
Definition round (q : Q) : Z := Qfloor (q + (1 # 2))%Q.

(** 2. slow response: per-site absolute threshold or 2x rolling
    average *)
Definition detectSlowResponse : list AnomalyRecord :=
  match responseTimeMs current with
  | None => []
  | Some rt =>
    match overrides ≫= responseTimeThreshold with
    | Some thr =>
      if thr <? rt then
        push slow_response
             ("response time " +:+ Js.numToString rt
              +:+ "ms exceeds threshold (" +:+ Js.numToString thr +:+ "ms)")
             (if thr * 2 <? rt then high else medium)
      else []
    | None =>
      if (0 <? length history)%nat then
        if (0 <? length historicalTimes)%nat then
          let avg := average historicalTimes in
          let threshold :=
            (avg * inject_Z DEFAULT_SLOW_RESPONSE_MULTIPLIER)%Q in
          if Js.Qgtb (inject_Z rt) threshold then
            push slow_response
                 ("response time " +:+ Js.numToString rt
                  +:+ "ms exceeds 2x rolling average ("
                  +:+ Js.numToString (round avg) +:+ "ms)")
                 (if Js.Qgtb (inject_Z rt) (avg * inject_Z 4)%Q
                  then high else medium)
          else []
        else []
      else []
    end
  end.

(** 3. unexpected status codes: 3xx or 4xx *)
Definition detectStatusCode : list AnomalyRecord :=
  match statusCode current with
  | None => []
  | Some code =>
    if (400 <=? code) && (code <? 500) then
      push status_code ("client error: HTTP " +:+ Js.numToString code)
           (if (code =? 401) || (code =? 403) then high else medium)
    else if (300 <=? code) && (code <? 400) then
      push status_code ("redirect: HTTP " +:+ Js.numToString code) low
    else []
  end.

(** 4. content change: body hash differs from previous check *)
Definition detectContentChange : list AnomalyRecord :=
  match bodyHash current with
  | None => []
  | Some h =>
    if (0 <? length history)%nat then
      match find (fun c => bool_decide (bodyHash c ≠ None)) history with
      | Some lastWithHash =>
        if bool_decide (bodyHash lastWithHash ≠ Some h) then
          push content_change
               "response body content changed since last check" low
        else []
      | None => []
      end
    else []
  end.

Definition MS_PER_DAY : Z := 1000 * 60 * 60 * 24.

(** [Math.floor((sslExpiry.getTime() - Date.now()) / MS_PER_DAY)] *)
Definition daysUntilExpiry (expiry : Z) : Z := (expiry - now) / MS_PER_DAY.

Definition sslExpiryWarningDaysOf : Z :=
  default DEFAULT_SSL_EXPIRY_WARNING_DAYS (overrides ≫= sslExpiryWarningDays).

(** 5. ssl issues: invalid or expiring, on an https site *)
Definition detectSslIssue : list AnomalyRecord :=
  if Js.startsWith (site_url site) "https://" then
    (if bool_decide (sslValid current = Some false) then
       push ssl_issue "ssl certificate is invalid" critical
     else [])
    ++
    match sslExpiry current with
    | None => []
    | Some expiry =>
      let days := daysUntilExpiry expiry in
      if days <=? 0 then
        push ssl_issue
             ("ssl certificate expired " +:+ Js.numToString (Z.abs days)
              +:+ " days ago")
             critical
      else if days <=? sslExpiryWarningDaysOf then
        push ssl_issue
             ("ssl certificate expires in " +:+ Js.numToString days +:+ " days")
             high
      else []
    end
  else [].

(** The loop over [SECURITY_HEADERS]: the pair of [removedHeaders] and
    [changedHeaders]. *)
Definition compareHeaders (previousHeaders currentHeaders : gmap string string)
  : list string * list string :=
  foldl (fun (acc : list string * list string) (header : string) =>
           match previousHeaders !! header, currentHeaders !! header with
           | Some _, None => (fst acc ++ [header], snd acc)
           | Some prev, Some curr =>
             if decide (prev ≠ curr) then (fst acc, snd acc ++ [header])
             else acc
           | None, _ => acc
           end)
        ([], []) SECURITY_HEADERS.

(** 6. header anomalies: security headers removed or changed *)
Definition detectHeaderAnomaly : list AnomalyRecord :=
  match headersSnapshot current with
  | None => []
  | Some snapshot =>
    if (0 <? length history)%nat then
      match find (fun c => bool_decide (headersSnapshot c ≠ None)) history with
      | Some lastWithHeaders =>
        let currentHeaders := parseHeaders snapshot in
        let previousHeaders :=
          parseHeaders (default "" (headersSnapshot lastWithHeaders)) in
        let removed := fst (compareHeaders previousHeaders currentHeaders) in
        let changed := snd (compareHeaders previousHeaders currentHeaders) in
        (if (0 <? length removed)%nat then
           push header_anomaly
                ("security headers removed: " +:+ Js.join ", " removed) high
         else [])
        ++
        (if (0 <? length changed)%nat then
           push header_anomaly
                ("security headers changed: " +:+ Js.join ", " changed) medium
         else [])
      | None => []
      end
    else []
  end.

(** The array [detected] after the six rules. *)
Definition detect : list AnomalyRecord :=
  detectDowntime ++ detectSlowResponse ++ detectStatusCode
  ++ detectContentChange ++ detectSslIssue ++ detectHeaderAnomaly.

End Detect.

(** The records of one type among the detected ones. *)
Definition ofType (t : AnomalyType) (l : list AnomalyRecord)
  : list AnomalyRecord :=
  filter (fun a => type a = t) l.

(** [orderBy(desc(checks.checkedAt))]; rows with equal timestamps come
    latest-inserted first. *)
Fixpoint insertDesc (c : Check) (l : list Check) : list Check :=
  match l with
  | [] => [c]
  | d :: r => if checkedAt d <? checkedAt c then c :: l else d :: insertDesc c r
  end.

Definition orderByCheckedAtDesc (l : list Check) : list Check :=
  foldr insertDesc [] l.

Definition toNotification (site : Site) (a : AnomalyRecord) (ts : Z)
  : SlackNotifier.AnomalyNotification :=
  {| SlackNotifier.siteName := site_name site;
     SlackNotifier.siteUrl := site_url site;
     SlackNotifier.anomalyType := typeName (type a);
     SlackNotifier.description := description a;
     SlackNotifier.severity := severityName (severity a);
     SlackNotifier.timestamp := ts;
     SlackNotifier.siteId := a_siteId a;
     SlackNotifier.escalated := None |}.

(** The loop that fires the notifications; a rejected [notifyAnomaly]
    is caught and logged. *)
Fixpoint notifyAll (env : Env) (overrides : option SiteSettingsRow)
  (site : Site) (detected : list AnomalyRecord) : M unit :=
  match detected with
  | [] => mret tt
  | anomaly :: rest =>
    (if negb (shouldNotify overrides (type anomaly) (severity anomaly))
     then mret tt
     else
       ts ← Date_now env;
       catch (SlackNotifier.notifyAnomaly env (toNotification site anomaly ts))
             (fun _ => mret tt));;
    notifyAll env overrides site rest
  end.

(** [db.insert(anomalies).values(detected)]; every row takes its
    [createdAt] from the clock. *)
Fixpoint insertAnomalies (env : Env) (detected : list AnomalyRecord) : M unit :=
  match detected with
  | [] => mret tt
  | a :: rest =>
    ts ← Date_now env;
    modify (fun w =>
      let d := db w in
      setDb {| sites := sites d; checks := checks d;
               siteSettings := siteSettings d;
               anomalies := anomalies d ++ [{| row_record := a;
                                            row_createdAt := storedTimestamp ts |}];
               settings := settings d |} w);;
    insertAnomalies env rest
  end.

(** [detectAnomalies] returns nothing; the model returns the array
    [detected] (empty on the two early returns) to state properties of
    it. *)
Definition detectAnomalies (env : Env) (checkId siteId : Z)
  : M (list AnomalyRecord) :=
  w ← get;
  match head (filter (fun c => id c = checkId) (checks (db w))) with
  | None => mret []
  | Some current =>
    let previousChecks :=
      take (ROLLING_AVERAGE_WINDOW + 1)
           (orderByCheckedAtDesc
              (filter (fun c => Schema.siteId c = siteId) (checks (db w)))) in
    let history := filter (fun c => id c ≠ checkId) previousChecks in
    match head (filter (fun s => site_id s = siteId) (sites (db w))) with
    | None => mret []
    | Some site =>
      let overrides :=
        head (filter (fun o => ss_siteId o = siteId) (siteSettings (db w))) in
      now ← (if bool_decide (Js.startsWith (site_url site) "https://" = true
                             ∧ sslExpiry current ≠ None)
             then Date_now env
             else mret 0);
      let detected :=
        detect env checkId siteId current history site overrides now in
      (if (0 <? length detected)%nat then
         insertAnomalies env detected;;
         notifyAll env overrides site detected
       else mret tt);;
      mret detected
    end
  end.

End AnomalyDetector.

(** ** [src/lib/check-engine.ts] *)

Module CheckEngine.
Import Schema Runtime.

Definition CHECK_TIMEOUT_MS : Z := 10000.
Definition MAX_REDIRECTS : Z := 5.

(** [Omit<CheckResult, "siteId">] *)
Record CheckResult := {
  statusCode : option Z;
  responseTimeMs : option Z;
  isUp : bool;
  errorMessage : option string;
  errorCode : option string;
  headersSnapshot : option string;
  bodyHash : option string;
  sslValid : option bool;
  sslExpiry : option Z;
  sslCertificate : option string;
  redirectChain : option (list RedirectHop);
}.

(** What the promise of [singleRequest] resolves to. *)
Record RequestResult := {
  r_statusCode : option Z;
  r_headers : Headers;
  r_body : string;
  r_socket : option Socket;
  r_error : option (string * option string);
}.

(** [new URL(url)] runs inside the promise executor, and so does
    [transport.request]: a throw of either rejects the promise. The
    transport ([https] or [http]) is chosen by the protocol of [url];
    [request env] is given the url and answers for the transport so
    chosen. *)
Definition singleRequest (env : Env) (url : string) (timeoutMs : Z)
  : M RequestResult :=
  match URL_protocol env url with
  | None => throw "TypeError: Invalid URL"
  | Some _ =>
    match request env url timeoutMs with
    | ResponseEnd status headers body socket =>
      mret {| r_statusCode := status; r_headers := headers; r_body := body;
              r_socket := socket; r_error := None |}
    | ResponseError status headers socket message code =>
      mret {| r_statusCode := status; r_headers := headers; r_body := "";
              r_socket := socket; r_error := Some (message, code) |}
    | RequestTimeout =>
      mret {| r_statusCode := None; r_headers := []; r_body := "";
              r_socket := None;
              r_error := Some ("timeout after " +:+ Js.numToString timeoutMs
                               +:+ "ms", Some "ETIMEDOUT") |}
    | RequestError message code =>
      mret {| r_statusCode := None; r_headers := []; r_body := "";
              r_socket := None; r_error := Some (message, code) |}
    | RequestThrows e => throw e
    end
  end.

(** [redirectChain.length > 0 ? JSON.stringify(redirectChain) : null] *)
Definition chainOrNull (redirectChain : list RedirectHop)
  : option (list RedirectHop) :=
  if (0 <? length redirectChain)%nat then Some redirectChain else None.

(** The result of the branches that end a check without a final
    response. *)
Definition failed (status : option Z) (elapsed : Z) (message : string)
  (code : option string) (chain : option (list RedirectHop)) : CheckResult :=
  {| statusCode := status; responseTimeMs := Some elapsed; isUp := false;
     errorMessage := Some message; errorCode := code;
     headersSnapshot := None; bodyHash := None; sslValid := None;
     sslExpiry := None; sslCertificate := None; redirectChain := chain |}.

(** [result.headers.location]: the value of the header, if any. *)
Definition headerLocation (headers : Headers) : option HeaderValue :=
  snd <$> head (filter (fun kv => fst kv = "location") headers).

Definition truthyHeader (v : option HeaderValue) : bool :=
  match v with
  | Some (HStr s) => Js.truthyStr (Some s)
  | Some (HArr _) => true
  | None => false
  end.

(** The string a header value is read as by [new URL]. *)
Definition headerString (v : option HeaderValue) : string :=
  match v with
  | Some (HStr s) => s
  | Some (HArr l) => Js.join "," l
  | None => "undefined"
  end.

(** The ssl fields of the final response, read inside a [try] whose
    [catch] is empty. *)
Definition sslInfo (protocol : string) (socket : option Socket)
  : option bool * option Z * option string :=
  match socket with
  | Some sock =>
    if decide (protocol = "https:") then
      match getPeerCertificate sock with
      | Cert cert =>
        if Js.truthyStr (Some (valid_to cert)) then
          (Some (negb (bool_decide (authorized sock = Some false))),
           Some (valid_to_time cert), Some (cert_json cert))
        else (None, None, None)
      | _ => (None, None, None)
      end
    else (None, None, None)
  | None => (None, None, None)
  end.

Definition too_many_message : string :=
  "too many redirects (>" +:+ Js.numToString MAX_REDIRECTS +:+ ")".

(** [statusCode !== null && statusCode < 500] *)
Definition isUpOf (statusCode : option Z) : bool :=
  match statusCode with
  | Some code => code <? 500
  | None => false
  end.

(** The final response: extract all the data. *)
Definition finalResponse (env : Env) (start : Z)
  (redirectChain : list RedirectHop) (currentUrl : string)
  (result : RequestResult) : M CheckResult :=
  responseTimeMs ← (t ← Date_now env; mret (t - start));
  let bodyHash := sha256_hex env (r_body result) in
  let statusCode := r_statusCode result in
  let isUp := isUpOf statusCode in
  match URL_protocol env currentUrl with
  | None => throw "TypeError: Invalid URL"
  | Some protocol =>
    let ssl := sslInfo protocol (r_socket result) in
    mret {| statusCode := statusCode;
            responseTimeMs := Some responseTimeMs;
            isUp := isUp;
            errorMessage := None;
            errorCode := None;
            headersSnapshot := Some (JSON_stringify env (r_headers result));
            bodyHash := Some bodyHash;
            sslValid := fst (fst ssl);
            sslExpiry := snd (fst ssl);
            sslCertificate := snd ssl;
            redirectChain := chainOrNull redirectChain |}
  end.

(** The [for (let hop = 0; hop <= MAX_REDIRECTS; hop++)] loop of
    [performCheck]; [fuel] is the number of iterations left,
    [MAX_REDIRECTS + 1 - hop]. *)
Fixpoint followRedirects (env : Env) (fuel : nat) (hop : Z) (start : Z)
  (redirectChain : list RedirectHop) (visitedUrls : gset string)
  (currentUrl : string) : M CheckResult :=
  match fuel with
  | O =>
    (* should never reach here, but just in case *)
    t ← Date_now env;
    mret (failed None (t - start) too_many_message (Some "TOO_MANY_REDIRECTS")
                 (chainOrNull redirectChain))
  | S fuel' =>
    (* loop detection *)
    if decide (currentUrl ∈ visitedUrls) then
      t ← Date_now env;
      mret (failed None (t - start)
                   ("redirect loop detected: " +:+ currentUrl
                    +:+ " already visited")%string
                   (Some "REDIRECT_LOOP") (chainOrNull redirectChain))
    else
      let visitedUrls := {[currentUrl]} ∪ visitedUrls in
      t ← Date_now env;
      let remainingMs := CHECK_TIMEOUT_MS - (t - start) in
      if remainingMs <=? 0 then
        t ← Date_now env;
        mret (failed None (t - start)
                     ("timeout after " +:+ Js.numToString CHECK_TIMEOUT_MS
                      +:+ "ms")
                     (Some "ETIMEDOUT") (chainOrNull redirectChain))
      else
        result ← singleRequest env currentUrl remainingMs;
        match r_error result with
        | Some (message, code) =>
          t ← Date_now env;
          mret (failed (r_statusCode result) (t - start) message code
                       (chainOrNull redirectChain))
        | None =>
          let location := headerLocation (r_headers result) in
          match r_statusCode result with
          | Some code =>
            if (300 <=? code) && (code <? 400) && truthyHeader location then
              (* is this a redirect? *)
              let redirectChain :=
                redirectChain ++ [{| hop_url := currentUrl;
                                     hop_statusCode := code |}] in
              if hop =? MAX_REDIRECTS then
                t ← Date_now env;
                mret (failed (Some code) (t - start) too_many_message
                             (Some "TOO_MANY_REDIRECTS") (Some redirectChain))
              else
                match URL_resolve env (headerString location) currentUrl with
                | None => throw "TypeError: Invalid URL"
                | Some next =>
                  followRedirects env fuel' (hop + 1) start redirectChain
                                  visitedUrls next
                end
            else finalResponse env start redirectChain currentUrl result
          | None => finalResponse env start redirectChain currentUrl result
          end
        end
  end.

(** [url] answers a request, whatever its timeout, with a redirect of
    status [code] whose location resolves to [next]. *)
Definition redirectsTo (env : Env) (url : string) (code : Z) (next : string)
  : Prop :=
  is_Some (URL_protocol env url)
  /\ 300 <= code < 400
  /\ forall timeoutMs : Z, exists headers body socket,
       request env url timeoutMs = ResponseEnd (Some code) headers body socket
       /\ truthyHeader (headerLocation headers) = true
       /\ URL_resolve env (headerString (headerLocation headers)) url
          = Some next.

(** Starting at [url], the hops of [chain] redirect one to the next,
    and the last of them to [target]. *)
Fixpoint redirectPath (env : Env) (url : string) (chain : list RedirectHop)
  (target : string) : Prop :=
  match chain with
  | [] => url = target
  | h :: rest =>
    hop_url h = url
    /\ exists next : string,
         redirectsTo env url (hop_statusCode h) next
         /\ redirectPath env next rest target
  end.

(** [new URL] accepts every url and every location, and
    [transport.request] does not throw. *)
Definition wellFormed (env : Env) : Prop :=
  (forall url : string, is_Some (URL_protocol env url))
  /\ (forall location base : string, is_Some (URL_resolve env location base))
  /\ (forall (url : string) (timeoutMs : Z) (message : string),
        request env url timeoutMs <> RequestThrows message).

Definition loopMessage (url : string) : string :=
  "redirect loop detected: " +:+ url +:+ " already visited".

Definition performCheck (env : Env) (url : string) : M CheckResult :=
  start ← Date_now env;
  followRedirects env (Z.to_nat (MAX_REDIRECTS + 1)) 0 start [] ∅ url.

(** [db.insert(checks).values({ siteId, ...result }).returning({ id })]:
    the new row takes the next id and its [checkedAt] from the clock. *)
Definition insertCheck (env : Env) (siteId : Z) (result : CheckResult)
  : M Z :=
  ts ← Date_now env;
  w ← get;
  let d := db w in
  let newId := 1 + foldr Z.max 0 (id <$> checks d) in
  let row :=
    {| id := newId;
       Schema.siteId := siteId;
       Schema.statusCode := statusCode result;
       Schema.responseTimeMs := responseTimeMs result;
       Schema.isUp := Some (isUp result);
       Schema.errorMessage := errorMessage result;
       Schema.errorCode := errorCode result;
       Schema.headersSnapshot := headersSnapshot result;
       Schema.bodyHash := bodyHash result;
       Schema.sslValid := sslValid result;
       Schema.sslExpiry := storedTimestamp <$> sslExpiry result;
       Schema.sslCertificate := sslCertificate result;
       Schema.redirectChain := redirectChain result;
       checkedAt := storedTimestamp ts |} in
  modify (setDb {| sites := sites d; checks := checks d ++ [row];
                   siteSettings := siteSettings d; anomalies := anomalies d;
                   settings := settings d |});;
  mret newId.

(** The unit of work of one site inside [runChecks]. *)
Definition checkSite (env : Env) (site : Site) : M CheckResult :=
  result ← performCheck env (site_url site);
  inserted ← insertCheck env (site_id site) result;
  AnomalyDetector.detectAnomalies env inserted (site_id site);;
  mret result.

(** [Promise.allSettled]: every unit of work runs, and one that rejects
    leaves a rejected entry instead of rejecting the whole. The units
    of work are run one after the other, in the order of the array. *)
Fixpoint allSettled {A : Type} (works : list (M A)) : M (list (Result A)) :=
  match works with
  | [] => mret []
  | work :: rest =>
    r ← (fun w => let (r, w') := work w in (Ok r, w'));
    rs ← allSettled rest;
    mret (r :: rs)
  end.

Definition runChecks (env : Env) : M Z :=
  w ← get;
  let activeSites := filter (fun s => site_isActive s = true) (sites (db w)) in
  if (length activeSites =? 0)%nat then mret 0
  else
    results ← allSettled (checkSite env <$> activeSites);
    mret (Z.of_nat (length results)).

End CheckEngine.

(** ** [src/lib/auth.ts] *)

Module Auth.
Import Schema Runtime.

Definition PASSWORD_SETTINGS_KEY : string := "dashboard_password_hash".

(** [crypto.createHash("sha256").update(password).digest("hex")] *)
Definition hashPassword (env : Env) (password : string) : string :=
  sha256_hex env password.

(** [process.env.DASHBOARD_PASSWORD] is a parameter [envPassword] of
    the functions that read it. *)
Definition getEnvPassword (envPassword : option string) : M string :=
  if negb (Js.truthyStr envPassword)
  then throw "DASHBOARD_PASSWORD env variable is not set"
  else mret (default "" envPassword).

Definition storedPasswordHashOf (d : Db) : option string :=
  snd <$> head (filter (fun row => fst row = PASSWORD_SETTINGS_KEY) (settings d)).

Definition getStoredPasswordHash : M (option string) :=
  w ← get;
  mret (storedPasswordHashOf (db w)).

(** [crypto.timingSafeEqual] on the bytes of two strings: it throws
    when the lengths differ. *)
Definition timingSafeEqual (a b : string) : M bool :=
  if (String.length a =? String.length b)%nat
  then mret (bool_decide (a = b))
  else throw "RangeError: Input buffers must have the same byte length".

Definition checkPassword (env : Env) (envPassword : option string)
  (password : string) : M bool :=
  storedHash ← getStoredPasswordHash;
  if Js.truthyStr storedHash then
    timingSafeEqual (hashPassword env password) (default "" storedHash)
  else
    expected ← getEnvPassword envPassword;
    mret (bool_decide (password = expected)).

(** [insert(settings).values({ key, value }).onConflictDoUpdate(...)]:
    the row of the key takes the value, or a new row is added. *)
Definition upsertSetting (key value : string) (rows : list (string * string))
  : list (string * string) :=
  if bool_decide (Exists (fun row => fst row = key) rows)
  then (fun row => if decide (fst row = key) then (key, value) else row) <$> rows
  else rows ++ [(key, value)].

Definition changePassword (env : Env) (envPassword : option string)
  (currentPassword newPassword : string) : M bool :=
  valid ← checkPassword env envPassword currentPassword;
  if negb valid then mret false
  else
    let newHash := hashPassword env newPassword in
    modify (fun w =>
      let d := db w in
      setDb {| sites := sites d; checks := checks d;
               siteSettings := siteSettings d; anomalies := anomalies d;
               settings := upsertSetting PASSWORD_SETTINGS_KEY newHash
                                         (settings d) |} w);;
    mret true.

End Auth.

(** ** [src/lib/data-retention.ts] *)

Module DataRetention.
Import Schema Runtime.

Definition RETENTION_DAYS : Z := 30.

(** [lt(column, cutoff)] on a timestamp column: both sides are compared
    as whole seconds. *)
Definition olderThan (cutoff : Z) (time : Z) : bool :=
  time / 1000 <? cutoff / 1000.

(** [cutoffDate] moves the local calendar date of the clock reading
    back by [RETENTION_DAYS]; the calendar is the parameter
    [daysBefore]. Whether deleting a check also deletes the anomalies
    that reference it depends on the connection enforcing foreign
    keys, the parameter [foreignKeys]. *)
Definition runCleanup (env : Env) (daysBefore : Z -> Z -> Z)
  (foreignKeys : bool) : M (Z * Z) :=
  now ← Date_now env;
  let cutoff := daysBefore RETENTION_DAYS now in
  w ← get;
  let d := db w in
  (* delete anomalies older than 30 days first *)
  let keptAnomalies :=
    filter (fun a => olderThan cutoff (row_createdAt a) = false) (anomalies d) in
  let deletedAnomalies :=
    Z.of_nat (length (anomalies d)) - Z.of_nat (length keptAnomalies) in
  (* delete checks older than 30 days (also cascades remaining anomalies) *)
  let keptChecks :=
    filter (fun c => olderThan cutoff (checkedAt c) = false) (checks d) in
  let deletedChecks :=
    Z.of_nat (length (checks d)) - Z.of_nat (length keptChecks) in
  let remainingAnomalies :=
    if foreignKeys
    then filter (fun a => Exists (fun c => id c = a_checkId (row_record a))
                                 keptChecks
                          \/ Forall (fun c => id c <> a_checkId (row_record a))
                                    (checks d))
                keptAnomalies
    else keptAnomalies in
  modify (setDb {| sites := sites d; checks := keptChecks;
                   siteSettings := siteSettings d;
                   anomalies := remainingAnomalies;
                   settings := settings d |});;
  mret (deletedChecks, deletedAnomalies).

End DataRetention.

(** ** Shapes of results *)

Module Shapes.
Import Schema Runtime CheckEngine.

(** What every result of the redirect loop satisfies, with a bound on
    the length of its redirect chain. *)
Definition wellShaped (bound : nat) (r : CheckResult) : Prop :=
  responseTimeMs r <> None
  /\ (isUp r = true ->
        errorMessage r = None /\ errorCode r = None
        /\ (exists code : Z, statusCode r = Some code /\ code < 500)
        /\ bodyHash r <> None /\ headersSnapshot r <> None)
  /\ (errorMessage r <> None ->
        isUp r = false /\ bodyHash r = None /\ headersSnapshot r = None
        /\ sslValid r = None /\ sslExpiry r = None /\ sslCertificate r = None)
  /\ (errorCode r <> None -> errorMessage r <> None)
  /\ redirectChain r <> Some []
  /\ (length (default [] (redirectChain r)) <= bound)%nat.

End Shapes.

(** ** Concrete environments and worlds *)

Module Examples.
Import Schema Runtime.

(** An environment in which nothing answers: every url is malformed,
    every request is refused, the webhook accepts every post. *)
Definition quietEnv (clk : nat -> Z) : Env :=
  {| clock := clk;
     URL_protocol := fun _ => None;
     URL_resolve := fun _ _ => None;
     request := fun _ _ => RequestError "connect ECONNREFUSED" (Some "ECONNREFUSED");
     sha256_hex := fun _ => "";
     JSON_stringify := fun _ => "{}";
     JSON_parse := fun _ => None;
     toISOString := fun _ => "1970-01-01T00:00:00.000Z";
     fetch := fun _ _ => Responded true |}.

Definition emptyDb : Db :=
  {| sites := []; checks := []; siteSettings := []; anomalies := [];
     settings := [] |}.

Definition withWebhook (d : Db) : Db :=
  {| sites := sites d; checks := checks d; siteSettings := siteSettings d;
     anomalies := anomalies d;
     settings := [("slack_webhook_url", "https://hooks.slack.com/services/T0/B0/x")] |}.

Definition freshWorld (d : Db) : World :=
  {| db := d; ticks := 0; rateLimitMap := ∅; downtimeStartMap := ∅;
     outbox := [] |}.

Definition downtimeNotification : SlackNotifier.AnomalyNotification :=
  {| SlackNotifier.siteName := "example";
     SlackNotifier.siteUrl := "https://example.com";
     SlackNotifier.anomalyType := "downtime";
     SlackNotifier.description := "server error: HTTP 503";
     SlackNotifier.severity := "critical";
     SlackNotifier.timestamp := 61000;
     SlackNotifier.siteId := 1;
     SlackNotifier.escalated := None |}.

(** A world whose marker for site 1, downtime, was written at time
    1000, with a webhook configured. *)
Definition notifiedWorld : World :=
  setRateLimitMap {[ SlackNotifier.rateLimitKey 1 "downtime" := 1000 ]}
                  (freshWorld (withWebhook emptyDb)).

(** A stand-in for the URL parser: a url is well-formed when it is an
    http or https scheme followed by a non-empty host, and a location
    resolves when it is itself such a url. *)
Definition schemeOf (url : string) : option string :=
  if Js.startsWith url "https://" && (8 <? String.length url)%nat
  then Some "https:"
  else if Js.startsWith url "http://" && (7 <? String.length url)%nat
  then Some "http:"
  else None.

Definition absoluteOnly (location base : string) : option string :=
  if bool_decide (is_Some (schemeOf location)) then Some location else None.

(** A web of sites that redirect: [table] gives the location each url
    redirects to with status 302; every other url answers 200. *)
Definition redirectingEnv (table : list (string * string)) : Env :=
  {| clock := fun n => 1000 + Z.of_nat n;
     URL_protocol := schemeOf;
     URL_resolve := absoluteOnly;
     request := fun url _ =>
       match snd <$> head (filter (fun row => fst row = url) table) with
       | Some target => ResponseEnd (Some 302) [("location", HStr target)] "" None
       | None => ResponseEnd (Some 200) [("content-type", HStr "text/html")] "ok" None
       end;
     sha256_hex := fun _ => "2689367b205c16ce32ed4200942b8b8b1e262dfc70d9bc9fbc77c49699a4f1df";
     JSON_stringify := fun _ => "{}";
     JSON_parse := fun _ => None;
     toISOString := fun _ => "1970-01-01T00:00:00.000Z";
     fetch := fun _ _ => Responded true |}.

(** Scenario E of the specification: A, B, C, D, E, F, then back to B. *)
Definition scenarioE : list (string * string) :=
  [ ("http://a.test/", "http://b.test/");
    ("http://b.test/", "http://c.test/");
    ("http://c.test/", "http://d.test/");
    ("http://d.test/", "http://e.test/");
    ("http://e.test/", "http://f.test/");
    ("http://f.test/", "http://b.test/") ].

(** A site that redirects to a location without a host, which
    [new URL] rejects. *)
Definition badLocation : list (string * string) :=
  [ ("http://a.test/", "http://") ].

Definition redirectingSite : Site :=
  {| site_id := 1; site_url := "http://a.test/";
     site_name := "a"; site_isActive := true |}.

Definition redirectingDb : Db :=
  {| sites := [redirectingSite]; checks := []; siteSettings := [];
     anomalies := []; settings := [] |}.

(** A shorter loop: A, B, C, then back to B. *)
Definition shortLoop : list (string * string) :=
  [ ("http://a.test/", "http://b.test/");
    ("http://b.test/", "http://c.test/");
    ("http://c.test/", "http://b.test/") ].

Definition mkCheck (id siteId : Z) (statusCode responseTimeMs : option Z)
  (isUp : bool) (sslValid : option bool) (sslExpiry : option Z)
  (checkedAt : Z) : Check :=
  {| Schema.id := id; Schema.siteId := siteId;
     Schema.statusCode := statusCode;
     Schema.responseTimeMs := responseTimeMs;
     Schema.isUp := Some isUp;
     Schema.errorMessage := None; Schema.errorCode := None;
     Schema.headersSnapshot := None; Schema.bodyHash := None;
     Schema.sslValid := sslValid; Schema.sslExpiry := sslExpiry;
     Schema.sslCertificate := None; Schema.redirectChain := None;
     Schema.checkedAt := checkedAt |}.

Definition exampleSite : Site :=
  {| site_id := 1; site_url := "https://example.com";
     site_name := "example"; site_isActive := true |}.

Definition malformedSite : Site :=
  {| site_id := 1; site_url := "not a url";
     site_name := "malformed"; site_isActive := true |}.

(** Scenario A: a 503. *)
Definition check503 : Check :=
  mkCheck 7 1 (Some 503) (Some 120) false None None 1700000000000.

(** Scenario B: five prior checks at 100ms, the current one at 250ms. *)
Definition history100 : list Check :=
  (fun k => mkCheck k 1 (Some 200) (Some 100) true None None
                    (1700000000000 - k * 60000)) <$> [1; 2; 3; 4; 5].

Definition check250 : Check :=
  mkCheck 7 1 (Some 200) (Some 250) true None None 1700000000000.

(** An invalid certificate that expires three days after the clock
    reading 1700000000000. *)
Definition checkBadCert : Check :=
  mkCheck 7 1 (Some 200) (Some 120) true (Some false)
          (Some (1700000000000 + 3 * 86400000)) 1700000000000.

(** One active site, checked ten seconds before the clock reading
    1700000000000, with no settings row. *)
Definition recentlyCheckedDb : Db :=
  {| sites := [exampleSite];
     checks := [mkCheck 1 1 (Some 200) (Some 100) true None None
                        (1700000000000 - 10000)];
     siteSettings := []; anomalies := []; settings := [] |}.

Definition healthyEnv : Env :=
  {| clock := fun _ => 1700000000000;
     URL_protocol := schemeOf;
     URL_resolve := absoluteOnly;
     request := fun _ _ =>
       ResponseEnd (Some 200) [("content-type", HStr "text/html")] "ok" None;
     sha256_hex := fun _ => "2689367b205c16ce32ed4200942b8b8b1e262dfc70d9bc9fbc77c49699a4f1df";
     JSON_stringify := fun _ => "{}";
     JSON_parse := fun _ => None;
     toISOString := fun _ => "2023-11-14T22:13:20.000Z";
     fetch := fun _ _ => Responded true |}.

Definition malformedDb : Db :=
  {| sites := [malformedSite]; checks := []; siteSettings := [];
     anomalies := []; settings := [] |}.

End Examples.

(** ** More concrete checks, sites and environments *)

Module MoreExamples.
Import Schema Runtime Examples.

(** A refused connection: no status code, an error message. *)
Definition checkRefused : Check :=
  {| id := 7; siteId := 1; statusCode := None; responseTimeMs := Some 12;
     isUp := Some false;
     errorMessage := Some "connect ECONNREFUSED 127.0.0.1:80";
     errorCode := Some "ECONNREFUSED"; headersSnapshot := None;
     bodyHash := None; sslValid := None; sslExpiry := None;
     sslCertificate := None; redirectChain := None;
     checkedAt := 1700000000000 |}.

(** Settings of site 1 with an absolute threshold of 200ms. *)
Definition thresholdSettings : SiteSettingsRow :=
  {| ss_siteId := 1; responseTimeThreshold := Some 200;
     sslExpiryWarningDays := None; checkInterval := None;
     notifyDowntime := None; notifySlowResponse := None;
     notifyStatusCode := None; notifyContentChange := None;
     notifySslIssue := None; notifyHeaderAnomaly := None;
     severityThreshold := None |}.

(** A check of site 1 with a body hash and a headers snapshot. *)
Definition checkWith (id : Z) (bodyHash headersSnapshot : option string)
  : Check :=
  {| Schema.id := id; siteId := 1; statusCode := Some 200;
     responseTimeMs := Some 100; isUp := Some true; errorMessage := None;
     errorCode := None; Schema.headersSnapshot := headersSnapshot;
     Schema.bodyHash := bodyHash; sslValid := None; sslExpiry := None;
     sslCertificate := None; redirectChain := None;
     checkedAt := 1700000000000 - id * 60000 |}.

(** An environment that knows two snapshots: one with the
    X-Frame-Options header and one without. *)
Definition headersEnv : Env :=
  {| clock := fun _ => 1700000000000;
     URL_protocol := schemeOf;
     URL_resolve := absoluteOnly;
     request := fun _ _ =>
       ResponseEnd (Some 200) [("content-type", HStr "text/html")] "ok" None;
     sha256_hex := fun _ => "2689367b205c16ce32ed4200942b8b8b1e262dfc70d9bc9fbc77c49699a4f1df";
     JSON_stringify := fun _ => "snapshot";
     JSON_parse := fun s =>
       if decide (s = "with-frame-options")
       then Some [("content-type", HStr "text/html");
                  ("X-Frame-Options", HStr "DENY")]
       else if decide (s = "without-frame-options")
       then Some [("content-type", HStr "text/html")]
       else None;
     toISOString := fun _ => "2023-11-14T22:13:20.000Z";
     fetch := fun _ _ => Responded true |}.

(** A site behind one redirect, on a clock that advances six seconds
    at every reading. *)
Definition slowRedirectEnv : Env :=
  {| clock := fun n => 6000 * Z.of_nat n;
     URL_protocol := schemeOf;
     URL_resolve := absoluteOnly;
     request := fun url _ =>
       if decide (url = "http://a.test/")
       then ResponseEnd (Some 301) [("location", HStr "http://b.test/")] "" None
       else ResponseEnd (Some 200) [("content-type", HStr "text/html")] "ok" None;
     sha256_hex := fun _ => "2689367b205c16ce32ed4200942b8b8b1e262dfc70d9bc9fbc77c49699a4f1df";
     JSON_stringify := fun _ => "snapshot";
     JSON_parse := fun _ => None;
     toISOString := fun _ => "1970-01-01T00:00:00.000Z";
     fetch := fun _ _ => Responded true |}.

(** Well-formed urls, every connection refused. *)
Definition refusingEnv : Env :=
  {| clock := fun n => 1000 + Z.of_nat n;
     URL_protocol := schemeOf;
     URL_resolve := absoluteOnly;
     request := fun _ _ =>
       RequestError "connect ECONNREFUSED 127.0.0.1:80" (Some "ECONNREFUSED");
     sha256_hex := fun _ => "";
     JSON_stringify := fun _ => "snapshot";
     JSON_parse := fun _ => None;
     toISOString := fun _ => "1970-01-01T00:00:00.000Z";
     fetch := fun _ _ => Responded true |}.

Definition hop302 (url : string) : RedirectHop :=
  {| hop_url := url; hop_statusCode := 302 |}.

(** The first five hops of Scenario E. *)
Definition fiveHops : list RedirectHop :=
  hop302 <$> [ "http://a.test/"; "http://b.test/"; "http://c.test/";
               "http://d.test/"; "http://e.test/" ].

(** The result of probing a healthy https site on a clock that stands
    still. *)
Definition healthyResult : CheckEngine.CheckResult :=
  {| CheckEngine.statusCode := Some 200;
     CheckEngine.responseTimeMs := Some 0;
     CheckEngine.isUp := true;
     CheckEngine.errorMessage := None;
     CheckEngine.errorCode := None;
     CheckEngine.headersSnapshot := Some "{}";
     CheckEngine.bodyHash :=
       Some "2689367b205c16ce32ed4200942b8b8b1e262dfc70d9bc9fbc77c49699a4f1df";
     CheckEngine.sslValid := None;
     CheckEngine.sslExpiry := None;
     CheckEngine.sslCertificate := None;
     CheckEngine.redirectChain := None |}.

End MoreExamples.

(** * Properties *)

Lemma append_empty_r (s : string) : s +:+ "" = s.
Proof.
  induction s as [|c s IH]; [done|].
  change (String c (s +:+ "") = String c s). by rewrite IH.
Qed.

Lemma includes_suffix (s t : string) : Js.includes (s +:+ t) t.
Proof. exists s, ""%string. by rewrite append_empty_r. Qed.

Lemma Qgtb_lt (a b : Q) : Js.Qgtb a b = true <-> (b < a)%Q.
Proof.
  unfold Js.Qgtb. rewrite negb_true_iff. split.
  - intros H. apply Qnot_le_lt. intros Hle.
    apply Qle_bool_iff in Hle. congruence.
  - intros H. destruct (Qle_bool a b) eqn:E; [|done].
    apply Qle_bool_iff in E. by apply Qlt_not_le in H.
Qed.

Lemma Qgtb_le (a b : Q) : Js.Qgtb a b = false <-> (a <= b)%Q.
Proof.
  unfold Js.Qgtb. rewrite negb_false_iff. apply Qle_bool_iff.
Qed.

(** ** The anomaly detector *)

Section DetectorFacts.
Import Schema Runtime AnomalyDetector.

Variable env : Env.
Variables (checkId siteId : Z).
Variable current : Check.
Variable history : list Check.
Variable site : Site.
Variable overrides : option SiteSettingsRow.
Variable now : Z.

Lemma ofType_app t (l1 l2 : list AnomalyRecord) :
  ofType t (l1 ++ l2) = ofType t l1 ++ ofType t l2.
Proof. apply filter_app. Qed.

Lemma ofType_other t t' (l : list AnomalyRecord) :
  t ≠ t' -> Forall (fun a => type a = t') l -> ofType t l = [].
Proof.
  intros Hne Hall. induction Hall as [|a l Ha _ IH]; [done|].
  unfold ofType in *. rewrite filter_cons_False; [exact IH|congruence].
Qed.

Lemma ofType_same t (l : list AnomalyRecord) :
  Forall (fun a => type a = t) l -> ofType t l = l.
Proof.
  intros Hall. induction Hall as [|a l Ha _ IH]; [done|].
  unfold ofType in *. rewrite filter_cons_True; [by rewrite IH|done].
Qed.

Ltac rule_types :=
  repeat (case_match; simpl);
  rewrite ?Forall_app; repeat split; repeat constructor.

Lemma detectDowntime_type :
  Forall (fun a => type a = downtime) (detectDowntime checkId siteId current).
Proof. unfold detectDowntime, push. rule_types. Qed.

Lemma detectSlowResponse_type :
  Forall (fun a => type a = slow_response)
         (detectSlowResponse checkId siteId current history overrides).
Proof. unfold detectSlowResponse, push. rule_types. Qed.

Lemma detectStatusCode_type :
  Forall (fun a => type a = status_code) (detectStatusCode checkId siteId current).
Proof. unfold detectStatusCode, push. rule_types. Qed.

Lemma detectContentChange_type :
  Forall (fun a => type a = content_change)
         (detectContentChange checkId siteId current history).
Proof. unfold detectContentChange, push. rule_types. Qed.

Lemma detectSslIssue_type :
  Forall (fun a => type a = ssl_issue)
         (detectSslIssue checkId siteId current site overrides now).
Proof.
  unfold detectSslIssue, push. rule_types.
Qed.

Lemma detectHeaderAnomaly_type :
  Forall (fun a => type a = header_anomaly)
         (detectHeaderAnomaly env checkId siteId current history).
Proof.
  unfold detectHeaderAnomaly, push.
  destruct (headersSnapshot current) as [snapshot|]; [|done].
  destruct (0 <? length history)%nat; [|done].
  destruct (find _ history) as [lastWithHeaders|]; [|done].
  generalize (compareHeaders
                (parseHeaders env (default "" (headersSnapshot lastWithHeaders)))
                (parseHeaders env snapshot)).
  intros [removed changed]. cbn [fst snd].
  destruct (0 <? length removed)%nat, (0 <? length changed)%nat;
    repeat constructor.
Qed.

(** The records of a type come from the rule of that type alone. *)
Lemma ofType_detect t :
  ofType t (detect env checkId siteId current history site overrides now) =
  match t with
  | downtime => detectDowntime checkId siteId current
  | slow_response => detectSlowResponse checkId siteId current history overrides
  | status_code => detectStatusCode checkId siteId current
  | content_change => detectContentChange checkId siteId current history
  | ssl_issue => detectSslIssue checkId siteId current site overrides now
  | header_anomaly => detectHeaderAnomaly env checkId siteId current history
  end.
Proof.
  unfold detect. rewrite !ofType_app.
  pose proof detectDowntime_type as H1.
  pose proof detectSlowResponse_type as H2.
  pose proof detectStatusCode_type as H3.
  pose proof detectContentChange_type as H4.
  pose proof detectSslIssue_type as H5.
  pose proof detectHeaderAnomaly_type as H6.
  destruct t;
    repeat match goal with
    | H : Forall (fun a => type a = ?t') ?l |- context [ofType ?t ?l] =>
      first [ rewrite (ofType_same t l H)
            | rewrite (ofType_other t t' l ltac:(discriminate) H) ];
      clear H
    end;
    simpl; by rewrite ?app_nil_r.
Qed.

Abbreviation detected :=
  (detect env checkId siteId current history site overrides now).

(** C5. A check whose status code lies in [500,599], with [isUp]
    derived from the status code as the prober derives it, yields
    exactly one downtime anomaly; it is critical and its description
    contains the status code. *)
Theorem detect_server_error_downtime (code : Z) :
  statusCode current = Some code ->
  500 <= code <= 599 ->
  isUp current = Some (CheckEngine.isUpOf (statusCode current)) ->
  exists a : AnomalyRecord,
    ofType downtime detected = [a]
    /\ severity a = critical
    /\ Js.includes (description a) (Js.numToString code).
Proof.
  intros Hcode Hrange Hup. rewrite ofType_detect.
  unfold detectDowntime, push. rewrite Hup, Hcode. simpl.
  assert ((code <? 500) = false) as -> by lia. simpl.
  assert ((500 <=? code) = true) as -> by lia.
  eexists. split; [reflexivity|]. split; [reflexivity|].
  simpl. apply (includes_suffix "server error: HTTP ").
Qed.

(** C6. With a response time, no absolute threshold override and a
    rolling window whose non-null response times have mean [avg]: a
    response time above [2 * avg] yields exactly one slow_response
    anomaly, high iff the response time is above [4 * avg] and medium
    otherwise; a response time of at most [2 * avg] yields none. *)
Theorem detect_slow_response_rolling_average (rt : Z) :
  responseTimeMs current = Some rt ->
  overrides ≫= responseTimeThreshold = None ->
  historicalTimes history <> [] ->
  let avg := average (historicalTimes history) in
  let slow := ofType slow_response detected in
  ((2 * avg < inject_Z rt)%Q ->
     exists a : AnomalyRecord,
       slow = [a]
       /\ (severity a = high <-> (4 * avg < inject_Z rt)%Q)
       /\ (severity a = medium <-> ~ (4 * avg < inject_Z rt)%Q))
  /\ ((inject_Z rt <= 2 * avg)%Q -> slow = []).
Proof.
  intros Hrt Hthr Htimes avg slow. subst slow. rewrite ofType_detect.
  unfold detectSlowResponse, push. rewrite Hrt, Hthr.
  assert ((0 <? length history)%nat = true) as ->.
  { destruct history; [done|]. simpl. done. }
  assert ((0 <? length (historicalTimes history))%nat = true) as ->.
  { destruct (historicalTimes history); [done|]. simpl. done. }
  fold avg. unfold DEFAULT_SLOW_RESPONSE_MULTIPLIER.
  change (inject_Z 2) with 2%Q. change (inject_Z 4) with 4%Q.
  split.
  - intros Hslow.
    assert (Js.Qgtb (inject_Z rt) (avg * 2)%Q = true) as ->.
    { apply Qgtb_lt. by rewrite Qmult_comm. }
    eexists. split; [reflexivity|]. simpl.
    destruct (Js.Qgtb (inject_Z rt) (avg * 4)%Q) eqn:E.
    + apply Qgtb_lt in E. rewrite Qmult_comm in E.
      split; [tauto|]. split; [discriminate|tauto].
    + apply Qgtb_le in E. rewrite Qmult_comm in E.
      apply Qle_not_lt in E. split; split; first [discriminate | tauto | done].
  - intros Hfast.
    assert (Js.Qgtb (inject_Z rt) (avg * 2)%Q = false) as ->; [|done].
    apply Qgtb_le. by rewrite Qmult_comm.
Qed.

(** C7. On an https site the invalid-certificate check and the expiry
    check are independent: a check with [sslValid === false] and an
    expiry within the warning window yields two ssl_issue records, a
    critical one for the invalid certificate and one for the expiry
    (critical when already expired, high otherwise). *)
Theorem detect_ssl_invalid_and_expiring (expiry : Z) :
  Js.startsWith (site_url site) "https://" = true ->
  sslValid current = Some false ->
  sslExpiry current = Some expiry ->
  daysUntilExpiry now expiry <= sslExpiryWarningDaysOf overrides ->
  exists a b : AnomalyRecord,
    ofType ssl_issue detected = [a; b]
    /\ severity a = critical
    /\ description a = "ssl certificate is invalid"
    /\ severity b = (if daysUntilExpiry now expiry <=? 0 then critical else high)
    /\ description b =
         (if daysUntilExpiry now expiry <=? 0
          then "ssl certificate expired "
               +:+ Js.numToString (Z.abs (daysUntilExpiry now expiry))
               +:+ " days ago"
          else "ssl certificate expires in "
               +:+ Js.numToString (daysUntilExpiry now expiry) +:+ " days").
Proof.
  intros Hhttps Hvalid Hexp Hdays. rewrite ofType_detect.
  unfold detectSslIssue, push. rewrite Hhttps, Hvalid, Hexp.
  rewrite bool_decide_eq_true_2 by done. simpl.
  destruct (daysUntilExpiry now expiry <=? 0) eqn:E.
  - eexists _, _. repeat split; reflexivity.
  - assert ((daysUntilExpiry now expiry <=? sslExpiryWarningDaysOf overrides)
            = true) as -> by lia.
    eexists _, _. repeat split; reflexivity.
Qed.

(** C10. No check yields both a downtime and a status_code anomaly. *)
Theorem detect_downtime_status_code_disjoint :
  ofType downtime detected = [] \/ ofType status_code detected = [].
Proof.
  rewrite !ofType_detect. unfold detectDowntime, detectStatusCode, push.
  destruct (statusCode current) as [code|]; [|by right].
  destruct (500 <=? code) eqn:E.
  - right. assert ((code <? 500) = false) as -> by lia.
    assert ((code <? 400) = false) as -> by lia.
    by rewrite !andb_false_r.
  - left. by destruct (negb _).
Qed.

End DetectorFacts.

(** C8. An anomaly is eligible for notification exactly when the site
    has no settings row, or its type toggle is not explicitly false
    and its severity is at least the configured floor (low when
    unset) in the numeric order low < medium < high < critical. *)
Theorem shouldNotify_eligibility
  (overrides : option Schema.SiteSettingsRow)
  (t : Schema.AnomalyType) (sev : Schema.Severity) :
  (AnomalyDetector.shouldNotify overrides t sev = true <->
     overrides = None
     \/ exists o : Schema.SiteSettingsRow,
          overrides = Some o
          /\ AnomalyDetector.NOTIFY_TYPE_FIELDS t o <> Some false
          /\ AnomalyDetector.SEVERITY_LEVELS
               (default Schema.low (Schema.severityThreshold o))
             <= AnomalyDetector.SEVERITY_LEVELS sev)
  /\ (AnomalyDetector.SEVERITY_LEVELS <$>
        [Schema.low; Schema.medium; Schema.high; Schema.critical])
     = [0; 1; 2; 3].
Proof.
  split; [|reflexivity].
  unfold AnomalyDetector.shouldNotify.
  destruct overrides as [o|]; [|tauto].
  destruct (AnomalyDetector.NOTIFY_TYPE_FIELDS t o) as [[]|] eqn:E.
  - rewrite Z.leb_le. split.
    + intros H. right. exists o. by rewrite E.
    + intros [?|(o' & [= <-] & _ & H)]; done.
  - split; [done|]. intros [?|(o' & [= <-] & H & _)]; [done|].
    by rewrite E in H.
  - rewrite Z.leb_le. split.
    + intros H. right. exists o. by rewrite E.
    + intros [?|(o' & [= <-] & _ & H)]; done.
Qed.

Lemma detect_server_error_downtime_witness :
  exists a : Schema.AnomalyRecord,
    AnomalyDetector.ofType Schema.downtime
      (AnomalyDetector.detect Examples.healthyEnv 7 1 Examples.check503 []
         Examples.exampleSite None 1700000000000) = [a]
    /\ Schema.severity a = Schema.critical
    /\ Js.includes (Schema.description a) (Js.numToString 503).
Proof.
  apply (detect_server_error_downtime Examples.healthyEnv 7 1
           Examples.check503 [] Examples.exampleSite None 1700000000000 503).
  - reflexivity.
  - lia.
  - reflexivity.
Defined.

Lemma detect_slow_response_rolling_average_witness :
  let avg :=
    AnomalyDetector.average (AnomalyDetector.historicalTimes Examples.history100) in
  let slow :=
    AnomalyDetector.ofType Schema.slow_response
      (AnomalyDetector.detect Examples.healthyEnv 7 1 Examples.check250
         Examples.history100 Examples.exampleSite None 1700000000000) in
  ((2 * avg < inject_Z 250)%Q ->
     exists a : Schema.AnomalyRecord,
       slow = [a]
       /\ (Schema.severity a = Schema.high <-> (4 * avg < inject_Z 250)%Q)
       /\ (Schema.severity a = Schema.medium <-> ~ (4 * avg < inject_Z 250)%Q))
  /\ ((inject_Z 250 <= 2 * avg)%Q -> slow = []).
Proof.
  apply (detect_slow_response_rolling_average Examples.healthyEnv 7 1
           Examples.check250 Examples.history100 Examples.exampleSite None
           1700000000000 250).
  - reflexivity.
  - reflexivity.
  - vm_compute. discriminate.
Defined.

Lemma detect_ssl_invalid_and_expiring_witness :
  exists a b : Schema.AnomalyRecord,
    AnomalyDetector.ofType Schema.ssl_issue
      (AnomalyDetector.detect Examples.healthyEnv 7 1 Examples.checkBadCert []
         Examples.exampleSite None 1700000000000) = [a; b]
    /\ Schema.severity a = Schema.critical
    /\ Schema.description a = "ssl certificate is invalid"
    /\ Schema.severity b = Schema.high
    /\ Schema.description b = "ssl certificate expires in 3 days".
Proof.
  apply (detect_ssl_invalid_and_expiring Examples.healthyEnv 7 1
           Examples.checkBadCert [] Examples.exampleSite None 1700000000000
           (1700000000000 + 3 * 86400000)).
  - reflexivity.
  - reflexivity.
  - reflexivity.
  - vm_compute. discriminate.
Defined.

(** Scenario B: five prior checks at 100ms and a current one at 250ms
    give one medium slow_response anomaly (250 < 400). *)
Example scenarioB_medium :
  AnomalyDetector.detect Examples.healthyEnv 7 1 Examples.check250
    Examples.history100 Examples.exampleSite None 1700000000000
  = [ AnomalyDetector.mkAnomaly 7 1 Schema.slow_response
        "response time 250ms exceeds 2x rolling average (100ms)"
        Schema.medium ].
Proof. vm_compute. reflexivity. Qed.

(** Scenario A: a 503 gives one critical downtime anomaly. *)
Example scenarioA_downtime :
  AnomalyDetector.detect Examples.healthyEnv 7 1 Examples.check503 []
    Examples.exampleSite None 1700000000000
  = [ AnomalyDetector.mkAnomaly 7 1 Schema.downtime
        "server error: HTTP 503" Schema.critical ].
Proof. vm_compute. reflexivity. Qed.

(** ** The notifier *)

Section NotifierFacts.
Import Schema Runtime SlackNotifier.

Variable env : Env.

(** C9. Without a configured webhook URL, [notifyAnomaly] returns
    before the rate-limit state is consulted or updated: the call
    changes nothing, so no marker is written and no window starts. *)
Theorem notifyAnomaly_without_webhook
  (notification : AnomalyNotification) (w : World) :
  Js.truthyStr (webhookUrlOf (db w)) = false ->
  notifyAnomaly env notification w = (Ok tt, w)
  /\ rateLimitMap (notifyAnomaly env notification w).2 = rateLimitMap w.
Proof.
  intros Hurl.
  assert (notifyAnomaly env notification w = (Ok tt, w)) as ->; [|done].
  unfold notifyAnomaly, getWebhookUrl, mbind, M_bind, get, mret, M_ret.
  simpl. by rewrite Hurl.
Qed.

(** A suppressed call of [isRateLimited] reads the clock once and
    leaves the map as it was. *)
Lemma isRateLimited_suppressed (siteId : Z) (anomalyType : string)
  (w : World) (last : Z) :
  rateLimitMap w !! rateLimitKey siteId anomalyType = Some last ->
  last <> 0 ->
  clock env (ticks w) - last < RATE_LIMIT_MS ->
  isRateLimited env siteId anomalyType w = (Ok true, setTicks (S (ticks w)) w).
Proof.
  intros Hlast Hnz Hrecent.
  unfold isRateLimited, mbind, M_bind, get, mret, M_ret, Date_now.
  simpl. rewrite Hlast. simpl.
  assert ((last =? 0) = false) as -> by lia. simpl.
  by assert ((clock env (ticks w) - last <? RATE_LIMIT_MS) = true) as -> by lia.
Qed.

(** A call of [isRateLimited] that finds a marker at least five
    minutes old writes the next reading of the clock. *)
Lemma isRateLimited_expired (siteId : Z) (anomalyType : string)
  (w : World) (last : Z) :
  rateLimitMap w !! rateLimitKey siteId anomalyType = Some last ->
  last <> 0 ->
  RATE_LIMIT_MS <= clock env (ticks w) - last ->
  isRateLimited env siteId anomalyType w =
  (Ok false,
   setRateLimitMap
     (<[rateLimitKey siteId anomalyType := clock env (S (ticks w))]>
        (rateLimitMap w))
     (setTicks (S (S (ticks w))) w)).
Proof.
  intros Hlast Hnz Hold.
  unfold isRateLimited, mbind, M_bind, get, mret, M_ret, Date_now, modify.
  simpl. rewrite Hlast. simpl.
  assert ((last =? 0) = false) as -> by lia. simpl.
  by assert ((clock env (ticks w) - last <? RATE_LIMIT_MS) = false) as -> by lia.
Qed.

(** A call of [isRateLimited] that finds no marker writes the reading
    of the clock. *)
Lemma isRateLimited_first (siteId : Z) (anomalyType : string) (w : World) :
  rateLimitMap w !! rateLimitKey siteId anomalyType = None ->
  isRateLimited env siteId anomalyType w =
  (Ok false,
   setRateLimitMap
     (<[rateLimitKey siteId anomalyType := clock env (ticks w)]>
        (rateLimitMap w))
     (setTicks (S (ticks w)) w)).
Proof.
  intros Hlast.
  unfold isRateLimited, mbind, M_bind, get, mret, M_ret, Date_now, modify.
  simpl. by rewrite Hlast.
Qed.

(** C2, as the code has it. A dispatch attempt that arrives less than
    five minutes after the marker of its key sends no webhook call and
    leaves the marker as it was: the marker is written by attempts
    that are not suppressed only. *)
Theorem notifyAnomaly_suppressed_keeps_marker
  (notification : AnomalyNotification) (w : World) (last : Z) :
  rateLimitMap w !! rateLimitKey (siteId notification) (anomalyType notification)
    = Some last ->
  last <> 0 ->
  clock env (ticks w) - last < RATE_LIMIT_MS ->
  (notifyAnomaly env notification w).1 = Ok tt
  /\ outbox (notifyAnomaly env notification w).2 = outbox w
  /\ rateLimitMap (notifyAnomaly env notification w).2 = rateLimitMap w.
Proof.
  intros Hlast Hnz Hrecent.
  assert (notifyAnomaly env notification w =
          (Ok tt, if Js.truthyStr (webhookUrlOf (db w))
                  then setTicks (S (ticks w)) w else w)) as ->.
  { unfold notifyAnomaly, getWebhookUrl, mbind, M_bind, get, mret, M_ret.
    simpl. destruct (Js.truthyStr (webhookUrlOf (db w))); simpl; [|done].
    by rewrite (isRateLimited_suppressed _ _ _ _ Hlast Hnz Hrecent). }
  by destruct (Js.truthyStr (webhookUrlOf (db w))).
Qed.

End NotifierFacts.

Lemma notifyAnomaly_without_webhook_witness :
  let env := Examples.quietEnv (fun _ => 61000) in
  let w := Examples.freshWorld Examples.emptyDb in
  SlackNotifier.notifyAnomaly env Examples.downtimeNotification w
    = (Runtime.Ok tt, w)
  /\ Runtime.rateLimitMap
       (SlackNotifier.notifyAnomaly env Examples.downtimeNotification w).2
     = Runtime.rateLimitMap w.
Proof.
  apply (notifyAnomaly_without_webhook
           (Examples.quietEnv (fun _ => 61000))
           Examples.downtimeNotification
           (Examples.freshWorld Examples.emptyDb)).
  reflexivity.
Defined.

(** C2, as stated, fails: an attempt at time 61000 for a key whose
    marker is 1000 is suppressed, yet the marker is still 1000 after
    it, not 61000. *)
Lemma suppressed_attempt_does_not_refresh_marker :
  let env := Examples.quietEnv (fun _ => 61000) in
  let w := Examples.notifiedWorld in
  let key := SlackNotifier.rateLimitKey 1 "downtime" in
  let w' := (SlackNotifier.notifyAnomaly env Examples.downtimeNotification w).2 in
  Runtime.rateLimitMap w !! key = Some 1000
  /\ Runtime.clock env (Runtime.ticks w) = 61000
  /\ 61000 - 1000 < SlackNotifier.RATE_LIMIT_MS
  /\ Runtime.outbox w' = []
  /\ Runtime.rateLimitMap w' !! key = Some 1000
  /\ Runtime.rateLimitMap w' !! key <> Some 61000.
Proof. vm_compute. repeat split; try done. Qed.

Lemma notifyAnomaly_suppressed_keeps_marker_witness :
  let env := Examples.quietEnv (fun _ => 61000) in
  let w := Examples.notifiedWorld in
  let n := Examples.downtimeNotification in
  (SlackNotifier.notifyAnomaly env n w).1 = Runtime.Ok tt
  /\ Runtime.outbox (SlackNotifier.notifyAnomaly env n w).2 = Runtime.outbox w
  /\ Runtime.rateLimitMap (SlackNotifier.notifyAnomaly env n w).2
     = Runtime.rateLimitMap w.
Proof.
  apply (notifyAnomaly_suppressed_keeps_marker
           (Examples.quietEnv (fun _ => 61000))
           Examples.downtimeNotification Examples.notifiedWorld 1000).
  - reflexivity.
  - lia.
  - vm_compute. reflexivity.
Defined.

(** Two dispatches for one key, five seconds apart: one webhook call,
    and the marker is the time of the first. *)
Example two_dispatches_one_call :
  let env := Examples.quietEnv (fun n => 61000 + 5000 * Z.of_nat n) in
  let n := Examples.downtimeNotification in
  let w1 := (SlackNotifier.notifyAnomaly env n
               (Examples.freshWorld (Examples.withWebhook Examples.emptyDb))).2 in
  let w2 := (SlackNotifier.notifyAnomaly env n w1).2 in
  length (Runtime.outbox w1) = 1%nat
  /\ length (Runtime.outbox w2) = 1%nat
  /\ Runtime.rateLimitMap w2 !! SlackNotifier.rateLimitKey 1 "downtime"
     = Some 61000.
Proof. vm_compute. repeat split. Qed.

(** ** The prober *)

Section ProberFacts.
Import Schema Runtime CheckEngine.

Variable env : Env.

Lemma setTicks_setTicks (a b : nat) (w : World) :
  setTicks a (setTicks b w) = setTicks a w.
Proof. reflexivity. Qed.

(** One iteration of the loop on a url that redirects and was not
    visited yet, within the time budget and below the hop cap. *)
Lemma followRedirects_step (fuel : nat) (hop start : Z)
  (pre : list RedirectHop) (visited : gset string) (cur next : string)
  (code : Z) (w : World) :
  redirectsTo env cur code next ->
  cur ∉ visited ->
  hop <> MAX_REDIRECTS ->
  clock env (ticks w) - start < CHECK_TIMEOUT_MS ->
  followRedirects env (S fuel) hop start pre visited cur w =
  followRedirects env fuel (hop + 1) start
    (pre ++ [{| hop_url := cur; hop_statusCode := code |}])
    ({[cur]} ∪ visited) next (setTicks (S (ticks w)) w).
Proof.
  intros ([protocol Hproto] & Hcode & Hreq) Hfresh Hhop Hclock.
  cbn [followRedirects]. rewrite decide_False by done.
  unfold mbind at 1. unfold M_bind at 1. unfold Date_now at 1.
  assert ((CHECK_TIMEOUT_MS - (clock env (ticks w) - start) <=? 0) = false)
    as -> by lia.
  destruct (Hreq (CHECK_TIMEOUT_MS - (clock env (ticks w) - start)))
    as (headers & body & socket & Hev & Hloc & Hres).
  unfold mbind at 1. unfold M_bind at 1.
  unfold singleRequest. rewrite Hproto, Hev.
  unfold mret at 1. unfold M_ret at 1. cbn [r_error r_statusCode r_headers].
  assert ((300 <=? code) = true) as -> by lia.
  assert ((code <? 400) = true) as -> by lia.
  rewrite Hloc. cbn [andb].
  assert ((hop =? MAX_REDIRECTS) = false) as -> by by apply Z.eqb_neq.
  by rewrite Hres.
Qed.

(** The loop, run on a chain of redirects that ends on a url already
    visited. *)
Lemma followRedirects_loop (chain : list RedirectHop) :
  forall (fuel : nat) (hop start : Z) (pre : list RedirectHop)
         (visited : gset string) (cur target : string) (w : World),
  redirectPath env cur chain target ->
  NoDup (hop_url <$> chain) ->
  (forall u : string, u ∈ hop_url <$> chain -> u ∉ visited) ->
  target ∈ visited \/ target ∈ hop_url <$> chain ->
  (length chain < fuel)%nat ->
  hop + Z.of_nat (length chain) <= MAX_REDIRECTS ->
  (forall i : nat, (i < length chain)%nat ->
     clock env (ticks w + i) - start < CHECK_TIMEOUT_MS) ->
  followRedirects env fuel hop start pre visited cur w =
  (Ok (failed None (clock env (ticks w + length chain) - start)
              (loopMessage target) (Some "REDIRECT_LOOP")
              (chainOrNull (pre ++ chain))),
   setTicks (S (ticks w + length chain)) w).
Proof.
  induction chain as [|h rest IH];
    intros fuel hop start pre visited cur target w
           Hpath Hnodup Hdisj Htarget Hfuel Hhop Hclock.
  - cbn in Hpath. subst cur.
    destruct Htarget as [Hin|Hin]; [|by apply elem_of_nil in Hin].
    destruct fuel as [|fuel]; [cbn in Hfuel; lia|].
    cbn [followRedirects]. rewrite decide_True by done.
    cbn [length]. rewrite Nat.add_0_r, app_nil_r. reflexivity.
  - destruct h as [u code]. cbn in Hpath.
    destruct Hpath as (-> & next & Hredirect & Hpath).
    rewrite fmap_cons in Hnodup, Hdisj, Htarget. cbn [hop_url] in *.
    apply NoDup_cons in Hnodup as [Hnotin Hnodup].
    destruct fuel as [|fuel]; [cbn in Hfuel; lia|].
    cbn [length] in *.
    rewrite (followRedirects_step fuel hop start pre visited cur next code w);
      [|done|apply Hdisj; left|unfold MAX_REDIRECTS in *; lia|].
    2:{ specialize (Hclock 0%nat). rewrite Nat.add_0_r in Hclock.
        apply Hclock. lia. }
    rewrite (IH fuel (hop + 1) start _ ({[cur]} ∪ visited) next target
                (setTicks (S (ticks w)) w)); try done.
    + cbn [ticks setTicks]. rewrite setTicks_setTicks, <- app_assoc.
      cbn [app]. by replace (S (ticks w) + length rest)%nat
                   with (ticks w + S (length rest))%nat by lia.
    + intros v Hv. apply not_elem_of_union. split.
      * apply not_elem_of_singleton. intros ->. done.
      * apply Hdisj. by right.
    + destruct Htarget as [Hin|Hin].
      * left. apply elem_of_union. by right.
      * apply elem_of_cons in Hin as [->|Hin]; [|by right].
        left. apply elem_of_union. left. by apply elem_of_singleton.
    + lia.
    + lia.
    + intros i Hi. cbn [ticks setTicks].
      replace (S (ticks w) + i)%nat with (ticks w + S i)%nat by lia.
      apply Hclock. lia.
Qed.

(** In an environment where [new URL] and [transport.request] never
    throw, the loop always resolves, and a result that carries an
    error message has [isUp = false]. *)
Lemma followRedirects_resolves (fuel : nat) :
  wellFormed env ->
  forall (hop start : Z) (pre : list RedirectHop) (visited : gset string)
         (cur : string) (w : World),
  exists (result : CheckResult) (w' : World),
    followRedirects env fuel hop start pre visited cur w = (Ok result, w')
    /\ (errorMessage result <> None -> isUp result = false).
Proof.
  intros (Hproto & Hres & Hreq).
  induction fuel as [|fuel IH]; intros hop start pre visited cur w.
  - cbn [followRedirects]. by eexists _, _.
  - cbn [followRedirects].
    destruct (decide (cur ∈ visited)); [by eexists _, _|].
    unfold mbind at 1. unfold M_bind at 1. unfold Date_now at 1.
    destruct (_ <=? 0); [by eexists _, _|].
    unfold mbind at 1. unfold M_bind at 1. unfold singleRequest.
    destruct (Hproto cur) as [protocol Hprotocol]. rewrite Hprotocol.
    destruct (request env cur _) as [status headers body socket
                                    |status headers socket message code
                                    | |message code|message] eqn:Hev;
      [| by eexists _, _ .. | by apply Hreq in Hev].
    unfold mret at 1. unfold M_ret at 1.
    cbn [r_error r_statusCode r_headers].
    assert (forall result0, exists (result : CheckResult) (w' : World),
              finalResponse env start pre cur result0
                (setTicks (S (ticks w)) w) = (Ok result, w')
              /\ (errorMessage result <> None -> isUp result = false))
      as Hfinal.
    { intros result0. unfold finalResponse.
      unfold mbind, M_bind, Date_now, mret, M_ret. rewrite Hprotocol.
      by eexists _, _. }
    destruct status as [code|]; [|apply Hfinal].
    destruct ((300 <=? code) && (code <? 400)
              && truthyHeader (headerLocation headers)); [|apply Hfinal].
    destruct (hop =? MAX_REDIRECTS); [by eexists _, _|].
    destruct (Hres (headerString (headerLocation headers)) cur)
      as [next ->].
    apply IH.
Qed.

(** So the only way for [performCheck] to reject is a throw of
    [new URL] or of [transport.request]. *)
Lemma performCheck_resolves (url : string) (w : World) :
  wellFormed env ->
  exists (result : CheckResult) (w' : World),
    performCheck env url w = (Ok result, w')
    /\ (errorMessage result <> None -> isUp result = false).
Proof.
  intros Hwf. unfold performCheck.
  unfold mbind, M_bind. unfold Date_now at 1.
  by apply followRedirects_resolves.
Qed.

(** C3, as the code has it. A redirect sequence of at most five hops
    whose last hop redirects to a url of the sequence, every hop
    answering within the time budget, ends with error code
    REDIRECT_LOOP and [isUp = false], and keeps the chain recorded so
    far. *)
Theorem performCheck_redirect_loop (url target : string)
  (chain : list RedirectHop) (w : World) :
  redirectPath env url chain target ->
  NoDup (hop_url <$> chain) ->
  target ∈ hop_url <$> chain ->
  (length chain <= Z.to_nat MAX_REDIRECTS)%nat ->
  (forall i : nat, (i < length chain)%nat ->
     clock env (S (ticks w) + i) - clock env (ticks w) < CHECK_TIMEOUT_MS) ->
  exists (result : CheckResult) (w' : World),
    performCheck env url w = (Ok result, w')
    /\ errorCode result = Some "REDIRECT_LOOP"
    /\ isUp result = false
    /\ errorMessage result = Some (loopMessage target)
    /\ redirectChain result = Some chain.
Proof.
  intros Hpath Hnodup Htarget Hlen Hclock.
  unfold performCheck. unfold mbind, M_bind. unfold Date_now at 1.
  rewrite (followRedirects_loop chain _ 0 (clock env (ticks w)) [] ∅ url target
             (setTicks (S (ticks w)) w)); try done.
  - eexists _, _. split; [reflexivity|]. repeat split.
    cbn [redirectChain failed app]. unfold chainOrNull.
    destruct chain; [by apply elem_of_nil in Htarget|done].
  - by right.
  - unfold MAX_REDIRECTS in *. lia.
  - unfold MAX_REDIRECTS in *. lia.
Qed.

End ProberFacts.

Lemma performCheck_redirect_loop_witness :
  exists (result : CheckEngine.CheckResult) (w' : Runtime.World),
    CheckEngine.performCheck (Examples.redirectingEnv Examples.shortLoop)
      "http://a.test/" (Examples.freshWorld Examples.emptyDb) = (Runtime.Ok result, w')
    /\ CheckEngine.errorCode result = Some "REDIRECT_LOOP"
    /\ CheckEngine.isUp result = false
    /\ CheckEngine.errorMessage result
       = Some (CheckEngine.loopMessage "http://b.test/")
    /\ CheckEngine.redirectChain result
       = Some [ {| Schema.hop_url := "http://a.test/"; Schema.hop_statusCode := 302 |};
                {| Schema.hop_url := "http://b.test/"; Schema.hop_statusCode := 302 |};
                {| Schema.hop_url := "http://c.test/"; Schema.hop_statusCode := 302 |} ].
Proof.
  apply (performCheck_redirect_loop (Examples.redirectingEnv Examples.shortLoop)
           "http://a.test/" "http://b.test/"
           [ {| Schema.hop_url := "http://a.test/"; Schema.hop_statusCode := 302 |};
             {| Schema.hop_url := "http://b.test/"; Schema.hop_statusCode := 302 |};
             {| Schema.hop_url := "http://c.test/"; Schema.hop_statusCode := 302 |} ]
           (Examples.freshWorld Examples.emptyDb)).
  - cbn [CheckEngine.redirectPath Schema.hop_url Schema.hop_statusCode].
    split; [reflexivity|]. exists "http://b.test/"%string. split.
    { split; [by eexists|]. split; [lia|].
      intros timeoutMs. by eexists _, _, _. }
    split; [reflexivity|]. exists "http://c.test/"%string. split.
    { split; [by eexists|]. split; [lia|].
      intros timeoutMs. by eexists _, _, _. }
    split; [reflexivity|]. exists "http://b.test/"%string. split.
    { split; [by eexists|]. split; [lia|].
      intros timeoutMs. by eexists _, _, _. }
    reflexivity.
  - apply (bool_decide_unpack _). vm_compute. exact I.
  - apply (bool_decide_unpack _). vm_compute. exact I.
  - vm_compute. lia.
  - intros i Hi.
    unfold Examples.redirectingEnv, Examples.freshWorld,
      CheckEngine.CHECK_TIMEOUT_MS.
    cbn [Runtime.clock Runtime.ticks length] in *. lia.
Defined.

(** C3, as stated, fails on Scenario E: with A, B, C, D, E, F
    redirecting one to the next and F back to B, the sixth redirect
    meets the hop cap before the loop is looked for, and the error
    code is TOO_MANY_REDIRECTS. *)
Lemma scenarioE_is_too_many_redirects :
  let r := CheckEngine.performCheck (Examples.redirectingEnv Examples.scenarioE)
             "http://a.test/" (Examples.freshWorld Examples.emptyDb) in
  exists result : CheckEngine.CheckResult,
    r.1 = Runtime.Ok result
    /\ CheckEngine.errorCode result = Some "TOO_MANY_REDIRECTS"
    /\ CheckEngine.errorCode result <> Some "REDIRECT_LOOP"
    /\ Schema.hop_url <$> default [] (CheckEngine.redirectChain result)
       = [ "http://a.test/"; "http://b.test/"; "http://c.test/";
           "http://d.test/"; "http://e.test/"; "http://f.test/" ].
Proof. vm_compute. eexists. repeat split. discriminate. Qed.

(** C4 fails where [new URL] throws. A redirect whose location has no
    host makes [new URL(location, currentUrl)] throw inside
    [performCheck]; a malformed site url makes [new URL(url)] throw
    inside [singleRequest]. Either way the promise of [performCheck]
    rejects, and [runChecks] settles the site without a Check row. *)
Theorem performCheck_rejects_when_URL_throws :
  let env := Examples.redirectingEnv Examples.badLocation in
  let w := Examples.freshWorld Examples.redirectingDb in
  let w0 := Examples.freshWorld Examples.malformedDb in
  (CheckEngine.performCheck env "http://a.test/" w).1
    = Runtime.Throw "TypeError: Invalid URL"
  /\ (CheckEngine.runChecks env w).1 = Runtime.Ok 1
  /\ Schema.checks (Runtime.db (CheckEngine.runChecks env w).2) = []
  /\ (CheckEngine.performCheck Examples.healthyEnv "not a url" w0).1
     = Runtime.Throw "TypeError: Invalid URL"
  /\ (CheckEngine.runChecks Examples.healthyEnv w0).1 = Runtime.Ok 1
  /\ Schema.checks (Runtime.db (CheckEngine.runChecks Examples.healthyEnv w0).2)
     = [].
Proof. vm_compute. repeat split. Qed.

(** ** The scheduler *)

Lemma allSettled_length {A : Type} (works : list (Runtime.M A)) :
  forall w : Runtime.World,
  exists (rs : list (Runtime.Result A)) (w' : Runtime.World),
    CheckEngine.allSettled works w = (Runtime.Ok rs, w')
    /\ length rs = length works.
Proof.
  induction works as [|work rest IH]; intros w.
  - by eexists _, _.
  - cbn [CheckEngine.allSettled].
    unfold mbind at 1. unfold Runtime.M_bind at 1.
    destruct (work w) as [r w1].
    unfold mbind at 1. unfold Runtime.M_bind at 1.
    destruct (IH w1) as (rs & w2 & -> & Hlen).
    eexists _, _. split; [reflexivity|]. cbn [length]. by rewrite Hlen.
Qed.

(** Whatever the checks and settings tables hold, a tick settles one
    unit of work for every active site. *)
Lemma runChecks_counts_active_sites (env : Runtime.Env) (w : Runtime.World) :
  (CheckEngine.runChecks env w).1 =
  Runtime.Ok (Z.of_nat (length (filter (fun s => Schema.site_isActive s = true)
                                       (Schema.sites (Runtime.db w))))).
Proof.
  unfold CheckEngine.runChecks.
  unfold mbind at 1. unfold Runtime.M_bind at 1. cbn [Runtime.get].
  destruct (length _ =? 0)%nat eqn:E.
  - apply Nat.eqb_eq in E. by rewrite E.
  - unfold mbind at 1. unfold Runtime.M_bind at 1.
    destruct (allSettled_length
                (CheckEngine.checkSite env <$>
                   filter (fun s => Schema.site_isActive s = true)
                          (Schema.sites (Runtime.db w))) w)
      as (rs & w' & -> & Hlen).
    cbn. by rewrite Hlen, length_fmap.
Qed.

(** C1 fails on the code: [runChecks] probes every active site. A
    site checked ten seconds before the tick, with the default
    interval of sixty seconds, is probed again and gets a new Check. *)
Theorem runChecks_probes_recently_checked_site :
  let w := Examples.freshWorld Examples.recentlyCheckedDb in
  let tick := CheckEngine.runChecks Examples.healthyEnv w in
  Runtime.clock Examples.healthyEnv 0 = 1700000000000
  /\ Schema.checkedAt <$> Schema.checks (Runtime.db w) = [1700000000000 - 10000]
  /\ Schema.siteSettings (Runtime.db w) = []
  /\ tick.1 = Runtime.Ok 1
  /\ (fun c => (Schema.siteId c, Schema.checkedAt c))
       <$> Schema.checks (Runtime.db tick.2)
     = [(1, 1700000000000 - 10000); (1, 1700000000000)].
Proof. vm_compute. repeat split. Qed.

(** * Further properties of the code *)

(** ** The six rules of the detector *)

Section DetectorRules.
Import Schema Runtime AnomalyDetector.

Variable env : Env.
Variables (checkId siteId : Z).
Variable current : Check.
Variable history : list Check.
Variable site : Site.
Variable overrides : option SiteSettingsRow.
Variable now : Z.

Abbreviation detected' :=
  (detect env checkId siteId current history site overrides now).

(** X1. An unreachable site (no status code, not up) yields exactly
    one downtime record; it is critical, and its description carries
    the error message verbatim when there is one and is the generic
    text otherwise. *)
Theorem detect_unreachable_downtime :
  statusCode current = None ->
  Js.truthyBool (isUp current) = false ->
  exists a : AnomalyRecord,
    ofType downtime detected' = [a]
    /\ severity a = critical
    /\ description a =
       match errorMessage current with
       | Some (String c rest) => "site unreachable: " +:+ String c rest
       | _ => "site unreachable"
       end.
Proof.
  intros Hstatus Hup. rewrite ofType_detect.
  unfold detectDowntime, push. rewrite Hstatus, Hup. cbn [negb].
  eexists. split; [reflexivity|]. split; [reflexivity|].
  cbn [description mkAnomaly].
  by destruct (errorMessage current) as [[|c rest]|].
Qed.

(** X2. A downtime record is produced exactly when the check is not up
    and its status code is absent or at least 500: a check that is up
    never yields one, whatever its status code. *)
Theorem detect_downtime_iff :
  ofType downtime detected' <> [] <->
  Js.truthyBool (isUp current) = false
  /\ (statusCode current = None
      \/ exists code : Z, statusCode current = Some code /\ 500 <= code).
Proof.
  rewrite ofType_detect. unfold detectDowntime, push.
  destruct (Js.truthyBool (isUp current)); cbn [negb].
  - split; [done|]. by intros [? _].
  - destruct (statusCode current) as [code|].
    + destruct (500 <=? code) eqn:E.
      * split; [|done]. intros _. split; [done|]. right. exists code.
        split; [done|lia].
      * split; [done|]. intros [_ [?|(code' & [= <-] & ?)]]; [done|lia].
    + split; [|done]. intros _. split; [done|by left].
Qed.

(** X3. A client error (status 400 to 499) yields exactly one
    status_code record, high for 401 and 403 and medium otherwise; a
    redirect status (300 to 399) yields exactly one low record; any
    other status, or none, yields no status_code record. *)
Theorem detect_status_code_rule :
  match statusCode current with
  | Some code =>
    if decide (400 <= code < 500) then
      exists a : AnomalyRecord,
        ofType status_code detected' = [a]
        /\ severity a = (if decide (code = 401 \/ code = 403) then high
                         else medium)
        /\ Js.includes (description a) (Js.numToString code)
    else if decide (300 <= code < 400) then
      exists a : AnomalyRecord,
        ofType status_code detected' = [a]
        /\ severity a = low
        /\ Js.includes (description a) (Js.numToString code)
    else ofType status_code detected' = []
  | None => ofType status_code detected' = []
  end.
Proof.
  rewrite ofType_detect. unfold detectStatusCode, push.
  destruct (statusCode current) as [code|]; [|done].
  destruct (decide (400 <= code < 500)) as [H4|H4].
  - assert ((400 <=? code) = true) as -> by lia.
    assert ((code <? 500) = true) as -> by lia. cbn [andb].
    eexists. split; [reflexivity|]. cbn [severity description mkAnomaly].
    split; [|apply (includes_suffix "client error: HTTP ")].
    destruct (decide (code = 401 \/ code = 403)) as [[->| ->]|Hne]; [done..|].
    assert ((code =? 401) = false) as -> by lia.
    by assert ((code =? 403) = false) as -> by lia.
  - assert (((400 <=? code) && (code <? 500)) = false) as ->.
    { apply andb_false_iff. lia. }
    destruct (decide (300 <= code < 400)) as [H3|H3].
    + assert ((300 <=? code) = true) as -> by lia.
      assert ((code <? 400) = true) as -> by lia. cbn [andb].
      eexists. split; [reflexivity|]. split; [reflexivity|].
      apply (includes_suffix "redirect: HTTP ").
    + assert (((300 <=? code) && (code <? 400)) = false) as ->; [|done].
      apply andb_false_iff. lia.
Qed.

(** X4. An absolute response-time threshold overrides the rolling
    average: the slow_response records do not depend on the history;
    a response time above the threshold yields exactly one record, high
    iff it is above twice the threshold and medium otherwise, and a
    response time of at most the threshold yields none. *)
Theorem detect_slow_response_override (o : SiteSettingsRow) (thr rt : Z) :
  overrides = Some o ->
  responseTimeThreshold o = Some thr ->
  responseTimeMs current = Some rt ->
  let slow := ofType slow_response detected' in
  slow = ofType slow_response
           (detect env checkId siteId current [] site overrides now)
  /\ (thr < rt ->
        exists a : AnomalyRecord,
          slow = [a]
          /\ (severity a = high <-> 2 * thr < rt)
          /\ (severity a = medium <-> rt <= 2 * thr))
  /\ (rt <= thr -> slow = []).
Proof.
  intros -> Hthr Hrt slow. subst slow. rewrite !ofType_detect.
  unfold detectSlowResponse, push. rewrite Hrt. cbn [mbind option_bind].
  rewrite Hthr. split; [done|]. split.
  - intros Hslow. assert ((thr <? rt) = true) as -> by lia.
    eexists. split; [reflexivity|]. cbn [severity mkAnomaly].
    destruct (thr * 2 <? rt) eqn:E.
    + split; split; first [done | lia].
    + split; split; first [done | lia].
  - intros Hfast. by assert ((thr <? rt) = false) as -> by lia.
Qed.

(** X5. Without an absolute threshold and without a single prior
    response time (no history, or only checks that timed out) there
    is no baseline, and no slow_response record is produced however
    slow the check. *)
Theorem detect_slow_response_no_baseline :
  overrides ≫= responseTimeThreshold = None ->
  Forall (fun c => responseTimeMs c = None) history ->
  ofType slow_response detected' = [].
Proof.
  intros Hthr Hnone. rewrite ofType_detect.
  unfold detectSlowResponse, push. rewrite Hthr.
  destruct (responseTimeMs current) as [rt|]; [|done].
  destruct (0 <? length history)%nat; [|done].
  assert (historicalTimes history = []) as ->; [|done].
  unfold historicalTimes.
  induction Hnone as [|c l Hc _ IH]; [done|].
  cbn [omap list_omap]. by rewrite Hc.
Qed.

Lemma find_skip {A : Type} (p : A -> bool) (pre : list A) (x : A)
  (post : list A) :
  Forall (fun y => p y = false) pre -> p x = true ->
  find p (pre ++ x :: post) = Some x.
Proof.
  intros Hpre Hx. induction Hpre as [|y pre Hy _ IH]; cbn [app find].
  - by rewrite Hx.
  - by rewrite Hy.
Qed.

Lemma find_none {A : Type} (p : A -> bool) (l : list A) :
  Forall (fun y => p y = false) l -> find p l = None.
Proof.
  intros Hl. induction Hl as [|y l Hy _ IH]; cbn [find]; [done|].
  by rewrite Hy.
Qed.

(** X6. The body hash is compared with the most recent prior check
    that has a hash: checks without a hash before it are skipped and
    older checks are not looked at. A different hash yields exactly
    one low content_change record, the same hash none. *)
Theorem detect_content_change_most_recent_hash
  (pre post : list Check) (last : Check) (h h' : string) :
  history = pre ++ last :: post ->
  Forall (fun c => bodyHash c = None) pre ->
  bodyHash last = Some h' ->
  bodyHash current = Some h ->
  ofType content_change detected' =
  if decide (h = h') then []
  else [mkAnomaly checkId siteId content_change
          "response body content changed since last check" low].
Proof.
  intros Hhist Hpre Hlast Hcur. rewrite ofType_detect.
  unfold detectContentChange, push. rewrite Hcur, Hhist.
  assert ((0 <? length (pre ++ last :: post))%nat = true) as ->.
  { rewrite length_app. cbn [length]. apply Nat.ltb_lt. lia. }
  rewrite (find_skip _ pre last post).
  - rewrite Hlast. destruct (decide (h = h')) as [->|Hne].
    + by rewrite bool_decide_eq_false_2 by (intros H; by apply H).
    + rewrite bool_decide_eq_true_2; [done|]. congruence.
  - eapply Forall_impl; [exact Hpre|]. intros c Hc. cbn beta.
    rewrite Hc. by apply bool_decide_eq_false_2; intros H; apply H.
  - rewrite Hlast. by apply bool_decide_eq_true_2.
Qed.

(** A first observation is not a change: when no prior check has a
    body hash (in particular with no history at all) no content_change
    record is produced. *)
Lemma detect_content_change_first_observation :
  Forall (fun c => bodyHash c = None) history ->
  ofType content_change detected' = [].
Proof.
  intros Hnone. rewrite ofType_detect. unfold detectContentChange, push.
  destruct (bodyHash current) as [h|]; [|done].
  destruct (0 <? length history)%nat; [|done].
  rewrite find_none; [done|].
  eapply Forall_impl; [exact Hnone|]. intros c Hc. cbn beta.
  rewrite Hc. by apply bool_decide_eq_false_2; intros H; apply H.
Qed.

(** X7. The ssl rule produces nothing exactly when the site url does
    not start with https://, or the certificate is not flagged invalid
    and either has no expiry or expires in more whole days than both
    zero and the warning window. *)
Theorem detect_ssl_issue_none_iff :
  ofType ssl_issue detected' = [] <->
  Js.startsWith (site_url site) "https://" = false
  \/ (sslValid current <> Some false
      /\ match sslExpiry current with
         | None => True
         | Some expiry =>
           0 < daysUntilExpiry now expiry
           /\ sslExpiryWarningDaysOf overrides < daysUntilExpiry now expiry
         end).
Proof.
  rewrite ofType_detect. unfold detectSslIssue, push.
  destruct (Js.startsWith (site_url site) "https://"); [|by split; [left|]].
  destruct (decide (sslValid current = Some false)) as [Hbad|Hok].
  - rewrite bool_decide_eq_true_2 by done. cbn [app].
    split; [done|]. intros [?|[? _]]; done.
  - rewrite bool_decide_eq_false_2 by done. cbn [app].
    destruct (sslExpiry current) as [expiry|]; [|by split; [right|]].
    destruct (daysUntilExpiry now expiry <=? 0) eqn:E0.
    { split; [done|]. intros [?|[_ [? _]]]; [done|lia]. }
    destruct (daysUntilExpiry now expiry <=? sslExpiryWarningDaysOf overrides)
      eqn:E1.
    { split; [done|]. intros [?|[_ [_ ?]]]; [done|lia]. }
    split; [|done]. intros _. right. split; [done|]. lia.
Qed.

(** Membership in the two lists a loop accumulates, from what one
    iteration adds to each. *)
Lemma foldl_pair_membership
  (step : list string * list string -> string -> list string * list string)
  (P1 P2 : string -> Prop) :
  (forall acc name h, h ∈ (step acc name).1 <-> h ∈ acc.1 \/ (h = name /\ P1 h)) ->
  (forall acc name h, h ∈ (step acc name).2 <-> h ∈ acc.2 \/ (h = name /\ P2 h)) ->
  forall (names : list string) (acc : list string * list string) (h : string),
  (h ∈ (foldl step acc names).1 <-> h ∈ acc.1 \/ (h ∈ names /\ P1 h))
  /\ (h ∈ (foldl step acc names).2 <-> h ∈ acc.2 \/ (h ∈ names /\ P2 h)).
Proof.
  intros Hstep1 Hstep2.
  induction names as [|name names IH]; intros acc h; cbn [foldl].
  - split; (split; [by left|]); (intros [?|[Hin _]]; [done|]);
      by apply elem_of_nil in Hin.
  - destruct (IH (step acc name) h) as [IH1 IH2].
    rewrite IH1, IH2, Hstep1, Hstep2, !elem_of_cons. clear. tauto.
Qed.

(** Membership in the two lists of [compareHeaders]. *)
Lemma compareHeaders_membership (prev curr : gmap string string) (h : string) :
  (h ∈ (compareHeaders prev curr).1 <->
     h ∈ SECURITY_HEADERS /\ is_Some (prev !! h) /\ curr !! h = None)
  /\ (h ∈ (compareHeaders prev curr).2 <->
        h ∈ SECURITY_HEADERS
        /\ exists p c, prev !! h = Some p /\ curr !! h = Some c /\ p ≠ c).
Proof.
  destruct (foldl_pair_membership
    (fun (acc : list string * list string) (header : string) =>
       match prev !! header, curr !! header with
       | Some _, None => (acc.1 ++ [header], acc.2)
       | Some p, Some c =>
         if decide (p ≠ c) then (acc.1, acc.2 ++ [header]) else acc
       | None, _ => acc
       end)
    (fun h => is_Some (prev !! h) /\ curr !! h = None)
    (fun h => exists p c, prev !! h = Some p /\ curr !! h = Some c /\ p ≠ c))
    with (names := SECURITY_HEADERS) (acc := ([], []) : list string * list string)
         (h := h) as [H1 H2].
  - intros acc name k.
    destruct (prev !! name) as [p|] eqn:Hp, (curr !! name) as [c|] eqn:Hc;
      try destruct (decide (p ≠ c));
      cbn [fst snd]; rewrite ?elem_of_app, ?list_elem_of_singleton;
      unfold is_Some; naive_solver.
  - intros acc name k.
    destruct (prev !! name) as [p|] eqn:Hp, (curr !! name) as [c|] eqn:Hc;
      try destruct (decide (p ≠ c));
      cbn [fst snd]; rewrite ?elem_of_app, ?list_elem_of_singleton;
      unfold is_Some; naive_solver.
  - fold (compareHeaders prev curr) in H1, H2. cbn [fst snd] in H1, H2.
    rewrite H1, H2. split.
    + split; [intros [H|H]; [by apply elem_of_nil in H|done]|]. by right.
    + split; [intros [H|H]; [by apply elem_of_nil in H|done]|]. by right.
Qed.

(** X8. A security header is reported as removed exactly when it is
    one of the seven watched names, was present in the previous
    snapshot and is absent from the current one; it is reported as
    changed exactly when it is watched, present in both and its value
    differs. No header is in both lists, and a header that is not
    watched is in neither. *)
Theorem compareHeaders_spec (prev curr : gmap string string) (h : string) :
  (h ∈ (compareHeaders prev curr).1 <->
     h ∈ SECURITY_HEADERS /\ is_Some (prev !! h) /\ curr !! h = None)
  /\ (h ∈ (compareHeaders prev curr).2 <->
        h ∈ SECURITY_HEADERS
        /\ exists p c, prev !! h = Some p /\ curr !! h = Some c /\ p ≠ c)
  /\ ~ (h ∈ (compareHeaders prev curr).1 /\ h ∈ (compareHeaders prev curr).2)
  /\ (h ∉ SECURITY_HEADERS ->
        h ∉ (compareHeaders prev curr).1 /\ h ∉ (compareHeaders prev curr).2).
Proof.
  destruct (compareHeaders_membership prev curr h) as [E1 E2].
  split; [exact E1|]. split; [exact E2|]. split.
  - rewrite E1, E2. intros [(_ & _ & Hnone) (_ & p & c & _ & Hsome & _)].
    congruence.
  - intros Hunwatched. rewrite E1, E2. split; by intros [? _].
Qed.

Lemma string_app_assoc (a b c : string) : (a +:+ b) +:+ c = a +:+ (b +:+ c).
Proof.
  induction a as [|x a IH]; [done|].
  change (String x ((a +:+ b) +:+ c) = String x (a +:+ (b +:+ c))).
  by rewrite IH.
Qed.

Lemma includes_self (s : string) : Js.includes s s.
Proof. exists ""%string, ""%string. by rewrite append_empty_r. Qed.

Lemma includes_app_l (s t u : string) :
  Js.includes s u -> Js.includes (s +:+ t) u.
Proof.
  intros (pre & post & ->). exists pre, (post +:+ t).
  by rewrite !string_app_assoc.
Qed.

Lemma includes_app_r (s t u : string) :
  Js.includes t u -> Js.includes (s +:+ t) u.
Proof.
  intros (pre & post & ->). exists (s +:+ pre), post.
  by rewrite !string_app_assoc.
Qed.

(** A joined list contains each of its elements. *)
Lemma includes_join (sep h : string) (l : list string) :
  h ∈ l -> Js.includes (Js.join sep l) h.
Proof.
  unfold Js.join. induction l as [|x l IH]; intros Hin.
  - by apply elem_of_nil in Hin.
  - apply elem_of_cons in Hin as [->|Hin].
    + destruct l; cbn [String.concat]; [apply includes_self|].
      apply includes_app_l, includes_self.
    + destruct l as [|y l]; [by apply elem_of_nil in Hin|].
      change (Js.includes (x +:+ sep +:+ String.concat sep (y :: l)) h).
      by apply includes_app_r, includes_app_r, IH.
Qed.

(** X9. A watched security header that the most recent prior
    snapshot has and the current snapshot lacks is reported: there is
    a high header_anomaly record whose description names it. *)
Theorem detect_header_removed
  (pre post : list Check) (last : Check) (sp sc h : string) :
  history = pre ++ last :: post ->
  Forall (fun c => headersSnapshot c = None) pre ->
  headersSnapshot last = Some sp ->
  headersSnapshot current = Some sc ->
  h ∈ SECURITY_HEADERS ->
  is_Some (parseHeaders env sp !! h) ->
  parseHeaders env sc !! h = None ->
  exists a : AnomalyRecord,
    a ∈ ofType header_anomaly detected'
    /\ severity a = high
    /\ Js.includes (description a) h.
Proof.
  intros Hhist Hpre Hlast Hcur Hwatched Hprev Hnow. rewrite ofType_detect.
  unfold detectHeaderAnomaly, push. rewrite Hcur, Hhist.
  assert ((0 <? length (pre ++ last :: post))%nat = true) as ->.
  { rewrite length_app. cbn [length]. apply Nat.ltb_lt. lia. }
  rewrite (find_skip _ pre last post).
  2:{ eapply Forall_impl; [exact Hpre|]. intros c Hc. cbn beta.
      rewrite Hc. by apply bool_decide_eq_false_2; intros H; apply H. }
  2:{ rewrite Hlast. by apply bool_decide_eq_true_2. }
  rewrite Hlast. cbn [default from_option Datatypes.id].
  destruct (compareHeaders_membership (parseHeaders env sp)
              (parseHeaders env sc) h) as (Hremoved & _).
  assert (h ∈ (compareHeaders (parseHeaders env sp) (parseHeaders env sc)).1)
    as Hin by by apply Hremoved.
  revert Hin.
  generalize (compareHeaders (parseHeaders env sp) (parseHeaders env sc)).
  intros [removed changed]. cbn [fst snd]. intros Hin.
  destruct removed as [|r removed]; [by apply elem_of_nil in Hin|].
  cbn [length Nat.ltb Nat.leb].
  eexists. split; [apply elem_of_app; left; apply list_elem_of_singleton;
                   reflexivity|].
  split; [reflexivity|]. cbn [description mkAnomaly].
  by apply includes_app_r, includes_join.
Qed.

(** X10. Identical snapshots raise nothing: when the most recent prior
    snapshot is the very string of the current one, no header_anomaly
    record is produced. *)
Theorem detect_header_same_snapshot
  (pre post : list Check) (last : Check) (snapshot : string) :
  history = pre ++ last :: post ->
  Forall (fun c => headersSnapshot c = None) pre ->
  headersSnapshot last = Some snapshot ->
  headersSnapshot current = Some snapshot ->
  ofType header_anomaly detected' = [].
Proof.
  intros Hhist Hpre Hlast Hcur. rewrite ofType_detect.
  unfold detectHeaderAnomaly, push. rewrite Hcur, Hhist.
  assert ((0 <? length (pre ++ last :: post))%nat = true) as ->.
  { rewrite length_app. cbn [length]. apply Nat.ltb_lt. lia. }
  rewrite (find_skip _ pre last post).
  2:{ eapply Forall_impl; [exact Hpre|]. intros c Hc. cbn beta.
      rewrite Hc. by apply bool_decide_eq_false_2; intros H; apply H. }
  2:{ rewrite Hlast. by apply bool_decide_eq_true_2. }
  rewrite Hlast. cbn [default from_option Datatypes.id].
  set (m := parseHeaders env snapshot).
  assert ((compareHeaders m m).1 = []) as ->.
  { apply elem_of_nil_inv. intros h Hin.
    apply (compareHeaders_membership m m h) in Hin as (_ & [v Hv] & Hnone).
    congruence. }
  assert ((compareHeaders m m).2 = []) as ->; [|done].
  apply elem_of_nil_inv. intros h Hin.
  apply (compareHeaders_membership m m h) in Hin as (_ & p & c & Hp & Hc & Hne).
  congruence.
Qed.

(** A prior snapshot that does not parse counts as having no
    headers: nothing is reported as removed or changed against it. *)
Lemma detect_header_unparsable_previous
  (pre post : list Check) (last : Check) (sp : string) :
  history = pre ++ last :: post ->
  Forall (fun c => headersSnapshot c = None) pre ->
  headersSnapshot last = Some sp ->
  JSON_parse env sp = None ->
  ofType header_anomaly detected' = [].
Proof.
  intros Hhist Hpre Hlast Hparse. rewrite ofType_detect.
  unfold detectHeaderAnomaly, push.
  destruct (headersSnapshot current) as [sc|]; [|done]. rewrite Hhist.
  assert ((0 <? length (pre ++ last :: post))%nat = true) as ->.
  { rewrite length_app. cbn [length]. apply Nat.ltb_lt. lia. }
  rewrite (find_skip _ pre last post).
  2:{ eapply Forall_impl; [exact Hpre|]. intros c Hc. cbn beta.
      rewrite Hc. by apply bool_decide_eq_false_2; intros H; apply H. }
  2:{ rewrite Hlast. by apply bool_decide_eq_true_2. }
  rewrite Hlast. cbn [default from_option Datatypes.id].
  assert (parseHeaders env sp = ∅) as -> by (unfold parseHeaders; by rewrite Hparse).
  set (m := parseHeaders env sc).
  assert ((compareHeaders ∅ m).1 = []) as ->.
  { apply elem_of_nil_inv. intros h Hin.
    apply (compareHeaders_membership ∅ m h) in Hin as (_ & [v Hv] & _).
    by rewrite lookup_empty in Hv. }
  assert ((compareHeaders ∅ m).2 = []) as ->; [|done].
  apply elem_of_nil_inv. intros h Hin.
  apply (compareHeaders_membership ∅ m h) in Hin as (_ & p & c & Hp & _).
  by rewrite lookup_empty in Hp.
Qed.

Ltac rule_cases :=
  repeat (case_match; simpl);
  rewrite ?Forall_app, ?Forall_cons, ?Forall_nil; cbn;
  repeat split; auto; try discriminate; try lia.

(** X11. Every record of a check carries the ids it was detected for,
    a check yields at most eight records, and the severity of a record
    is tied to its type: downtime is critical, content_change is low,
    slow_response and header_anomaly are medium or high, ssl_issue is
    high or critical, status_code is never critical. *)
Theorem detect_records_invariant :
  Forall (fun a =>
            a_checkId a = checkId /\ a_siteId a = siteId
            /\ match type a with
               | downtime => severity a = critical
               | content_change => severity a = low
               | slow_response | header_anomaly =>
                 severity a = medium \/ severity a = high
               | ssl_issue => severity a = high \/ severity a = critical
               | status_code => severity a <> critical
               end)
         (detect env checkId siteId current history site overrides now)
  /\ (length (detect env checkId siteId current history site overrides now)
      <= 8)%nat.
Proof.
  unfold detect.
  assert (Forall (fun a => a_checkId a = checkId /\ a_siteId a = siteId
                           /\ severity a = critical /\ type a = downtime)
                 (detectDowntime checkId siteId current)
          /\ (length (detectDowntime checkId siteId current) <= 1)%nat) as [D1 L1].
  { unfold detectDowntime, push. split; rule_cases. }
  assert (Forall (fun a => a_checkId a = checkId /\ a_siteId a = siteId
                           /\ (severity a = medium \/ severity a = high)
                           /\ type a = slow_response)
                 (detectSlowResponse checkId siteId current history overrides)
          /\ (length (detectSlowResponse checkId siteId current history
                        overrides) <= 1)%nat) as [D2 L2].
  { unfold detectSlowResponse, push. split; rule_cases. }
  assert (Forall (fun a => a_checkId a = checkId /\ a_siteId a = siteId
                           /\ severity a <> critical /\ type a = status_code)
                 (detectStatusCode checkId siteId current)
          /\ (length (detectStatusCode checkId siteId current) <= 1)%nat)
    as [D3 L3].
  { unfold detectStatusCode, push. split; rule_cases. }
  assert (Forall (fun a => a_checkId a = checkId /\ a_siteId a = siteId
                           /\ severity a = low /\ type a = content_change)
                 (detectContentChange checkId siteId current history)
          /\ (length (detectContentChange checkId siteId current history)
              <= 1)%nat) as [D4 L4].
  { unfold detectContentChange, push. split; rule_cases. }
  assert (Forall (fun a => a_checkId a = checkId /\ a_siteId a = siteId
                           /\ (severity a = high \/ severity a = critical)
                           /\ type a = ssl_issue)
                 (detectSslIssue checkId siteId current site overrides now)
          /\ (length (detectSslIssue checkId siteId current site overrides now)
              <= 2)%nat) as [D5 L5].
  { unfold detectSslIssue, push. split; rule_cases. }
  assert (Forall (fun a => a_checkId a = checkId /\ a_siteId a = siteId
                           /\ (severity a = medium \/ severity a = high)
                           /\ type a = header_anomaly)
                 (detectHeaderAnomaly env checkId siteId current history)
          /\ (length (detectHeaderAnomaly env checkId siteId current history)
              <= 2)%nat) as [D6 L6].
  { unfold detectHeaderAnomaly, push.
    destruct (headersSnapshot current) as [snapshot|]; [|by split; cbn; auto].
    destruct (0 <? length history)%nat; [|by split; cbn; auto].
    destruct (find _ history) as [lastWithHeaders|]; [|by split; cbn; auto].
    generalize (compareHeaders
                  (parseHeaders env (default "" (headersSnapshot lastWithHeaders)))
                  (parseHeaders env snapshot)).
    intros [removed changed]. cbn [fst snd].
    destruct (0 <? length removed)%nat, (0 <? length changed)%nat;
      cbn [app]; rewrite ?Forall_cons, ?Forall_nil; cbn;
      repeat split; auto; lia. }
  split.
  - rewrite !Forall_app. repeat split;
      (eapply Forall_impl; [eassumption|]);
      intros a (? & ? & ? & Ht); rewrite Ht; auto.
  - rewrite !length_app. lia.
Qed.

End DetectorRules.

(** ** The notifier: keys, delivery and escalation *)

Section RateLimitKeys.
Import Schema Runtime SlackNotifier.
Local Arguments append !_ _ / : simpl nomatch.

Lemma numToString_inj (n n' : Z) :
  Js.numToString n = Js.numToString n' -> n = n'.
Proof.
  unfold Js.numToString. intros H. apply DecimalZ.to_int_inj.
  assert (forall z : Z,
            NilZero.int_of_string (NilZero.string_of_int (Z.to_int z))
            = Some (Z.to_int z)) as Hisi.
  { intros z. apply NilZero.isi; destruct z; cbn; try discriminate;
      intros [= Hnil]; by apply DecimalPos.Unsigned.to_uint_nonnil in Hnil. }
  pose proof (Hisi n) as Hn. rewrite H, Hisi in Hn. congruence.
Qed.

Lemma digits_split (d1 : Decimal.uint) :
  forall (d2 : Decimal.uint) (t1 t2 : string),
  NilEmpty.string_of_uint d1 +:+ String ":" t1
  = NilEmpty.string_of_uint d2 +:+ String ":" t2 ->
  d1 = d2 /\ t1 = t2.
Proof.
  induction d1 as [|d1 IH|d1 IH|d1 IH|d1 IH|d1 IH|d1 IH|d1 IH|d1 IH|d1 IH|d1 IH];
    intros [|d2|d2|d2|d2|d2|d2|d2|d2|d2|d2] t1 t2; simpl; intros H;
    try discriminate; injection H as H; try (apply IH in H as [-> ->]); done.
Qed.

(** The decimal rendering of an integer: digits, after a sign if
    negative. *)
Lemma numToString_digits (n : Z) :
  exists d : Decimal.uint,
    d <> Decimal.Nil
    /\ (Js.numToString n = NilEmpty.string_of_uint d
        \/ Js.numToString n = String "-" (NilEmpty.string_of_uint d)).
Proof.
  unfold Js.numToString. destruct n as [|p|p]; cbn [Z.to_int].
  - exists (Decimal.D0 Decimal.Nil). split; [done|by left].
  - exists (Pos.to_uint p).
    split; [apply DecimalPos.Unsigned.to_uint_nonnil|left].
    cbn [NilZero.string_of_int]. unfold NilZero.string_of_uint.
    pose proof (DecimalPos.Unsigned.to_uint_nonnil p).
    by destruct (Pos.to_uint p).
  - exists (Pos.to_uint p).
    split; [apply DecimalPos.Unsigned.to_uint_nonnil|right].
    cbn [NilZero.string_of_int]. unfold NilZero.string_of_uint.
    pose proof (DecimalPos.Unsigned.to_uint_nonnil p).
    by destruct (Pos.to_uint p).
Qed.

(** X12. The rate-limit key determines the site and the anomaly type:
    two different (siteId, anomalyType) pairs never share a key. *)
Theorem rateLimitKey_inj (siteId siteId' : Z) (anomalyType anomalyType' : string) :
  rateLimitKey siteId anomalyType = rateLimitKey siteId' anomalyType' <->
  siteId = siteId' /\ anomalyType = anomalyType'.
Proof.
  split; [|by intros [-> ->]].
  unfold rateLimitKey. intros H.
  assert (Js.numToString siteId = Js.numToString siteId'
          /\ anomalyType = anomalyType') as [Hn Ht].
  { change (":" +:+ anomalyType) with (String ":" anomalyType) in H.
    change (":" +:+ anomalyType') with (String ":" anomalyType') in H.
    destruct (numToString_digits siteId) as (d & Hd & [E|E]),
             (numToString_digits siteId') as (d' & Hd' & [E'|E']);
      rewrite E, E' in *.
    - by apply digits_split in H as [-> ->].
    - destruct d; simpl in H; done.
    - destruct d'; simpl in H; done.
    - simpl in H. injection H as H. by apply digits_split in H as [-> ->]. }
  split; [by apply numToString_inj|done].
Qed.

End RateLimitKeys.

Section NotifierMore.
Import Schema Runtime SlackNotifier.

Variable env : Env.

(** What a call of [isRateLimited] can touch: the clock and the
    marker of its own key. *)
Lemma isRateLimited_frame (siteId : Z) (anomalyType : string) (w : World) :
  exists (limited : bool) (w' : World),
    isRateLimited env siteId anomalyType w = (Ok limited, w')
    /\ db w' = db w
    /\ outbox w' = outbox w
    /\ downtimeStartMap w' = downtimeStartMap w
    /\ (forall k : string, k <> rateLimitKey siteId anomalyType ->
          rateLimitMap w' !! k = rateLimitMap w !! k).
Proof.
  unfold isRateLimited, mbind, M_bind, get, mret, M_ret, Date_now, modify.
  cbn [ticks setTicks].
  destruct (Js.truthyNum (rateLimitMap w !! rateLimitKey siteId anomalyType)).
  - cbn [rateLimitMap setTicks].
    destruct (_ <? RATE_LIMIT_MS).
    + by eexists _, _.
    + eexists _, _. split; [reflexivity|]. repeat split.
      intros k Hk. cbn [rateLimitMap setRateLimitMap setTicks].
      by rewrite lookup_insert_ne.
  - eexists _, _. split; [reflexivity|]. repeat split.
    intros k Hk. cbn [rateLimitMap setRateLimitMap setTicks].
    by rewrite lookup_insert_ne.
Qed.

(** What one call of [notifyAnomaly] does to the world. *)
Lemma notifyAnomaly_effect
  (notification : AnomalyNotification) (w : World) :
  exists w' : World,
    notifyAnomaly env notification w = (Ok tt, w')
    /\ db w' = db w
    /\ downtimeStartMap w' = downtimeStartMap w
    /\ (forall k : string,
          k <> rateLimitKey (siteId notification) (anomalyType notification) ->
          rateLimitMap w' !! k = rateLimitMap w !! k)
    /\ (outbox w' = outbox w
        \/ exists payload : Payload,
             outbox w' =
             outbox w ++ [(default "" (webhookUrlOf (db w)), payload)]).
Proof.
  unfold notifyAnomaly, getWebhookUrl, mbind, M_bind, get, mret, M_ret.
  cbn beta iota.
  destruct (Js.truthyStr (webhookUrlOf (db w))); cbn [negb].
  2:{ exists w. repeat split; auto. }
  destruct (isRateLimited_frame (siteId notification)
              (anomalyType notification) w)
    as (limited & w1 & -> & Hdb & Hout & Hdown & Hkeys).
  destruct limited.
  { exists w1. repeat split; auto. }
  unfold catch, modify, throw.
  destruct (fetch env _ _); eexists; (split; [reflexivity|]);
    cbn [db outbox downtimeStartMap rateLimitMap setOutbox];
    rewrite Hout; repeat split; eauto.
Qed.

(** X13. [notifyAnomaly] is best effort: it never throws, whatever the
    webhook answers; it leaves the store, the downtime markers and the
    markers of all other keys as they were; and it makes at most one
    webhook call, to the configured url. *)
Theorem notifyAnomaly_best_effort
  (notification : AnomalyNotification) (w : World) :
  let after := notifyAnomaly env notification w in
  after.1 = Ok tt
  /\ db after.2 = db w
  /\ downtimeStartMap after.2 = downtimeStartMap w
  /\ (forall k : string,
        k <> rateLimitKey (siteId notification) (anomalyType notification) ->
        rateLimitMap after.2 !! k = rateLimitMap w !! k)
  /\ (outbox after.2 = outbox w
      \/ exists payload : Payload,
           outbox after.2 =
           outbox w ++ [(default "" (webhookUrlOf (db w)), payload)]).
Proof.
  cbn zeta.
  destruct (notifyAnomaly_effect notification w)
    as (w' & -> & Hdb & Hdown & Hkeys & Hout).
  cbn [fst snd]. by repeat split.
Qed.

(** A suppressed dispatch, with a webhook configured, reads the clock
    once and does nothing else. *)
Lemma notifyAnomaly_suppressed_eq (notification : AnomalyNotification)
  (w : World) (last : Z) :
  Js.truthyStr (webhookUrlOf (db w)) = true ->
  rateLimitMap w !! rateLimitKey (siteId notification) (anomalyType notification)
    = Some last ->
  last <> 0 ->
  clock env (ticks w) - last < RATE_LIMIT_MS ->
  notifyAnomaly env notification w = (Ok tt, setTicks (S (ticks w)) w).
Proof.
  intros Hurl Hlast Hnz Hrecent.
  unfold notifyAnomaly, getWebhookUrl, mbind, M_bind, get, mret, M_ret.
  cbn beta iota. rewrite Hurl. cbn [negb].
  by rewrite (isRateLimited_suppressed env _ _ _ _ Hlast Hnz Hrecent).
Qed.

(** A first dispatch for a key, with a webhook configured: one call,
    and the marker is the reading of the clock. *)
Lemma notifyAnomaly_first (notification : AnomalyNotification) (w : World) :
  Js.truthyStr (webhookUrlOf (db w)) = true ->
  rateLimitMap w !! rateLimitKey (siteId notification) (anomalyType notification)
    = None ->
  exists payload : Payload,
    notifyAnomaly env notification w =
    (Ok tt,
     setOutbox (outbox w ++ [(default "" (webhookUrlOf (db w)), payload)])
       (setRateLimitMap
          (<[rateLimitKey (siteId notification) (anomalyType notification)
             := clock env (ticks w)]> (rateLimitMap w))
          (setTicks (S (ticks w)) w))).
Proof.
  intros Hurl Hnone.
  unfold notifyAnomaly, getWebhookUrl, mbind, M_bind, get, mret, M_ret.
  cbn beta iota. rewrite Hurl. cbn [negb].
  rewrite (isRateLimited_first env _ _ _ Hnone).
  unfold catch, modify, throw.
  destruct (fetch env _ _); by eexists.
Qed.

(** A dispatch for a key whose marker is at least five minutes old,
    with a webhook configured: one call, and the marker is the second
    reading of the clock. *)
Lemma notifyAnomaly_expired (notification : AnomalyNotification) (w : World)
  (last : Z) :
  Js.truthyStr (webhookUrlOf (db w)) = true ->
  rateLimitMap w !! rateLimitKey (siteId notification) (anomalyType notification)
    = Some last ->
  last <> 0 ->
  RATE_LIMIT_MS <= clock env (ticks w) - last ->
  exists payload : Payload,
    notifyAnomaly env notification w =
    (Ok tt,
     setOutbox (outbox w ++ [(default "" (webhookUrlOf (db w)), payload)])
       (setRateLimitMap
          (<[rateLimitKey (siteId notification) (anomalyType notification)
             := clock env (S (ticks w))]> (rateLimitMap w))
          (setTicks (S (S (ticks w))) w))).
Proof.
  intros Hurl Hlast Hnz Hold.
  unfold notifyAnomaly, getWebhookUrl, mbind, M_bind, get, mret, M_ret.
  cbn beta iota. rewrite Hurl. cbn [negb].
  rewrite (isRateLimited_expired env _ _ _ _ Hlast Hnz Hold).
  unfold catch, modify, throw.
  destruct (fetch env _ _); by eexists.
Qed.

(** X14. Two dispatches for one key less than five minutes apart make
    exactly one webhook call, whatever the severity and description
    of the second; the marker stays the time of the first. *)
Theorem two_dispatches_within_window
  (first second : AnomalyNotification) (w : World) :
  Js.truthyStr (webhookUrlOf (db w)) = true ->
  siteId second = siteId first ->
  anomalyType second = anomalyType first ->
  rateLimitMap w !! rateLimitKey (siteId first) (anomalyType first) = None ->
  clock env (ticks w) <> 0 ->
  clock env (S (ticks w)) - clock env (ticks w) < RATE_LIMIT_MS ->
  let w1 := (notifyAnomaly env first w).2 in
  let w2 := (notifyAnomaly env second w1).2 in
  (exists payload : Payload,
     outbox w2 = outbox w ++ [(default "" (webhookUrlOf (db w)), payload)])
  /\ rateLimitMap w2 !! rateLimitKey (siteId first) (anomalyType first)
     = Some (clock env (ticks w)).
Proof.
  intros Hurl Hsite Htype Hnone Hnz Hsoon w1 w2. subst w1 w2.
  destruct (notifyAnomaly_first first w Hurl Hnone) as [payload ->].
  cbn [snd].
  match goal with |- context [notifyAnomaly env second ?x] =>
    set (w1 := x) end.
  assert (rateLimitMap w1 !! rateLimitKey (siteId second) (anomalyType second)
          = Some (clock env (ticks w))) as Hlast.
  { rewrite Hsite, Htype. subst w1.
    cbn [rateLimitMap setOutbox setRateLimitMap]. apply lookup_insert_eq. }
  rewrite (notifyAnomaly_suppressed_eq second w1 (clock env (ticks w)));
    try done.
  cbn [snd]. subst w1. split.
  - exists payload. by cbn [outbox setOutbox setTicks].
  - cbn [rateLimitMap setOutbox setRateLimitMap setTicks].
    apply lookup_insert_eq.
Qed.

(** X15. Two dispatches for one key at least five minutes apart are
    both delivered: two webhook calls, and the marker moves to the
    clock reading taken when the second is let through. *)
Theorem two_dispatches_after_window
  (first second : AnomalyNotification) (w : World) :
  Js.truthyStr (webhookUrlOf (db w)) = true ->
  siteId second = siteId first ->
  anomalyType second = anomalyType first ->
  rateLimitMap w !! rateLimitKey (siteId first) (anomalyType first) = None ->
  clock env (ticks w) <> 0 ->
  RATE_LIMIT_MS <= clock env (S (ticks w)) - clock env (ticks w) ->
  let w1 := (notifyAnomaly env first w).2 in
  let w2 := (notifyAnomaly env second w1).2 in
  (exists p1 p2 : Payload,
     outbox w2 = outbox w ++ [(default "" (webhookUrlOf (db w)), p1);
                              (default "" (webhookUrlOf (db w)), p2)])
  /\ rateLimitMap w2 !! rateLimitKey (siteId first) (anomalyType first)
     = Some (clock env (S (S (ticks w)))).
Proof.
  intros Hurl Hsite Htype Hnone Hnz Hlate w1 w2. subst w1 w2.
  destruct (notifyAnomaly_first first w Hurl Hnone) as [p1 ->].
  cbn [snd].
  match goal with |- context [notifyAnomaly env second ?x] =>
    set (w1 := x) end.
  assert (rateLimitMap w1 !! rateLimitKey (siteId second) (anomalyType second)
          = Some (clock env (ticks w))) as Hlast.
  { rewrite Hsite, Htype. subst w1.
    cbn [rateLimitMap setOutbox setRateLimitMap]. apply lookup_insert_eq. }
  destruct (notifyAnomaly_expired second w1 (clock env (ticks w)))
    as [p2 ->]; try done.
  cbn [snd]. subst w1. rewrite Hsite, Htype.
  cbn [outbox rateLimitMap db ticks setOutbox setRateLimitMap setTicks].
  split.
  - exists p1, p2. by rewrite <- app_assoc.
  - apply lookup_insert_eq.
Qed.

(** The first downtime marker of a site is kept: a second
    [recordDowntimeStart] neither moves it nor reads the clock. *)
Lemma recordDowntimeStart_keeps_first (siteId : Z) (w : World) :
  downtimeStartMap w !! siteId = None ->
  let w1 := (recordDowntimeStart env siteId w).2 in
  let w2 := (recordDowntimeStart env siteId w1).2 in
  downtimeStartMap w1 !! siteId = Some (clock env (ticks w))
  /\ w2 = w1.
Proof.
  intros Hnone w1 w2. subst w1 w2.
  assert (recordDowntimeStart env siteId w =
          (Ok tt,
           setDowntimeStartMap
             (<[siteId := clock env (ticks w)]> (downtimeStartMap w))
             (setTicks (S (ticks w)) w))) as ->.
  { unfold recordDowntimeStart, mbind, M_bind, get, mret, M_ret, Date_now,
      modify.
    cbn beta iota.
    by rewrite decide_False by (rewrite Hnone; by intros [? ?]). }
  cbn [snd downtimeStartMap setDowntimeStartMap].
  rewrite lookup_insert_eq. split; [done|].
  unfold recordDowntimeStart, mbind, M_bind, get, mret, M_ret.
  cbn beta iota. rewrite decide_True; [done|].
  cbn [downtimeStartMap setDowntimeStartMap]. by rewrite lookup_insert_eq.
Qed.

(** With a downtime marker, [isEscalated] answers true exactly
    when the clock is at least the threshold (five minutes when none
    is given) past the marker; without a marker it answers false and
    does not read the clock. *)
Lemma isEscalated_iff (siteId : Z) (thresholdMinutes : option Z) (w : World) :
  match downtimeStartMap w !! siteId with
  | Some start =>
    (isEscalated env siteId thresholdMinutes w).1 =
    Ok (bool_decide
          (default 5 thresholdMinutes * 60000 <= clock env (ticks w) - start))
  | None => isEscalated env siteId thresholdMinutes w = (Ok false, w)
  end.
Proof.
  unfold isEscalated, mbind, M_bind, get, mret, M_ret, Date_now.
  destruct (downtimeStartMap w !! siteId) as [start|]; [|done].
  cbn [fst]. f_equal. unfold DEFAULT_ESCALATION_THRESHOLD_MINUTES.
  destruct (decide (default 5 thresholdMinutes * 60000
                    <= clock env (ticks w) - start)).
  - rewrite bool_decide_eq_true_2 by done. lia.
  - rewrite bool_decide_eq_false_2 by done. lia.
Qed.

(** [clearDowntime] ends the escalation of its site and of no
    other: right after it [isEscalated] is false for the site, and
    every other marker is where it was. *)
Lemma clearDowntime_resets (siteId : Z) (thresholdMinutes : option Z)
  (w : World) :
  let w' := (clearDowntime siteId w).2 in
  (isEscalated env siteId thresholdMinutes w').1 = Ok false
  /\ (forall other : Z, other <> siteId ->
        downtimeStartMap w' !! other = downtimeStartMap w !! other)
  /\ rateLimitMap w' = rateLimitMap w.
Proof.
  cbn zeta. unfold clearDowntime, modify. cbn [snd].
  split; [|split].
  - unfold isEscalated, mbind, M_bind, get, mret, M_ret.
    cbn [downtimeStartMap setDowntimeStartMap].
    by rewrite lookup_delete_eq.
  - intros other Hne. cbn [downtimeStartMap setDowntimeStartMap].
    by rewrite lookup_delete_ne.
  - done.
Qed.

End NotifierMore.

(** ** [detectAnomalies] and the store *)

Section DetectAnomaliesFacts.
Import Schema Runtime AnomalyDetector.

Variable env : Env.

(** The same tables, but for [anomalies]. *)
Lemma insertAnomalies_effect (detected : list AnomalyRecord) :
  forall w : World,
  exists w' : World,
    insertAnomalies env detected w = (Ok tt, w')
    /\ row_record <$> anomalies (db w')
       = (row_record <$> anomalies (db w)) ++ detected
    /\ checks (db w') = checks (db w)
    /\ sites (db w') = sites (db w)
    /\ siteSettings (db w') = siteSettings (db w)
    /\ settings (db w') = settings (db w).
Proof.
  induction detected as [|a rest IH]; intros w.
  - exists w. repeat split; auto. by rewrite app_nil_r.
  - cbn [insertAnomalies].
    unfold mbind at 1. unfold M_bind at 1. unfold Date_now at 1.
    unfold mbind at 1. unfold M_bind at 1. unfold modify at 1.
    match goal with |- context [insertAnomalies env rest ?x] =>
      destruct (IH x) as (w' & -> & Hrows & Hchecks & Hsites & Hss & Hset) end.
    exists w'. split; [reflexivity|].
    cbn [db setDb setTicks anomalies checks sites siteSettings settings]
      in Hrows, Hchecks, Hsites, Hss, Hset.
    rewrite Hrows, Hchecks, Hsites, Hss, Hset.
    repeat split. rewrite fmap_app. cbn [fmap list_fmap row_record].
    by rewrite <- app_assoc.
Qed.

Lemma notifyAll_effect (overrides : option SiteSettingsRow) (site : Site)
  (detected : list AnomalyRecord) :
  forall w : World,
  exists w' : World,
    notifyAll env overrides site detected w = (Ok tt, w') /\ db w' = db w.
Proof.
  induction detected as [|a rest IH]; intros w.
  - by exists w.
  - cbn [notifyAll]. unfold mbind at 1. unfold M_bind at 1.
    destruct (negb (shouldNotify overrides (type a) (severity a))).
    + cbn [mret M_ret]. apply IH.
    + unfold mbind at 1. unfold M_bind at 1. unfold Date_now at 1.
      unfold catch.
      match goal with |- context [SlackNotifier.notifyAnomaly env ?n ?x] =>
        destruct (notifyAnomaly_effect env n x)
          as (w1 & -> & Hdb & _) end.
      destruct (IH w1) as (w' & -> & Hdb').
      exists w'. split; [reflexivity|]. by rewrite Hdb', Hdb.
Qed.

Lemma M_bind_ext {A B : Type} (m : M A) (f g : A -> M B) (w : World) :
  (forall (a : A) (w' : World), f a w' = g a w') ->
  (m ≫= f) w = (m ≫= g) w.
Proof.
  intros Hfg. unfold mbind, M_bind. by destruct (m w) as [[a|e] w'].
Qed.

(** X16. Records that fail [shouldNotify] are passed over without any
    effect: the notification loop does what it would do on the
    eligible records alone, and nothing at all when none is
    eligible. *)
Theorem notifyAll_only_eligible (overrides : option SiteSettingsRow)
  (site : Site) (detected : list AnomalyRecord) (w : World) :
  notifyAll env overrides site detected w =
  notifyAll env overrides site
    (filter (fun a => shouldNotify overrides (type a) (severity a) = true)
            detected) w.
Proof.
  revert w. induction detected as [|a rest IH]; intros w; [done|].
  destruct (shouldNotify overrides (type a) (severity a)) eqn:E.
  - rewrite filter_cons_True by done. cbn [notifyAll]. rewrite E.
    cbn [negb]. apply M_bind_ext. intros _ w'. apply IH.
  - rewrite filter_cons_False by (rewrite E; done).
    cbn [notifyAll]. rewrite E. cbn [negb].
    unfold mbind at 1. unfold M_bind at 1. cbn [mret M_ret]. apply IH.
Qed.

(** X17. Detection for a check or a site that is not in the store
    stops silently: nothing is returned, inserted or sent, and the
    clock is not read. *)
Theorem detectAnomalies_missing_rows (checkId siteId : Z) (w : World) :
  Forall (fun c => id c <> checkId) (checks (db w))
  \/ Forall (fun s => site_id s <> siteId) (sites (db w)) ->
  detectAnomalies env checkId siteId w = (Ok [], w).
Proof.
  intros Hmissing.
  unfold detectAnomalies. unfold mbind at 1. unfold M_bind at 1.
  cbn [get].
  destruct (head (filter (fun c => id c = checkId) (checks (db w))))
    as [current|] eqn:Hcur; [|done].
  destruct Hmissing as [Hnocheck|Hnosite].
  - exfalso. apply head_Some_elem_of in Hcur.
    apply list_elem_of_filter in Hcur as [Hid Hin].
    rewrite Forall_forall in Hnocheck. by apply (Hnocheck current).
  - destruct (head (filter (fun s => site_id s = siteId) (sites (db w))))
      as [site|] eqn:Hsite; [|done].
    exfalso. apply head_Some_elem_of in Hsite.
    apply list_elem_of_filter in Hsite as [Hid Hin].
    rewrite Forall_forall in Hnosite. by apply (Hnosite site).
Qed.

(** What [detectAnomalies] does to the store. *)
Lemma detectAnomalies_effect (checkId siteId : Z) (w : World) :
  exists (detected : list AnomalyRecord) (w' : World),
    detectAnomalies env checkId siteId w = (Ok detected, w')
    /\ row_record <$> anomalies (db w')
       = (row_record <$> anomalies (db w)) ++ detected
    /\ checks (db w') = checks (db w)
    /\ sites (db w') = sites (db w)
    /\ siteSettings (db w') = siteSettings (db w)
    /\ settings (db w') = settings (db w).
Proof.
  unfold detectAnomalies. unfold mbind at 1. unfold M_bind at 1.
  cbn [get].
  destruct (head (filter (fun c => id c = checkId) (checks (db w))))
    as [current|].
  2:{ exists [], w. repeat split; auto. by rewrite app_nil_r. }
  destruct (head (filter (fun s => site_id s = siteId) (sites (db w))))
    as [site|].
  2:{ exists [], w. repeat split; auto. by rewrite app_nil_r. }
  unfold mbind at 1. unfold M_bind at 1.
  match goal with |- context [(if ?b then Date_now env else mret 0) w] =>
    assert (exists now n, (if b then Date_now env else mret 0) w
                          = (Ok now, setTicks n w)) as (now & n & ->)
  end.
  { destruct (bool_decide _).
    - by eexists _, _.
    - exists 0, (ticks w). by destruct w. }
  unfold mbind at 1. unfold M_bind at 1.
  match goal with |- context [detect ?e ?c ?s ?cur ?h ?si ?o ?t] =>
    set (detected := detect e c s cur h si o t) end.
  destruct (0 <? length detected)%nat eqn:Hlen.
  - unfold mbind at 1. unfold M_bind at 1.
    destruct (insertAnomalies_effect detected (setTicks n w))
      as (w1 & -> & Hrows & Hchecks & Hsites & Hss & Hset).
    match goal with |- context [notifyAll env ?o ?si detected w1] =>
      destruct (notifyAll_effect o si detected w1) as (w2 & -> & Hdb) end.
    exists detected, w2. split; [reflexivity|]. rewrite Hdb.
    by rewrite Hrows, Hchecks, Hsites, Hss, Hset.
  - exists detected, (setTicks n w). split; [reflexivity|].
    destruct detected; [|done]. repeat split. cbn [db setTicks].
    by rewrite app_nil_r.
Qed.

(** X18. [detectAnomalies] never throws, whatever the webhook does.
    It appends exactly the detected records to the anomalies table,
    in order, and leaves the checks, sites and settings tables as
    they were. *)
Theorem detectAnomalies_persists_detected (checkId siteId : Z) (w : World) :
  let after := detectAnomalies env checkId siteId w in
  exists detected : list AnomalyRecord,
    after.1 = Ok detected
    /\ row_record <$> anomalies (db after.2)
       = (row_record <$> anomalies (db w)) ++ detected
    /\ checks (db after.2) = checks (db w)
    /\ sites (db after.2) = sites (db w)
    /\ siteSettings (db after.2) = siteSettings (db w)
    /\ settings (db after.2) = settings (db w).
Proof.
  cbn zeta.
  destruct (detectAnomalies_effect checkId siteId w)
    as (detected & w' & -> & Hrows & Hchecks & Hsites & Hss & Hset).
  exists detected. cbn [fst snd]. by repeat split.
Qed.

End DetectAnomaliesFacts.

(** ** The prober: every way a check ends *)

Section ProberMore.
Import Schema Runtime CheckEngine Shapes.

Variable env : Env.

(** The loop touches nothing but the clock. *)
Lemma followRedirects_frame (fuel : nat) :
  forall (hop start : Z) (pre : list RedirectHop) (visited : gset string)
         (cur : string) (w : World),
  exists (r : Result CheckResult) (n : nat),
    followRedirects env fuel hop start pre visited cur w = (r, setTicks n w).
Proof.
  induction fuel as [|fuel IH]; intros hop start pre visited cur w.
  - cbn [followRedirects]. by eexists _, _.
  - cbn [followRedirects].
    destruct (decide (cur ∈ visited)) as [Hin|Hnotin]; [by eexists _, _|].
    unfold mbind at 1. unfold M_bind at 1. unfold Date_now at 1.
    destruct (_ <=? 0); [by eexists _, _|].
    unfold mbind at 1. unfold M_bind at 1. unfold singleRequest.
    destruct (URL_protocol env cur) as [protocol|] eqn:Hprotocol;
      [|by eexists _, _].
    destruct (request env cur _) as [status headers body socket
                                    |status headers socket message code
                                    | |message code|message];
      [| by eexists _, _ ..].
    unfold mret at 1. unfold M_ret at 1.
    cbn [r_error r_statusCode r_headers].
    assert (forall result0, exists (r : Result CheckResult) (n : nat),
              finalResponse env start pre cur result0
                (setTicks (S (ticks w)) w) = (r, setTicks n w)) as Hfinal.
    { intros result0. unfold finalResponse.
      unfold mbind, M_bind, Date_now, mret, M_ret. rewrite Hprotocol.
      by eexists _, _. }
    destruct status as [code|]; [|apply Hfinal].
    destruct ((300 <=? code) && (code <? 400)
              && truthyHeader (headerLocation headers)); [|apply Hfinal].
    destruct (hop =? MAX_REDIRECTS); [by eexists _, _|].
    destruct (URL_resolve env _ cur) as [next|]; [|by eexists _, _].
    destruct (IH (hop + 1) start
                (pre ++ [{| hop_url := cur; hop_statusCode := code |}])
                ({[cur]} ∪ visited) next (setTicks (S (ticks w)) w))
      as (r & n & ->).
    by exists r, n.
Qed.

(** A probe touches nothing but the clock. *)
Lemma performCheck_frame (url : string) (w : World) :
  exists (r : Result CheckResult) (n : nat),
    performCheck env url w = (r, setTicks n w).
Proof.
  unfold performCheck. unfold mbind, M_bind. unfold Date_now at 1.
  destruct (followRedirects_frame (Z.to_nat (MAX_REDIRECTS + 1)) 0
              (clock env (ticks w)) [] ∅ url (setTicks (S (ticks w)) w))
    as (r & n & ->).
  destruct r; by eexists _, _.
Qed.

(** X19. [performCheck] has no effect on the store, on the notifier's
    rate-limit and downtime maps or on the webhook, whether it
    resolves or rejects: it only reads the clock. Writing the check
    row is left to its caller. *)
Theorem performCheck_reads_only_the_clock (url : string) (w : World) :
  let after := performCheck env url w in
  db after.2 = db w
  /\ rateLimitMap after.2 = rateLimitMap w
  /\ downtimeStartMap after.2 = downtimeStartMap w
  /\ outbox after.2 = outbox w.
Proof.
  cbn zeta. by destruct (performCheck_frame url w) as (r & n & ->).
Qed.

Lemma chainOrNull_shape (chain : list RedirectHop) :
  chainOrNull chain <> Some []
  /\ default [] (chainOrNull chain) = chain.
Proof. by destruct chain. Qed.

Lemma failed_wellShaped (bound : nat) (status : option Z) (elapsed : Z)
  (message : string) (code : option string) (chain : list RedirectHop) :
  (length chain <= bound)%nat ->
  wellShaped bound (failed status elapsed message code (chainOrNull chain)).
Proof.
  intros Hlen. destruct (chainOrNull_shape chain) as [Hne Hdef].
  unfold wellShaped.
  cbn [failed responseTimeMs isUp errorMessage errorCode bodyHash
       headersSnapshot sslValid sslExpiry sslCertificate redirectChain
       statusCode].
  rewrite Hdef. repeat split; done.
Qed.

Lemma followRedirects_wellShaped (fuel : nat) :
  forall (hop start : Z) (pre : list RedirectHop) (visited : gset string)
         (cur : string) (w : World) (r : CheckResult) (w' : World),
  followRedirects env fuel hop start pre visited cur w = (Ok r, w') ->
  wellShaped (length pre + fuel) r.
Proof.
  induction fuel as [|fuel IH]; intros hop start pre visited cur w r w'.
  - cbn [followRedirects]. intros [= <- _]. apply failed_wellShaped. lia.
  - cbn [followRedirects].
    destruct (decide (cur ∈ visited)) as [Hin|Hnotin].
    { intros [= <- _]. apply failed_wellShaped. lia. }
    unfold mbind at 1. unfold M_bind at 1. unfold Date_now at 1.
    destruct (_ <=? 0).
    { intros [= <- _]. apply failed_wellShaped. lia. }
    unfold mbind at 1. unfold M_bind at 1. unfold singleRequest.
    destruct (URL_protocol env cur) as [protocol|] eqn:Hprotocol; [|done].
    destruct (request env cur _) as [status headers body socket
                                    |status headers socket message code
                                    | |message code|message];
      [| (intros [= <- _]; apply failed_wellShaped; lia) .. | done].
    unfold mret at 1. unfold M_ret at 1.
    cbn [r_error r_statusCode r_headers].
    assert (forall result0,
              r_statusCode result0 = status ->
              finalResponse env start pre cur result0
                (setTicks (S (ticks w)) w) = (Ok r, w') ->
              wellShaped (length pre + S fuel) r) as Hfinal.
    { intros result0 Hstatus. unfold finalResponse.
      unfold mbind, M_bind, Date_now, mret, M_ret. rewrite Hprotocol.
      intros [= <- _]. destruct (chainOrNull_shape pre) as [Hne Hdef].
      unfold wellShaped.
      cbn [responseTimeMs isUp errorMessage errorCode bodyHash
           headersSnapshot redirectChain statusCode].
      rewrite Hdef, Hstatus. repeat split; try done; try lia.
      destruct status as [code|]; cbn [isUpOf] in *; [|done].
      exists code. split; [done|lia]. }
    destruct status as [code|]; [|by apply Hfinal].
    destruct ((300 <=? code) && (code <? 400)
              && truthyHeader (headerLocation headers)); [|by apply Hfinal].
    destruct (hop =? MAX_REDIRECTS).
    { intros [= <- _]. unfold wellShaped.
      cbn [failed responseTimeMs isUp errorMessage errorCode bodyHash
           headersSnapshot sslValid sslExpiry sslCertificate redirectChain
           statusCode default from_option Datatypes.id].
      rewrite length_app. cbn [length].
      repeat split; try done; try lia. by destruct pre. }
    destruct (URL_resolve env _ cur) as [next|]; [|done].
    intros Hrec. apply IH in Hrec. rewrite length_app in Hrec.
    cbn [length] in Hrec.
    replace (length pre + S fuel)%nat with (length pre + 1 + fuel)%nat by lia.
    exact Hrec.
Qed.

(** X20. Every result of [performCheck] has a response time. A result
    that is up has a status code below 500, a body hash and a headers
    snapshot, and no error; a result with an error message is down and
    carries no payload and no certificate data; an error code never
    comes without a message; the redirect chain is never an empty
    list and never longer than six hops. *)
Theorem performCheck_result_shape (url : string) (w : World)
  (r : CheckResult) (w' : World) :
  performCheck env url w = (Ok r, w') ->
  wellShaped 6 r.
Proof.
  unfold performCheck. unfold mbind, M_bind. unfold Date_now at 1.
  intros H. by apply followRedirects_wellShaped in H.
Qed.

(** A chain of redirects, followed within the budget and below the
    hop cap, brings the loop to its target with the chain recorded and
    its urls visited. *)
Lemma followRedirects_prefix (chain : list RedirectHop) :
  forall (fuel : nat) (hop start : Z) (pre : list RedirectHop)
         (visited : gset string) (cur target : string) (w : World),
  redirectPath env cur chain target ->
  NoDup (hop_url <$> chain) ->
  (forall u : string, u ∈ hop_url <$> chain -> u ∉ visited) ->
  hop + Z.of_nat (length chain) <= MAX_REDIRECTS ->
  (forall i : nat, (i < length chain)%nat ->
     clock env (ticks w + i) - start < CHECK_TIMEOUT_MS) ->
  exists visited' : gset string,
    (forall u : string, u ∈ visited' <-> u ∈ hop_url <$> chain \/ u ∈ visited)
    /\ followRedirects env (length chain + fuel) hop start pre visited cur w =
       followRedirects env fuel (hop + Z.of_nat (length chain)) start
         (pre ++ chain) visited' target (setTicks (ticks w + length chain) w).
Proof.
  induction chain as [|h rest IH];
    intros fuel hop start pre visited cur target w Hpath Hnodup Hdisj Hhop Hclock.
  - cbn in Hpath. subst cur. exists visited. split.
    + intros u. split; [by right|]. intros [Hin|Hin]; [|done].
      by apply elem_of_nil in Hin.
    + cbn [length]. rewrite Nat.add_0_r, Z.add_0_r, app_nil_r.
      by destruct w.
  - destruct h as [u code]. cbn in Hpath.
    destruct Hpath as (-> & next & Hredirect & Hpath).
    rewrite fmap_cons in Hnodup, Hdisj. cbn [hop_url] in *.
    apply NoDup_cons in Hnodup as [Hnotin Hnodup].
    cbn [length Nat.add] in *.
    rewrite (followRedirects_step env (length rest + fuel) hop start pre
               visited cur next code w);
      [|done|apply Hdisj; left|unfold MAX_REDIRECTS in *; lia|].
    2:{ specialize (Hclock 0%nat). rewrite Nat.add_0_r in Hclock.
        apply Hclock. lia. }
    destruct (IH fuel (hop + 1) start
                (pre ++ [{| hop_url := cur; hop_statusCode := code |}])
                ({[cur]} ∪ visited) next target (setTicks (S (ticks w)) w))
      as (visited' & Hvisited & ->); try done.
    + intros v Hv. apply not_elem_of_union. split.
      * apply not_elem_of_singleton. intros ->. done.
      * apply Hdisj. by right.
    + lia.
    + intros i Hi. cbn [ticks setTicks].
      replace (S (ticks w) + i)%nat with (ticks w + S i)%nat by lia.
      apply Hclock. lia.
    + exists visited'. split.
      * intros v. rewrite Hvisited, fmap_cons, elem_of_cons, elem_of_union,
          elem_of_singleton. cbn [hop_url]. tauto.
      * cbn [ticks setTicks]. rewrite setTicks_setTicks, <- app_assoc.
        cbn [app].
        replace (hop + 1 + Z.of_nat (length rest))
          with (hop + Z.of_nat (S (length rest))) by lia.
        by replace (S (ticks w) + length rest)%nat
             with (ticks w + S (length rest))%nat by lia.
Qed.

Section AfterRedirects.

(** [url] leads to [target] through the redirects of [chain], at most
    five of them, each answered within the budget; [target] itself is
    a url not seen before. *)
Variables (url target : string) (chain : list RedirectHop) (w : World).
Hypothesis Hpath : redirectPath env url chain target.
Hypothesis Hnodup : NoDup (hop_url <$> chain).
Hypothesis Hfresh : target ∉ hop_url <$> chain.
Hypothesis Hlen : (length chain <= Z.to_nat MAX_REDIRECTS)%nat.
Hypothesis Hclock : forall i : nat, (i < length chain)%nat ->
  clock env (S (ticks w) + i) - clock env (ticks w) < CHECK_TIMEOUT_MS.

(** The reading of the clock before the request to [target], and the
    budget left for it. *)
Let reading : Z := clock env (S (ticks w) + length chain).
Let remaining : Z := CHECK_TIMEOUT_MS - (reading - clock env (ticks w)).

Lemma performCheck_at_target :
  exists (fuel : nat) (visited : gset string),
    (target ∉ visited)
    /\ performCheck env url w =
       followRedirects env (S fuel) (Z.of_nat (length chain))
         (clock env (ticks w)) chain visited target
         (setTicks (S (ticks w) + length chain) w).
Proof.
  unfold performCheck. unfold mbind, M_bind. unfold Date_now at 1.
  destruct (followRedirects_prefix chain
              (S (Z.to_nat MAX_REDIRECTS - length chain)) 0
              (clock env (ticks w)) [] ∅ url target
              (setTicks (S (ticks w)) w))
    as (visited & Hvisited & Heq); try done.
  - unfold MAX_REDIRECTS in *. lia.
  - exists (Z.to_nat MAX_REDIRECTS - length chain)%nat, visited. split.
    + rewrite Hvisited. intros [Hin|Hin]; [done|].
      by apply not_elem_of_empty in Hin.
    + replace (Z.to_nat (MAX_REDIRECTS + 1))
        with (length chain + S (Z.to_nat MAX_REDIRECTS - length chain))%nat
        by (unfold MAX_REDIRECTS in *; lia).
      rewrite Heq. cbn [app ticks setTicks]. by rewrite setTicks_setTicks.
Qed.

(** X21. The ten-second budget is shared by all hops: when it is used
    up before the request to the next url, the check ends with
    ETIMEDOUT, down, with the chain followed so far, and the url is
    not requested. *)
Theorem performCheck_budget_exhausted :
  CHECK_TIMEOUT_MS <= reading - clock env (ticks w) ->
  exists (result : CheckResult) (w' : World),
    performCheck env url w = (Ok result, w')
    /\ errorCode result = Some "ETIMEDOUT"
    /\ errorMessage result = Some "timeout after 10000ms"
    /\ isUp result = false
    /\ statusCode result = None
    /\ redirectChain result = chainOrNull chain.
Proof.
  intros Hover.
  destruct performCheck_at_target as (fuel & visited & Hnew & ->).
  cbn [followRedirects]. rewrite decide_False by done.
  unfold mbind at 1. unfold M_bind at 1. unfold Date_now at 1.
  cbn [ticks setTicks]. fold reading.
  assert ((CHECK_TIMEOUT_MS - (reading - clock env (ticks w)) <=? 0) = true)
    as -> by lia.
  by eexists _, _.
Qed.

(** X22. A transport error at any hop (refused or reset connection,
    failed name lookup) ends the check with the native message and
    code, down, without status code, and with the chain followed so
    far. The request was given what was left of the budget. *)
Theorem performCheck_request_error (message : string) (code : option string) :
  reading - clock env (ticks w) < CHECK_TIMEOUT_MS ->
  is_Some (URL_protocol env target) ->
  request env target remaining = RequestError message code ->
  exists (result : CheckResult) (w' : World),
    performCheck env url w = (Ok result, w')
    /\ errorMessage result = Some message
    /\ errorCode result = code
    /\ isUp result = false
    /\ statusCode result = None
    /\ bodyHash result = None
    /\ redirectChain result = chainOrNull chain.
Proof.
  intros Hbudget [protocol Hprotocol] Hrequest.
  destruct performCheck_at_target as (fuel & visited & Hnew & ->).
  cbn [followRedirects]. rewrite decide_False by done.
  unfold mbind at 1. unfold M_bind at 1. unfold Date_now at 1.
  cbn [ticks setTicks]. fold reading. fold remaining.
  assert ((remaining <=? 0) = false) as -> by (unfold remaining; lia).
  unfold mbind at 1. unfold M_bind at 1. unfold singleRequest.
  rewrite Hprotocol, Hrequest.
  by eexists _, _.
Qed.

(** When the socket goes quiet the request times out on what was
    left of the budget, and the message names that remainder, not the
    ten seconds of the whole check. *)
Lemma performCheck_request_timeout :
  reading - clock env (ticks w) < CHECK_TIMEOUT_MS ->
  is_Some (URL_protocol env target) ->
  request env target remaining = RequestTimeout ->
  exists (result : CheckResult) (w' : World),
    performCheck env url w = (Ok result, w')
    /\ errorMessage result
       = Some ("timeout after " +:+ Js.numToString remaining +:+ "ms")
    /\ errorCode result = Some "ETIMEDOUT"
    /\ isUp result = false
    /\ redirectChain result = chainOrNull chain.
Proof.
  intros Hbudget [protocol Hprotocol] Hrequest.
  destruct performCheck_at_target as (fuel & visited & Hnew & ->).
  cbn [followRedirects]. rewrite decide_False by done.
  unfold mbind at 1. unfold M_bind at 1. unfold Date_now at 1.
  cbn [ticks setTicks]. fold reading. fold remaining.
  assert ((remaining <=? 0) = false) as -> by (unfold remaining; lia).
  unfold mbind at 1. unfold M_bind at 1. unfold singleRequest.
  rewrite Hprotocol, Hrequest.
  by eexists _, _.
Qed.

(** X23. A response that is not a redirect (a status outside 300 to
    399, or no Location header) is final: the result has its status
    code, is up exactly when the status is below 500, has no error,
    carries the hash of the body and the snapshot of the headers, and
    of the redirect chain what was followed (null when nothing was). *)
Theorem performCheck_final_response
  (status : option Z) (headers : Headers) (body : string)
  (socket : option Socket) :
  reading - clock env (ticks w) < CHECK_TIMEOUT_MS ->
  is_Some (URL_protocol env target) ->
  request env target remaining = ResponseEnd status headers body socket ->
  (forall code : Z, status = Some code ->
     ~ (300 <= code < 400) \/ truthyHeader (headerLocation headers) = false) ->
  exists (result : CheckResult) (w' : World),
    performCheck env url w = (Ok result, w')
    /\ statusCode result = status
    /\ isUp result = isUpOf status
    /\ errorMessage result = None
    /\ errorCode result = None
    /\ bodyHash result = Some (sha256_hex env body)
    /\ headersSnapshot result = Some (JSON_stringify env headers)
    /\ redirectChain result = chainOrNull chain.
Proof.
  intros Hbudget [protocol Hprotocol] Hrequest Hfinal.
  destruct performCheck_at_target as (fuel & visited & Hnew & ->).
  cbn [followRedirects]. rewrite decide_False by done.
  unfold mbind at 1. unfold M_bind at 1. unfold Date_now at 1.
  cbn [ticks setTicks]. fold reading. fold remaining.
  assert ((remaining <=? 0) = false) as -> by (unfold remaining; lia).
  unfold mbind at 1. unfold M_bind at 1. unfold singleRequest.
  rewrite Hprotocol, Hrequest.
  unfold mret at 1. unfold M_ret at 1.
  cbn [r_error r_statusCode r_headers].
  assert (exists (result : CheckResult) (w' : World),
            finalResponse env (clock env (ticks w)) chain target
              {| r_statusCode := status; r_headers := headers;
                 r_body := body; r_socket := socket; r_error := None |}
              (setTicks (S (S (ticks w) + length chain)) w) = (Ok result, w')
            /\ statusCode result = status
            /\ isUp result = isUpOf status
            /\ errorMessage result = None
            /\ errorCode result = None
            /\ bodyHash result = Some (sha256_hex env body)
            /\ headersSnapshot result = Some (JSON_stringify env headers)
            /\ redirectChain result = chainOrNull chain) as Hend.
  { unfold finalResponse. unfold mbind, M_bind, Date_now, mret, M_ret.
    rewrite Hprotocol. by eexists _, _. }
  destruct status as [code|]; [|exact Hend].
  destruct (Hfinal code eq_refl) as [Hrange| ->].
  - assert (((300 <=? code) && (code <? 400)) = false) as ->; [|exact Hend].
    apply andb_false_iff. lia.
  - by rewrite andb_false_r.
Qed.

(** X24. A sixth redirect is one too many: after five hops, a further
    redirect response ends the check with TOO_MANY_REDIRECTS, down,
    with the status code of that response and all six hops in the
    chain; its Location is not resolved or visited. *)
Theorem performCheck_too_many_redirects
  (code : Z) (headers : Headers) (body : string) (socket : option Socket) :
  length chain = Z.to_nat MAX_REDIRECTS ->
  reading - clock env (ticks w) < CHECK_TIMEOUT_MS ->
  is_Some (URL_protocol env target) ->
  request env target remaining = ResponseEnd (Some code) headers body socket ->
  300 <= code < 400 ->
  truthyHeader (headerLocation headers) = true ->
  exists (result : CheckResult) (w' : World),
    performCheck env url w = (Ok result, w')
    /\ errorCode result = Some "TOO_MANY_REDIRECTS"
    /\ errorMessage result = Some "too many redirects (>5)"
    /\ isUp result = false
    /\ statusCode result = Some code
    /\ redirectChain result
       = Some (chain ++ [{| hop_url := target; hop_statusCode := code |}]).
Proof.
  intros Hfive Hbudget [protocol Hprotocol] Hrequest Hcode Hlocation.
  destruct performCheck_at_target as (fuel & visited & Hnew & ->).
  cbn [followRedirects]. rewrite decide_False by done.
  unfold mbind at 1. unfold M_bind at 1. unfold Date_now at 1.
  cbn [ticks setTicks]. fold reading. fold remaining.
  assert ((remaining <=? 0) = false) as -> by (unfold remaining; lia).
  unfold mbind at 1. unfold M_bind at 1. unfold singleRequest.
  rewrite Hprotocol, Hrequest.
  unfold mret at 1. unfold M_ret at 1.
  cbn [r_error r_statusCode r_headers].
  assert ((300 <=? code) = true) as -> by lia.
  assert ((code <? 400) = true) as -> by lia.
  rewrite Hlocation. cbn [andb].
  assert ((Z.of_nat (length chain) =? MAX_REDIRECTS) = true) as ->.
  { rewrite Hfive. unfold MAX_REDIRECTS. reflexivity. }
  by eexists _, _.
Qed.

End AfterRedirects.

End ProberMore.

(** ** The scheduler and the store *)

Section SchedulerMore.
Import Schema Runtime CheckEngine.

Variable env : Env.

Lemma foldr_max_bound (l : list Z) (x : Z) :
  x ∈ l -> x <= foldr Z.max 0 l.
Proof.
  induction l as [|y l IH]; intros Hin; [by apply elem_of_nil in Hin|].
  apply elem_of_cons in Hin as [->|Hin]; cbn [foldr]; [lia|].
  specialize (IH Hin). lia.
Qed.

(** What [insertCheck] does to the store. *)
Lemma insertCheck_effect (siteId : Z) (result : CheckResult)
  (w : World) :
  exists (newId : Z) (row : Check) (w' : World),
    insertCheck env siteId result w = (Ok newId, w')
    /\ Forall (fun c => id c < newId) (checks (db w))
    /\ checks (db w') = checks (db w) ++ [row]
    /\ head (filter (fun c => id c = newId) (checks (db w'))) = Some row
    /\ (Schema.siteId row = siteId
        /\ Schema.statusCode row = statusCode result
        /\ Schema.isUp row = Some (isUp result)
        /\ Schema.errorMessage row = errorMessage result
        /\ Schema.bodyHash row = bodyHash result)
    /\ (sites (db w') = sites (db w)
        /\ siteSettings (db w') = siteSettings (db w)
        /\ anomalies (db w') = anomalies (db w)
        /\ settings (db w') = settings (db w)).
Proof.
  unfold insertCheck, mbind, M_bind, Date_now, get, modify, mret, M_ret.
  cbn beta iota. eexists _, _, _. split; [reflexivity|].
  cbn [db setDb setTicks checks].
  assert (Forall (fun c => id c < 1 + foldr Z.max 0 (id <$> checks (db w)))
                 (checks (db w))) as Hfresh.
  { apply Forall_forall. intros c Hc.
    assert (id c <= foldr Z.max 0 (id <$> checks (db w))); [|lia].
    apply foldr_max_bound, list_elem_of_fmap. by exists c. }
  split; [exact Hfresh|]. split; [reflexivity|]. split; [|done].
  rewrite filter_app.
  assert (filter (fun c => id c = 1 + foldr Z.max 0 (id <$> checks (db w)))
                 (checks (db w)) = []) as ->.
  { apply elem_of_nil_inv. intros c Hc.
    apply list_elem_of_filter in Hc as [Hid Hc].
    rewrite Forall_forall in Hfresh. specialize (Hfresh c Hc). lia. }
  by rewrite filter_cons_True.
Qed.

(** X25. The check a probe result is stored as gets an id no stored
    check has, and looking that id up returns the row just stored, with
    the site it was probed for and the fields of the result: this is
    the row [detectAnomalies] is then run on. The rows that were
    there stay, and no other table changes. *)
Theorem insertCheck_then_lookup (siteId : Z) (result : CheckResult)
  (w : World) :
  let after := insertCheck env siteId result w in
  exists (newId : Z) (row : Check),
    after.1 = Ok newId
    /\ Forall (fun c => id c <> newId) (checks (db w))
    /\ checks (db after.2) = checks (db w) ++ [row]
    /\ head (filter (fun c => id c = newId) (checks (db after.2))) = Some row
    /\ Schema.siteId row = siteId
    /\ Schema.statusCode row = statusCode result
    /\ Schema.isUp row = Some (isUp result)
    /\ Schema.errorMessage row = errorMessage result
    /\ Schema.bodyHash row = bodyHash result
    /\ anomalies (db after.2) = anomalies (db w)
    /\ sites (db after.2) = sites (db w).
Proof.
  cbn zeta.
  destruct (insertCheck_effect siteId result w)
    as (newId & row & w' & -> & Hfresh & Hchecks & Hhead
        & (H1 & H2 & H3 & H4 & H5) & (Hs & _ & Ha & _)).
  exists newId, row. cbn [fst snd]. repeat split; try done.
  eapply Forall_impl; [exact Hfresh|]. intros c Hc. cbn beta in Hc. lia.
Qed.




(** With no active site a tick returns 0 at once: nothing is
    probed, read from the clock or written, however many inactive
    sites there are. *)
Lemma runChecks_no_active_site (w : World) :
  Forall (fun s => site_isActive s = false) (sites (db w)) ->
  runChecks env w = (Ok 0, w).
Proof.
  intros Hinactive. unfold runChecks.
  unfold mbind at 1. unfold M_bind at 1. cbn [get].
  assert (filter (fun s => site_isActive s = true) (sites (db w)) = []) as ->;
    [|done].
  apply elem_of_nil_inv. intros s Hs.
  apply list_elem_of_filter in Hs as [Hactive Hs].
  rewrite Forall_forall in Hinactive. specialize (Hinactive s Hs). congruence.
Qed.

End SchedulerMore.

(** ** The dashboard password *)

Section AuthFacts.
Import Schema Runtime Auth.

Variable env : Env.

Lemma checkPassword_reads_only (envPassword : option string)
  (password : string) (w : World) :
  (checkPassword env envPassword password w).2 = w.
Proof.
  unfold checkPassword, getStoredPasswordHash, getEnvPassword,
    timingSafeEqual, mbind, M_bind, get, mret, M_ret, throw.
  cbn beta iota.
  destruct (Js.truthyStr (storedPasswordHashOf (db w))).
  - by destruct (_ =? _)%nat.
  - by destruct (negb (Js.truthyStr envPassword)).
Qed.

Lemma head_filter_upsert (key value : string) (rows : list (string * string)) :
  head (filter (fun row => fst row = key) (upsertSetting key value rows))
  = Some (key, value).
Proof.
  unfold upsertSetting. destruct (bool_decide _) eqn:E.
  - apply bool_decide_eq_true in E.
    induction E as [row rows Hrow|row rows Hrows IH].
    + rewrite fmap_cons, decide_True by done. by rewrite filter_cons_True.
    + rewrite fmap_cons. destruct (decide (fst row = key)) as [Hk|Hk].
      * by rewrite filter_cons_True.
      * by rewrite filter_cons_False.
  - apply bool_decide_eq_false in E. rewrite filter_app.
    assert (filter (fun row => fst row = key) rows = []) as ->.
    { apply elem_of_nil_inv. intros row Hrow.
      apply list_elem_of_filter in Hrow as [Hkey Hin].
      apply E, Exists_exists. by exists row. }
    by rewrite filter_cons_True.
Qed.

(** Once a non-empty hash is stored, the environment password no
    longer counts: [checkPassword] compares the hash of the password
    with the stored hash and nothing else, and it throws when the two
    differ in length. *)
Lemma checkPassword_stored_hash (envPassword : option string)
  (password hash : string) (w : World) :
  storedPasswordHashOf (db w) = Some hash ->
  hash <> "" ->
  checkPassword env envPassword password w =
  (if (String.length (hashPassword env password) =? String.length hash)%nat
   then Ok (bool_decide (hashPassword env password = hash))
   else Throw "RangeError: Input buffers must have the same byte length",
   w).
Proof.
  intros Hstored Hne.
  unfold checkPassword, getStoredPasswordHash, timingSafeEqual,
    mbind, M_bind, get, mret, M_ret, throw.
  cbn beta iota. rewrite Hstored.
  assert (Js.truthyStr (Some hash) = true) as -> by by destruct hash.
  cbn [default from_option Datatypes.id]. by destruct (_ =? _)%nat.
Qed.

(** X27. After a successful [changePassword] the new password is
    accepted, whatever the environment password is. *)
Theorem changePassword_then_checkPassword
  (envPassword envPassword' : option string)
  (currentPassword newPassword : string) (w : World) :
  (changePassword env envPassword currentPassword newPassword w).1 = Ok true ->
  hashPassword env newPassword <> "" ->
  (checkPassword env envPassword' newPassword
     (changePassword env envPassword currentPassword newPassword w).2).1
  = Ok true.
Proof.
  intros Hchanged Hhash. revert Hchanged.
  unfold changePassword, mbind, M_bind, modify, mret, M_ret.
  destruct (checkPassword env envPassword currentPassword w)
    as [[[]|e] w1]; cbn [negb fst snd]; try done.
  intros _.
  rewrite (checkPassword_stored_hash envPassword' newPassword
             (hashPassword env newPassword)); [|..|done].
  - cbn [fst]. rewrite Nat.eqb_refl. by rewrite bool_decide_eq_true_2.
  - unfold storedPasswordHashOf. cbn [db setDb settings].
    by rewrite head_filter_upsert.
Qed.

(** X28. A [changePassword] that does not succeed, because the current
    password is wrong or cannot be checked, writes nothing. *)
Theorem changePassword_failure_writes_nothing
  (envPassword : option string) (currentPassword newPassword : string)
  (w : World) :
  (changePassword env envPassword currentPassword newPassword w).1 <> Ok true ->
  (changePassword env envPassword currentPassword newPassword w).2 = w.
Proof.
  pose proof (checkPassword_reads_only envPassword currentPassword w) as Hw.
  unfold changePassword, mbind, M_bind, modify, mret, M_ret.
  destruct (checkPassword env envPassword currentPassword w)
    as [[[]|e] w1]; cbn [negb fst snd] in *; by subst w1.
Qed.

End AuthFacts.

(** ** The retention job *)

Section RetentionFacts.
Import Schema Runtime DataRetention.

Variable env : Env.
Variable daysBefore : Z -> Z -> Z.
Variable foreignKeys : bool.

Lemma length_filter_split {A : Type} (p : A -> bool) (l : list A) :
  Z.of_nat (length l) - Z.of_nat (length (filter (fun a => p a = false) l))
  = Z.of_nat (length (filter (fun a => p a = true) l)).
Proof.
  induction l as [|a l IH]; [done|].
  destruct (p a) eqn:E.
  - rewrite filter_cons_False by (rewrite E; done).
    rewrite filter_cons_True by done. cbn [length]. lia.
  - rewrite filter_cons_True by done.
    rewrite (filter_cons_False (fun a => p a = true)) by (rewrite E; done).
    cbn [length]. lia.
Qed.

(** X29. After a cleanup no check and no anomaly older than the cutoff
    is left; the checks that are not older are all kept, in order; the
    two counts returned are the numbers of rows the two deletes
    removed; sites and settings are not touched. *)
Theorem runCleanup_removes_old_rows (w : World) :
  let cutoff := daysBefore RETENTION_DAYS (clock env (ticks w)) in
  exists (deletedChecks deletedAnomalies : Z) (w' : World),
    runCleanup env daysBefore foreignKeys w
    = (Ok (deletedChecks, deletedAnomalies), w')
    /\ checks (db w')
       = filter (fun c => olderThan cutoff (checkedAt c) = false) (checks (db w))
    /\ Forall (fun a => olderThan cutoff (row_createdAt a) = false
                        /\ a ∈ anomalies (db w))
              (anomalies (db w'))
    /\ Z.of_nat (length (checks (db w)))
       = Z.of_nat (length (checks (db w'))) + deletedChecks
    /\ deletedAnomalies
       = Z.of_nat (length (filter (fun a => olderThan cutoff (row_createdAt a)
                                            = true)
                                  (anomalies (db w))))
    /\ sites (db w') = sites (db w)
    /\ siteSettings (db w') = siteSettings (db w)
    /\ settings (db w') = settings (db w).
Proof.
  cbn zeta.
  unfold runCleanup, mbind, M_bind, Date_now, get, modify, mret, M_ret.
  cbn beta iota. eexists _, _, _. split; [reflexivity|].
  cbn [db setDb setTicks checks anomalies sites siteSettings settings ticks].
  split; [reflexivity|]. split; [|split; [lia|split; [|done]]].
  - assert (Forall (fun a =>
              olderThan (daysBefore RETENTION_DAYS (clock env (ticks w)))
                        (row_createdAt a) = false
              /\ a ∈ anomalies (db w))
              (filter (fun a =>
                 olderThan (daysBefore RETENTION_DAYS (clock env (ticks w)))
                           (row_createdAt a) = false) (anomalies (db w))))
      as Hkept.
    { apply Forall_forall. intros a Ha.
      by apply list_elem_of_filter in Ha. }
    destruct foreignKeys; [|exact Hkept].
    apply Forall_forall. intros a Ha.
    apply list_elem_of_filter in Ha as [_ Ha].
    rewrite Forall_forall in Hkept. by apply Hkept.
  - apply (length_filter_split
             (fun a => olderThan (daysBefore RETENTION_DAYS (clock env (ticks w)))
                                 (row_createdAt a))).
Qed.

End RetentionFacts.

(** ** The life of a downtime marker *)

Section EscalationLifecycle.
Import Schema Runtime SlackNotifier.

Variable env : Env.

(** X30. A site that is not marked down is not escalated. Once
    [recordDowntimeStart] has marked it, [isEscalated] is true exactly
    when the clock is at least the threshold (five minutes when none
    is given) past the marker; marking it again changes nothing; and
    after [clearDowntime] it is not escalated any more. *)
Theorem escalation_lifecycle (siteId : Z) (thresholdMinutes : option Z)
  (w : World) :
  downtimeStartMap w !! siteId = None ->
  let w1 := (recordDowntimeStart env siteId w).2 in
  (isEscalated env siteId thresholdMinutes w).1 = Ok false
  /\ (isEscalated env siteId thresholdMinutes w1).1
     = Ok (bool_decide (default 5 thresholdMinutes * 60000
                        <= clock env (S (ticks w)) - clock env (ticks w)))
  /\ (recordDowntimeStart env siteId w1).2 = w1
  /\ (isEscalated env siteId thresholdMinutes (clearDowntime siteId w1).2).1
     = Ok false.
Proof.
  intros Hnone w1.
  destruct (recordDowntimeStart_keeps_first env siteId w Hnone)
    as [Hmarker Hagain].
  fold w1 in Hmarker, Hagain.
  split; [|split; [|split]].
  - pose proof (isEscalated_iff env siteId thresholdMinutes w) as H.
    rewrite Hnone in H. by rewrite H.
  - pose proof (isEscalated_iff env siteId thresholdMinutes w1) as H.
    rewrite Hmarker in H. rewrite H. subst w1.
    assert (recordDowntimeStart env siteId w =
            (Ok tt,
             setDowntimeStartMap
               (<[siteId := clock env (ticks w)]> (downtimeStartMap w))
               (setTicks (S (ticks w)) w))) as ->; [|done].
    unfold recordDowntimeStart, mbind, M_bind, get, mret, M_ret, Date_now,
      modify.
    cbn beta iota.
    by rewrite decide_False by (rewrite Hnone; by intros [? ?]).
  - exact Hagain.
  - by destruct (clearDowntime_resets env siteId thresholdMinutes w1)
      as [Hclear _].
Qed.

End EscalationLifecycle.

(** ** The properties at concrete inputs *)

Lemma detect_unreachable_downtime_witness :
  exists a : Schema.AnomalyRecord,
    AnomalyDetector.ofType Schema.downtime
      (AnomalyDetector.detect Examples.healthyEnv 7 1 MoreExamples.checkRefused
         [] Examples.exampleSite None 1700000000000) = [a]
    /\ Schema.severity a = Schema.critical
    /\ Schema.description a
       = "site unreachable: connect ECONNREFUSED 127.0.0.1:80".
Proof.
  apply (detect_unreachable_downtime Examples.healthyEnv 7 1
           MoreExamples.checkRefused [] Examples.exampleSite None
           1700000000000).
  - reflexivity.
  - reflexivity.
Defined.

Lemma detect_slow_response_override_witness :
  let slow :=
    AnomalyDetector.ofType Schema.slow_response
      (AnomalyDetector.detect Examples.healthyEnv 7 1 Examples.check250
         Examples.history100 Examples.exampleSite
         (Some MoreExamples.thresholdSettings) 1700000000000) in
  slow = AnomalyDetector.ofType Schema.slow_response
           (AnomalyDetector.detect Examples.healthyEnv 7 1 Examples.check250
              [] Examples.exampleSite (Some MoreExamples.thresholdSettings)
              1700000000000)
  /\ (200 < 250 ->
        exists a : Schema.AnomalyRecord,
          slow = [a]
          /\ (Schema.severity a = Schema.high <-> 2 * 200 < 250)
          /\ (Schema.severity a = Schema.medium <-> 250 <= 2 * 200))
  /\ (250 <= 200 -> slow = []).
Proof.
  apply (detect_slow_response_override Examples.healthyEnv 7 1
           Examples.check250 Examples.history100 Examples.exampleSite
           (Some MoreExamples.thresholdSettings) 1700000000000
           MoreExamples.thresholdSettings 200 250).
  - reflexivity.
  - reflexivity.
  - reflexivity.
Defined.

Lemma detect_slow_response_no_baseline_witness :
  AnomalyDetector.ofType Schema.slow_response
    (AnomalyDetector.detect Examples.healthyEnv 7 1 Examples.check250
       [Examples.mkCheck 6 1 None None false None None 1699999940000]
       Examples.exampleSite None 1700000000000) = [].
Proof.
  apply (detect_slow_response_no_baseline Examples.healthyEnv 7 1
           Examples.check250
           [Examples.mkCheck 6 1 None None false None None 1699999940000]
           Examples.exampleSite None 1700000000000).
  - reflexivity.
  - repeat constructor.
Defined.

Lemma detect_content_change_most_recent_hash_witness :
  AnomalyDetector.ofType Schema.content_change
    (AnomalyDetector.detect Examples.healthyEnv 7 1
       (MoreExamples.checkWith 7 (Some "bbb") None)
       ([MoreExamples.checkWith 6 None None]
        ++ MoreExamples.checkWith 5 (Some "aaa") None
        :: [MoreExamples.checkWith 4 (Some "bbb") None])
       Examples.exampleSite None 1700000000000)
  = [AnomalyDetector.mkAnomaly 7 1 Schema.content_change
       "response body content changed since last check" Schema.low].
Proof.
  apply (detect_content_change_most_recent_hash Examples.healthyEnv 7 1
           (MoreExamples.checkWith 7 (Some "bbb") None)
           ([MoreExamples.checkWith 6 None None]
            ++ MoreExamples.checkWith 5 (Some "aaa") None
            :: [MoreExamples.checkWith 4 (Some "bbb") None])
           Examples.exampleSite None 1700000000000
           [MoreExamples.checkWith 6 None None]
           [MoreExamples.checkWith 4 (Some "bbb") None]
           (MoreExamples.checkWith 5 (Some "aaa") None) "bbb" "aaa").
  - reflexivity.
  - repeat constructor.
  - reflexivity.
  - reflexivity.
Defined.

Lemma detect_header_removed_witness :
  exists a : Schema.AnomalyRecord,
    a ∈ AnomalyDetector.ofType Schema.header_anomaly
          (AnomalyDetector.detect MoreExamples.headersEnv 7 1
             (MoreExamples.checkWith 7 None (Some "without-frame-options"))
             ([] ++ MoreExamples.checkWith 6 None (Some "with-frame-options")
              :: [])
             Examples.exampleSite None 1700000000000)
    /\ Schema.severity a = Schema.high
    /\ Js.includes (Schema.description a) "x-frame-options".
Proof.
  apply (detect_header_removed MoreExamples.headersEnv 7 1
           (MoreExamples.checkWith 7 None (Some "without-frame-options"))
           ([] ++ MoreExamples.checkWith 6 None (Some "with-frame-options")
            :: [])
           Examples.exampleSite None 1700000000000
           [] [] (MoreExamples.checkWith 6 None (Some "with-frame-options"))
           "with-frame-options" "without-frame-options" "x-frame-options").
  - reflexivity.
  - constructor.
  - reflexivity.
  - reflexivity.
  - apply (bool_decide_unpack _). vm_compute. exact I.
  - exists "DENY"%string. vm_compute. reflexivity.
  - vm_compute. reflexivity.
Defined.

Lemma detect_header_same_snapshot_witness :
  AnomalyDetector.ofType Schema.header_anomaly
    (AnomalyDetector.detect MoreExamples.headersEnv 7 1
       (MoreExamples.checkWith 7 None (Some "with-frame-options"))
       ([] ++ MoreExamples.checkWith 6 None (Some "with-frame-options") :: [])
       Examples.exampleSite None 1700000000000) = [].
Proof.
  apply (detect_header_same_snapshot MoreExamples.headersEnv 7 1
           (MoreExamples.checkWith 7 None (Some "with-frame-options"))
           ([] ++ MoreExamples.checkWith 6 None (Some "with-frame-options")
            :: [])
           Examples.exampleSite None 1700000000000
           [] [] (MoreExamples.checkWith 6 None (Some "with-frame-options"))
           "with-frame-options").
  - reflexivity.
  - constructor.
  - reflexivity.
  - reflexivity.
Defined.

Lemma detectAnomalies_missing_rows_witness :
  AnomalyDetector.detectAnomalies Examples.healthyEnv 7 1
    (Examples.freshWorld Examples.emptyDb)
  = (Runtime.Ok [], Examples.freshWorld Examples.emptyDb).
Proof.
  apply (detectAnomalies_missing_rows Examples.healthyEnv 7 1
           (Examples.freshWorld Examples.emptyDb)).
  left. constructor.
Defined.

Lemma two_dispatches_within_window_witness :
  let env := Examples.quietEnv (fun n => 61000 + 5000 * Z.of_nat n) in
  let w := Examples.freshWorld (Examples.withWebhook Examples.emptyDb) in
  let w1 := (SlackNotifier.notifyAnomaly env Examples.downtimeNotification w).2 in
  let w2 := (SlackNotifier.notifyAnomaly env Examples.downtimeNotification w1).2 in
  (exists payload : Runtime.Payload,
     Runtime.outbox w2
     = Runtime.outbox w
       ++ [(default "" (SlackNotifier.webhookUrlOf (Runtime.db w)), payload)])
  /\ Runtime.rateLimitMap w2 !! SlackNotifier.rateLimitKey 1 "downtime"
     = Some 61000.
Proof.
  apply (two_dispatches_within_window
           (Examples.quietEnv (fun n => 61000 + 5000 * Z.of_nat n))
           Examples.downtimeNotification Examples.downtimeNotification
           (Examples.freshWorld (Examples.withWebhook Examples.emptyDb))).
  - reflexivity.
  - reflexivity.
  - reflexivity.
  - reflexivity.
  - vm_compute. discriminate.
  - vm_compute. reflexivity.
Defined.

Lemma two_dispatches_after_window_witness :
  let env := Examples.quietEnv (fun n => 61000 + 300000 * Z.of_nat n) in
  let w := Examples.freshWorld (Examples.withWebhook Examples.emptyDb) in
  let w1 := (SlackNotifier.notifyAnomaly env Examples.downtimeNotification w).2 in
  let w2 := (SlackNotifier.notifyAnomaly env Examples.downtimeNotification w1).2 in
  (exists p1 p2 : Runtime.Payload,
     Runtime.outbox w2
     = Runtime.outbox w
       ++ [(default "" (SlackNotifier.webhookUrlOf (Runtime.db w)), p1);
           (default "" (SlackNotifier.webhookUrlOf (Runtime.db w)), p2)])
  /\ Runtime.rateLimitMap w2 !! SlackNotifier.rateLimitKey 1 "downtime"
     = Some 661000.
Proof.
  apply (two_dispatches_after_window
           (Examples.quietEnv (fun n => 61000 + 300000 * Z.of_nat n))
           Examples.downtimeNotification Examples.downtimeNotification
           (Examples.freshWorld (Examples.withWebhook Examples.emptyDb))).
  - reflexivity.
  - reflexivity.
  - reflexivity.
  - reflexivity.
  - vm_compute. discriminate.
  - vm_compute. discriminate.
Defined.

Lemma escalation_lifecycle_witness :
  let env := Examples.quietEnv (fun n => 61000 + 300000 * Z.of_nat n) in
  let w := Examples.freshWorld Examples.emptyDb in
  let w1 := (SlackNotifier.recordDowntimeStart env 1 w).2 in
  (SlackNotifier.isEscalated env 1 None w).1 = Runtime.Ok false
  /\ (SlackNotifier.isEscalated env 1 None w1).1
     = Runtime.Ok (bool_decide (default 5 None * 60000
                                <= Runtime.clock env (S (Runtime.ticks w))
                                   - Runtime.clock env (Runtime.ticks w)))
  /\ (SlackNotifier.recordDowntimeStart env 1 w1).2 = w1
  /\ (SlackNotifier.isEscalated env 1 None
        (SlackNotifier.clearDowntime 1 w1).2).1 = Runtime.Ok false.
Proof.
  apply (escalation_lifecycle
           (Examples.quietEnv (fun n => 61000 + 300000 * Z.of_nat n))
           1 None (Examples.freshWorld Examples.emptyDb)).
  reflexivity.
Defined.

Lemma performCheck_result_shape_witness :
  Shapes.wellShaped 6 MoreExamples.healthyResult.
Proof.
  apply (performCheck_result_shape Examples.healthyEnv "https://example.com"
           (Examples.freshWorld Examples.emptyDb) MoreExamples.healthyResult
           (Runtime.setTicks 3 (Examples.freshWorld Examples.emptyDb))).
  vm_compute. reflexivity.
Defined.

Ltac redirect_hop next :=
  split; [reflexivity|]; exists next; split;
  [split; [by eexists|]; split; [lia|]; intros ?; by eexists _, _, _|].

Lemma performCheck_budget_exhausted_witness :
  exists (result : CheckEngine.CheckResult) (w' : Runtime.World),
    CheckEngine.performCheck MoreExamples.slowRedirectEnv "http://a.test/"
      (Examples.freshWorld Examples.emptyDb) = (Runtime.Ok result, w')
    /\ CheckEngine.errorCode result = Some "ETIMEDOUT"
    /\ CheckEngine.errorMessage result = Some "timeout after 10000ms"
    /\ CheckEngine.isUp result = false
    /\ CheckEngine.statusCode result = None
    /\ CheckEngine.redirectChain result
       = CheckEngine.chainOrNull
           [{| Schema.hop_url := "http://a.test/";
               Schema.hop_statusCode := 301 |}].
Proof.
  apply (performCheck_budget_exhausted MoreExamples.slowRedirectEnv
           "http://a.test/" "http://b.test/"
           [{| Schema.hop_url := "http://a.test/";
               Schema.hop_statusCode := 301 |}]
           (Examples.freshWorld Examples.emptyDb)).
  - cbn [CheckEngine.redirectPath Schema.hop_url Schema.hop_statusCode].
    redirect_hop "http://b.test/"%string. reflexivity.
  - apply (bool_decide_unpack _). vm_compute. exact I.
  - apply (bool_decide_unpack _). vm_compute. exact I.
  - vm_compute. lia.
  - intros i Hi. cbn [length] in Hi. assert (i = 0%nat) as -> by lia.
    vm_compute. reflexivity.
  - vm_compute. discriminate.
Defined.

Lemma performCheck_request_error_witness :
  exists (result : CheckEngine.CheckResult) (w' : Runtime.World),
    CheckEngine.performCheck MoreExamples.refusingEnv "http://a.test/"
      (Examples.freshWorld Examples.emptyDb) = (Runtime.Ok result, w')
    /\ CheckEngine.errorMessage result
       = Some "connect ECONNREFUSED 127.0.0.1:80"
    /\ CheckEngine.errorCode result = Some "ECONNREFUSED"
    /\ CheckEngine.isUp result = false
    /\ CheckEngine.statusCode result = None
    /\ CheckEngine.bodyHash result = None
    /\ CheckEngine.redirectChain result = CheckEngine.chainOrNull [].
Proof.
  apply (performCheck_request_error MoreExamples.refusingEnv
           "http://a.test/" "http://a.test/" []
           (Examples.freshWorld Examples.emptyDb)).
  - reflexivity.
  - constructor.
  - apply not_elem_of_nil.
  - vm_compute. lia.
  - intros i Hi. cbn [length] in Hi. lia.
  - vm_compute. reflexivity.
  - by eexists.
  - reflexivity.
Defined.

Lemma performCheck_final_response_witness :
  exists (result : CheckEngine.CheckResult) (w' : Runtime.World),
    CheckEngine.performCheck Examples.healthyEnv "https://example.com"
      (Examples.freshWorld Examples.emptyDb) = (Runtime.Ok result, w')
    /\ CheckEngine.statusCode result = Some 200
    /\ CheckEngine.isUp result = CheckEngine.isUpOf (Some 200)
    /\ CheckEngine.errorMessage result = None
    /\ CheckEngine.errorCode result = None
    /\ CheckEngine.bodyHash result
       = Some (Runtime.sha256_hex Examples.healthyEnv "ok")
    /\ CheckEngine.headersSnapshot result
       = Some (Runtime.JSON_stringify Examples.healthyEnv
                 [("content-type", Runtime.HStr "text/html")])
    /\ CheckEngine.redirectChain result = CheckEngine.chainOrNull [].
Proof.
  apply (performCheck_final_response Examples.healthyEnv
           "https://example.com" "https://example.com" []
           (Examples.freshWorld Examples.emptyDb)
           eq_refl (NoDup_nil_2) (not_elem_of_nil _)
           ltac:(vm_compute; lia)
           ltac:(intros i Hi; cbn [length] in Hi; lia)
           (Some 200) [("content-type", Runtime.HStr "text/html")] "ok" None).
  - vm_compute. reflexivity.
  - by eexists.
  - reflexivity.
  - intros code [= <-]. left. lia.
Defined.

Lemma performCheck_too_many_redirects_witness :
  exists (result : CheckEngine.CheckResult) (w' : Runtime.World),
    CheckEngine.performCheck (Examples.redirectingEnv Examples.scenarioE)
      "http://a.test/" (Examples.freshWorld Examples.emptyDb)
    = (Runtime.Ok result, w')
    /\ CheckEngine.errorCode result = Some "TOO_MANY_REDIRECTS"
    /\ CheckEngine.errorMessage result = Some "too many redirects (>5)"
    /\ CheckEngine.isUp result = false
    /\ CheckEngine.statusCode result = Some 302
    /\ CheckEngine.redirectChain result
       = Some (MoreExamples.fiveHops
               ++ [{| Schema.hop_url := "http://f.test/";
                      Schema.hop_statusCode := 302 |}]).
Proof.
  apply (performCheck_too_many_redirects
           (Examples.redirectingEnv Examples.scenarioE)
           "http://a.test/" "http://f.test/" MoreExamples.fiveHops
           (Examples.freshWorld Examples.emptyDb)) with
    (headers := [("location", Runtime.HStr "http://b.test/")])
    (body := ""%string) (socket := None).
  - unfold MoreExamples.fiveHops, MoreExamples.hop302.
    cbn [fmap list_fmap CheckEngine.redirectPath Schema.hop_url
         Schema.hop_statusCode].
    redirect_hop "http://b.test/"%string.
    redirect_hop "http://c.test/"%string.
    redirect_hop "http://d.test/"%string.
    redirect_hop "http://e.test/"%string.
    redirect_hop "http://f.test/"%string.
    reflexivity.
  - apply (bool_decide_unpack _). vm_compute. exact I.
  - apply (bool_decide_unpack _). vm_compute. exact I.
  - vm_compute. lia.
  - intros i Hi. change (length MoreExamples.fiveHops) with 5%nat in Hi.
    unfold Examples.redirectingEnv, Examples.freshWorld,
      CheckEngine.CHECK_TIMEOUT_MS.
    cbn [Runtime.clock Runtime.ticks]. lia.
  - reflexivity.
  - vm_compute. reflexivity.
  - by eexists.
  - reflexivity.
  - lia.
  - reflexivity.
Defined.

Lemma changePassword_then_checkPassword_witness :
  (Auth.checkPassword Examples.healthyEnv None "hunter2"
     (Auth.changePassword Examples.healthyEnv (Some "secret") "secret"
        "hunter2" (Examples.freshWorld Examples.emptyDb)).2).1
  = Runtime.Ok true.
Proof.
  apply (changePassword_then_checkPassword Examples.healthyEnv
           (Some "secret") None "secret" "hunter2"
           (Examples.freshWorld Examples.emptyDb)).
  - vm_compute. reflexivity.
  - vm_compute. discriminate.
Defined.

Lemma changePassword_failure_writes_nothing_witness :
  (Auth.changePassword Examples.healthyEnv (Some "secret") "guess" "hunter2"
     (Examples.freshWorld Examples.emptyDb)).2
  = Examples.freshWorld Examples.emptyDb.
Proof.
  apply (changePassword_failure_writes_nothing Examples.healthyEnv
           (Some "secret") "guess" "hunter2"
           (Examples.freshWorld Examples.emptyDb)).
  vm_compute. discriminate.
Defined.
